(** * Flower production facility: a shallow embedding and its properties

    The development follows [flower_production_facility.py].  The program
    reads bouquet designs and a stream of flowers, keeps one dictionary of
    designs and one counter of flowers per size (large, small), and prints a
    bouquet every time the flowers counted so far suffice for a design.

    Modelling choices, all taken from the source:
    - a Python [str] is a [string]; a string of length one (a dictionary
      key such as [flower[0]] or [bouquet_design[0]], an element returned by
      [re.findall(r'[a-z]', ...)]) is an [ascii];
    - a Python [dict] keeps its keys in insertion order, and the program
      depends on it (iteration over [bouquet_designs.keys()] and over
      [flowers_counter]): a dictionary is an association list in insertion
      order, [dict_set] overwrites the value of a key in place and appends
      a key that is new;
    - [defaultdict(int)] is such a dictionary read with default [0];
    - a Python [int] is a [Z];
    - [print] appends a line to the list of printed lines;
    - an uncaught exception is [None]: the [IndexError] of an index or of
      [pop], and the [ValueError] of [int] on a numeral of more than 4300
      digits.  The functions named after the source compute what the program
      computes as long as no conversion raises; [Module Checked] repeats the
      matching with the conversion that can raise, and the two are proved to
      agree when the numerals have at most 4300 digits.
    The text is ASCII. *)

From Stdlib Require Import List String Ascii ZArith Bool Arith Lia.
Import ListNotations.

Local Open Scope string_scope.
Local Open Scope list_scope.
Local Open Scope Z_scope.

(** ** Insertion-ordered dictionaries *)

Section OrderedDict.

Context {V : Type}.

Definition dict : Type := list (ascii * V).

Definition keys (d : dict) : list ascii := map fst d.

Definition values (d : dict) : list V := map snd d.

(** [d[k]], [None] standing for [KeyError]. *)
Fixpoint dict_get (d : dict) (k : ascii) : option V :=
  match d with
  | [] => None
  | (k', v) :: d' => if Ascii.eqb k' k then Some v else dict_get d' k
  end.

(** [k in d] *)
Definition dict_mem (d : dict) (k : ascii) : bool :=
  match dict_get d k with Some _ => true | None => false end.

(** [d[k] = v] *)
Fixpoint dict_set (d : dict) (k : ascii) (v : V) : dict :=
  match d with
  | [] => [(k, v)]
  | (k', v') :: d' =>
      if Ascii.eqb k' k then (k', v) :: d' else (k', v') :: dict_set d' k v
  end.

(** [dict(pairs)]: later pairs overwrite earlier ones with the same key. *)
Definition dict_of_pairs (pairs : list (ascii * V)) : dict :=
  fold_left (fun d kv => dict_set d (fst kv) (snd kv)) pairs [].

End OrderedDict.

Arguments dict : clear implicits.

(** ** Text: the regular expressions and string methods the program calls *)

Definition is_digit (c : ascii) : bool :=
  (Ascii.leb "0" c && Ascii.leb c "9")%char.

Definition is_lower (c : ascii) : bool :=
  (Ascii.leb "a" c && Ascii.leb c "z")%char.

Definition is_upper (c : ascii) : bool :=
  (Ascii.leb "A" c && Ascii.leb c "Z")%char.

Definition digit_value (c : ascii) : Z :=
  Z.of_nat (nat_of_ascii c) - 48.

(** The value of [int(s)] on a string of decimal digits, the only strings the
    program converts (they all come from [re.findall(r'\d+', ...)]).  The
    conversion itself, which raises beyond 4300 digits, is [Checked.int]. *)
Definition int (s : string) : Z :=
  fold_left (fun acc c => 10 * acc + digit_value c) (list_ascii_of_string s) 0.

(** [s[n:]] *)
Fixpoint str_from (n : nat) (s : string) : string :=
  match n, s with
  | O, _ => s
  | S _, EmptyString => EmptyString
  | S n', String _ s' => str_from n' s'
  end.

(** [c in s] for a one-character [c] *)
Fixpoint str_contains (c : ascii) (s : string) : bool :=
  match s with
  | EmptyString => false
  | String c' s' => Ascii.eqb c' c || str_contains c s'
  end.

Definition flush (run : string) : list string :=
  match run with EmptyString => [] | _ => [run] end.

(** [re.findall(r'\d+', s)]: the maximal runs of digits, left to right.
    [run] is the run being read. *)
Fixpoint digit_runs (run : string) (s : string) : list string :=
  match s with
  | EmptyString => flush run
  | String c s' =>
      if is_digit c then digit_runs (run ++ String c EmptyString)%string s'
      else flush run ++ digit_runs EmptyString s'
  end.

Definition findall_digits (s : string) : list string := digit_runs EmptyString s.

(** [re.findall(r'[a-z]', s)] *)
Fixpoint findall_lower (s : string) : list ascii :=
  match s with
  | EmptyString => []
  | String c s' => if is_lower c then c :: findall_lower s' else findall_lower s'
  end.

(** [s.replace(old, '')] for a non-empty [old]: scanning from the left, every
    occurrence of [old] is dropped and the scan resumes after it.  [skip]
    counts the characters of the current occurrence still to drop. *)
Fixpoint remove_occurrences (old : string) (skip : nat) (s : string) : string :=
  match s with
  | EmptyString => EmptyString
  | String c s' =>
      match skip with
      | S n => remove_occurrences old n s'
      | O =>
          if prefix old s then remove_occurrences old (String.length old - 1) s'
          else String c (remove_occurrences old O s')
      end
  end.

(** [s.replace(old, '')]; with an empty [old] Python inserts the empty
    replacement between the characters, which leaves [s] as it is. *)
Definition str_remove (old s : string) : string :=
  match old with
  | EmptyString => s
  | _ => remove_occurrences old O s
  end.

(** [l.pop()]: the last element and the list without it; [None] is the
    [IndexError] of an empty list. *)
Definition pop {A : Type} (l : list A) : option (list A * A) :=
  match rev l with
  | [] => None
  | x :: r => Some (rev r, x)
  end.

(** ** Bouquet designs *)

(** The value stored under a design's name: the dictionary with the keys
    ['total_number_of_flowers'], ['flowers'] and ['bouquet']. *)
Record design : Type := Design {
  total_number_of_flowers : string;
  flowers : dict string;
  bouquet : string
}.

(** [create_bouquet_designs_matching_structure(bouquet_design, container)]. *)
Definition create_bouquet_designs_matching_structure
    (bouquet_design : string) (bouquet_designs_container : dict design)
    : option (dict design) :=
  match String.get 0 bouquet_design with
  | None => None
  | Some name =>
      let number_of_flowers := findall_digits (str_from 2 bouquet_design) in
      let flower_names := findall_lower (str_from 2 bouquet_design) in
      match pop number_of_flowers with
      | None => None
      | Some (number_of_flowers', total) =>
          Some (dict_set bouquet_designs_container name
                  {| total_number_of_flowers := total;
                     flowers := dict_of_pairs (combine flower_names number_of_flowers');
                     bouquet := str_remove total bouquet_design |})
      end
  end.

Example create_docstring_example :
  create_bouquet_designs_matching_structure "BS10b5c16"
    [("A"%char, {| total_number_of_flowers := "25";
                   flowers := [("a"%char, "10"); ("b"%char, "10")];
                   bouquet := "AS10a10b" |})]
  = Some [("A"%char, {| total_number_of_flowers := "25";
                        flowers := [("a"%char, "10"); ("b"%char, "10")];
                        bouquet := "AS10a10b" |});
          ("B"%char, {| total_number_of_flowers := "16";
                        flowers := [("b"%char, "10"); ("c"%char, "5")];
                        bouquet := "BS10b5c" |})].
Proof. reflexivity. Qed.

(** ** Matching flowers with bouquet designs *)

(** A [defaultdict(int)] from flower names to numbers of flowers. *)
Abbreviation counter := (dict Z) (only parsing).

(** [flowers_counter[key]]: the default of a key never seen is [0]. *)
Definition count (flowers_counter : counter) (key : ascii) : Z :=
  match dict_get flowers_counter key with
  | Some n => n
  | None => 0
  end.

(** [key in flowers and flowers_counter[key] >= int(flowers[key])] *)
Definition enough (d : design) (flowers_counter : counter) (key : ascii) : bool :=
  match dict_get (flowers d) key with
  | Some n => int n <=? count flowers_counter key
  | None => false
  end.

(** One key of the dictionary comprehension [matching_flower_numbers]. *)
Definition matching_step (d : design) (flowers_counter : counter)
    (acc : counter) (key : ascii) : counter :=
  if enough d flowers_counter key
  then dict_set acc key (count flowers_counter key)
  else acc.

(** The dictionary comprehension [matching_flower_numbers]: it ranges over
    the keys of [flowers_counter]. *)
Definition matching_flower_numbers (d : design) (flowers_counter : counter) : counter :=
  fold_left (matching_step d flowers_counter) (keys flowers_counter) [].

(** [len(matching_flower_numbers) == len(flowers)] *)
Definition can_make (d : design) (flowers_counter : counter) : bool :=
  Nat.eqb (List.length (matching_flower_numbers d flowers_counter))
          (List.length (flowers d)).

Definition sum (l : list Z) : Z := fold_left Z.add l 0.

Definition number_of_additional_flowers (d : design) : Z :=
  int (total_number_of_flowers d) - sum (map int (values (flowers d))).

(** [if key in flowers: flowers_counter[key] = flowers_counter[key] - int(flowers[key])] *)
Definition subtract_step (d : design) (flowers_counter : counter) (key : ascii) : counter :=
  match dict_get (flowers d) key with
  | Some n => dict_set flowers_counter key (count flowers_counter key - int n)
  | None => flowers_counter
  end.

(** [for key in flowers_counter: if key in flowers: ...]: the keys do not
    change while the loop runs. *)
Definition subtract_flowers (d : design) (flowers_counter : counter) : counter :=
  fold_left (subtract_step d) (keys flowers_counter) flowers_counter.

(** [for key in flowers_counter: if flowers_counter[key] >= n: flowers_counter[key] -= n; break] *)
Fixpoint subtract_additional (n : Z) (ks : list ascii) (flowers_counter : counter) : counter :=
  match ks with
  | [] => flowers_counter
  | key :: ks' =>
      if n <=? count flowers_counter key
      then dict_set flowers_counter key (count flowers_counter key - n)
      else subtract_additional n ks' flowers_counter
  end.

(** The body of the loop over the designs, for one design: the state is the
    counter and the lines printed so far. *)
Definition try_design (st : counter * list string) (d : design) : counter * list string :=
  let (flowers_counter, printed) := st in
  if can_make d flowers_counter then
    let n := number_of_additional_flowers d in
    let c1 := subtract_flowers d flowers_counter in
    let c2 := if 0 <? n then subtract_additional n (keys c1) c1 else c1 in
    (c2, printed ++ [bouquet d])
  else st.

(** The body of the loop for [bouquet_name], which reads
    [bouquet_designs[bouquet_name]]. *)
Definition try_name (bouquet_designs : dict design) (st : counter * list string)
    (bouquet_name : ascii) : counter * list string :=
  match dict_get bouquet_designs bouquet_name with
  | Some d => try_design st d
  | None => st
  end.

(** [for bouquet_name in bouquet_designs.keys(): ...] *)
Definition try_designs (bouquet_designs : dict design) (st : counter * list string)
    : counter * list string :=
  fold_left (try_name bouquet_designs) (keys bouquet_designs) st.

(** [match_flower_streams_with_bouquet_design_structures(flower,
    bouquet_designs, flowers_counter)]: the new counter and the lines printed
    by this call. *)
Definition match_flower_streams_with_bouquet_design_structures
    (flower : string) (bouquet_designs : dict design) (flowers_counter : counter)
    : option (counter * list string) :=
  match String.get 0 flower with
  | None => None
  | Some name =>
      let c := dict_set flowers_counter name (count flowers_counter name + 1) in
      Some (try_designs bouquet_designs (c, []))
  end.

(** ** The facility *)

(** The local variables of [production_facility] and the lines printed. *)
Record facility : Type := Facility {
  small_bouquet_designs : dict design;
  large_bouquet_designs : dict design;
  large_flowers_counter : counter;
  small_flowers_counter : counter;
  printed : list string
}.

(** The first loop of [production_facility]. *)
Fixpoint add_bouquet_designs (bouquet_designs : list string)
    (small large : dict design) : option (dict design * dict design) :=
  match bouquet_designs with
  | [] => Some (small, large)
  | bouquet_design :: rest =>
      if str_contains "L" bouquet_design then
        match create_bouquet_designs_matching_structure bouquet_design large with
        | Some large' => add_bouquet_designs rest small large'
        | None => None
        end
      else
        match create_bouquet_designs_matching_structure bouquet_design small with
        | Some small' => add_bouquet_designs rest small' large
        | None => None
        end
  end.

(** One iteration of the second loop of [production_facility]. *)
Definition receive (f : facility) (flower : string) : option facility :=
  match String.get 1 flower with
  | None => None
  | Some size =>
      if Ascii.eqb size "L" then
        match match_flower_streams_with_bouquet_design_structures
                flower (large_bouquet_designs f) (large_flowers_counter f) with
        | Some (c, out) =>
            Some {| small_bouquet_designs := small_bouquet_designs f;
                    large_bouquet_designs := large_bouquet_designs f;
                    large_flowers_counter := c;
                    small_flowers_counter := small_flowers_counter f;
                    printed := printed f ++ out |}
        | None => None
        end
      else
        match match_flower_streams_with_bouquet_design_structures
                flower (small_bouquet_designs f) (small_flowers_counter f) with
        | Some (c, out) =>
            Some {| small_bouquet_designs := small_bouquet_designs f;
                    large_bouquet_designs := large_bouquet_designs f;
                    large_flowers_counter := large_flowers_counter f;
                    small_flowers_counter := c;
                    printed := printed f ++ out |}
        | None => None
        end
  end.

(** The second loop of [production_facility]. *)
Fixpoint receive_all (f : facility) (stream_of_flowers : list string) : option facility :=
  match stream_of_flowers with
  | [] => Some f
  | flower :: rest =>
      match receive f flower with
      | Some f' => receive_all f' rest
      | None => None
      end
  end.

(** [production_facility], from the designs and the flowers extracted from
    the input file. *)
Definition production_facility (bouquet_designs stream_of_flowers : list string)
    : option facility :=
  match add_bouquet_designs bouquet_designs [] [] with
  | None => None
  | Some (small, large) =>
      receive_all
        {| small_bouquet_designs := small;
           large_bouquet_designs := large;
           large_flowers_counter := [];
           small_flowers_counter := [];
           printed := [] |}
        stream_of_flowers
  end.

(** The tokens the two extraction patterns return: a full match of
    [[A-Z][LS][\d+a-z]+\d+] and of [[a-z][LS]]. *)
Definition in_design_class (c : ascii) : bool :=
  is_digit c || Ascii.eqb c "+" || is_lower c.

Definition is_size (c : ascii) : bool := Ascii.eqb c "L" || Ascii.eqb c "S".

Definition is_bouquet_design (s : string) : bool :=
  match s with
  | String c0 (String c1 rest) =>
      is_upper c0 && is_size c1
      && forallb in_design_class (list_ascii_of_string rest)
      && (2 <=? String.length rest)%nat
      && match rev (list_ascii_of_string rest) with
         | c :: _ => is_digit c
         | [] => false
         end
  | _ => false
  end.

Definition is_flower (s : string) : bool :=
  match s with
  | String c0 (String c1 EmptyString) => is_lower c0 && is_size c1
  | _ => false
  end.

Definition printed_of (r : option facility) : option (list string) :=
  option_map printed r.

Example scenario_1_and_2 :
  printed_of (production_facility ["AS2a2b5"] ["aS"; "bS"; "aS"; "bL"; "bS"; "bS"])
  = Some ["AS2a2b"].
Proof. reflexivity. Qed.

Example two_sizes :
  printed_of (production_facility ["AS1a1b2"; "BL1a1b2"] ["aL"; "bS"; "aS"; "bL"])
  = Some ["AS1a1b"; "BL1a1b"].
Proof. reflexivity. Qed.

(** ** The program with the digit limit of [int] *)

(** [int(s)] raises [ValueError] on a numeral of more than 4300 digits (the
    default of [sys.int_max_str_digits]).  The functions above give what the
    program computes as long as no conversion raises; this module repeats
    the matching with a conversion that can raise, in the order in which the
    program converts.  [None] is an uncaught exception, [IndexError] or
    [ValueError]. *)
Module Checked.

Definition int_max_str_digits : nat := 4300.

(** [int(s)]; the value is that of the conversion without limit. *)
Definition int (s : string) : option Z :=
  if (String.length s <=? int_max_str_digits)%nat then Some (int s) else None.

(** [key in flowers and flowers_counter[key] >= int(flowers[key])] *)
Definition enough (d : design) (flowers_counter : counter) (key : ascii) : option bool :=
  match dict_get (flowers d) key with
  | Some n =>
      match int n with
      | Some v => Some (v <=? count flowers_counter key)
      | None => None
      end
  | None => Some false
  end.

Definition matching_step (d : design) (flowers_counter : counter)
    (acc : option counter) (key : ascii) : option counter :=
  match acc with
  | None => None
  | Some m =>
      match enough d flowers_counter key with
      | None => None
      | Some true => Some (dict_set m key (count flowers_counter key))
      | Some false => Some m
      end
  end.

Definition matching_flower_numbers (d : design) (flowers_counter : counter)
    : option counter :=
  fold_left (matching_step d flowers_counter) (keys flowers_counter) (Some []).

Definition can_make (d : design) (flowers_counter : counter) : option bool :=
  match matching_flower_numbers d flowers_counter with
  | Some m => Some (Nat.eqb (List.length m) (List.length (flowers d)))
  | None => None
  end.

(** [[int(value) for value in values]] *)
Fixpoint ints (l : list string) : option (list Z) :=
  match l with
  | [] => Some []
  | s :: l' =>
      match int s with
      | None => None
      | Some v =>
          match ints l' with
          | None => None
          | Some vs => Some (v :: vs)
          end
      end
  end.

Definition number_of_additional_flowers (d : design) : option Z :=
  match int (total_number_of_flowers d) with
  | None => None
  | Some t =>
      match ints (values (flowers d)) with
      | None => None
      | Some vs => Some (t - sum vs)
      end
  end.

Definition subtract_step (d : design) (acc : option counter) (key : ascii)
    : option counter :=
  match acc with
  | None => None
  | Some c =>
      match dict_get (flowers d) key with
      | Some n =>
          match int n with
          | Some v => Some (dict_set c key (count c key - v))
          | None => None
          end
      | None => Some c
      end
  end.

Definition subtract_flowers (d : design) (flowers_counter : counter) : option counter :=
  fold_left (subtract_step d) (keys flowers_counter) (Some flowers_counter).

Definition try_design (st : option (counter * list string)) (d : design)
    : option (counter * list string) :=
  match st with
  | None => None
  | Some (flowers_counter, printed) =>
      match can_make d flowers_counter with
      | None => None
      | Some false => Some (flowers_counter, printed)
      | Some true =>
          match number_of_additional_flowers d with
          | None => None
          | Some n =>
              match subtract_flowers d flowers_counter with
              | None => None
              | Some c1 =>
                  Some (if 0 <? n then subtract_additional n (keys c1) c1 else c1,
                        printed ++ [bouquet d])
              end
          end
      end
  end.

Definition try_name (bouquet_designs : dict design) (st : option (counter * list string))
    (bouquet_name : ascii) : option (counter * list string) :=
  match dict_get bouquet_designs bouquet_name with
  | Some d => try_design st d
  | None => st
  end.

Definition try_designs (bouquet_designs : dict design) (st : option (counter * list string))
    : option (counter * list string) :=
  fold_left (try_name bouquet_designs) (keys bouquet_designs) st.

Definition match_flower_streams_with_bouquet_design_structures
    (flower : string) (bouquet_designs : dict design) (flowers_counter : counter)
    : option (counter * list string) :=
  match String.get 0 flower with
  | None => None
  | Some name =>
      try_designs bouquet_designs
        (Some (dict_set flowers_counter name (count flowers_counter name + 1), []))
  end.

Definition receive (f : facility) (flower : string) : option facility :=
  match String.get 1 flower with
  | None => None
  | Some size =>
      if Ascii.eqb size "L" then
        match match_flower_streams_with_bouquet_design_structures
                flower (large_bouquet_designs f) (large_flowers_counter f) with
        | Some (c, out) =>
            Some {| small_bouquet_designs := small_bouquet_designs f;
                    large_bouquet_designs := large_bouquet_designs f;
                    large_flowers_counter := c;
                    small_flowers_counter := small_flowers_counter f;
                    printed := printed f ++ out |}
        | None => None
        end
      else
        match match_flower_streams_with_bouquet_design_structures
                flower (small_bouquet_designs f) (small_flowers_counter f) with
        | Some (c, out) =>
            Some {| small_bouquet_designs := small_bouquet_designs f;
                    large_bouquet_designs := large_bouquet_designs f;
                    large_flowers_counter := large_flowers_counter f;
                    small_flowers_counter := c;
                    printed := printed f ++ out |}
        | None => None
        end
  end.

Fixpoint receive_all (f : facility) (stream_of_flowers : list string) : option facility :=
  match stream_of_flowers with
  | [] => Some f
  | flower :: rest =>
      match receive f flower with
      | Some f' => receive_all f' rest
      | None => None
      end
  end.

Definition production_facility (bouquet_designs stream_of_flowers : list string)
    : option facility :=
  match add_bouquet_designs bouquet_designs [] [] with
  | None => None
  | Some (small, large) =>
      receive_all
        {| small_bouquet_designs := small;
           large_bouquet_designs := large;
           large_flowers_counter := [];
           small_flowers_counter := [];
           printed := [] |}
        stream_of_flowers
  end.

End Checked.

(** A numeral [int] converts. *)
Definition fits (s : string) : bool :=
  (String.length s <=? Checked.int_max_str_digits)%nat.

(** A design whose total and numbers [int] converts. *)
Definition design_fits (d : design) : Prop :=
  fits (total_number_of_flowers d) = true /\
  Forall (fun n => fits n = true) (values (flowers d)).

(** A text of a design all of whose numerals [int] converts. *)
Definition text_fits (bouquet_design : string) : bool :=
  forallb fits (findall_digits (str_from 2 bouquet_design)).

(** ** The extraction of the designs and of the flowers *)

(** The two patterns are sequences of items: one character of a class, or a
    class under [+]. *)
Inductive item : Type :=
| One (cls : ascii -> bool)
| Many (cls : ascii -> bool).

(** The match of a pattern at the start of a string, as a backtracking
    matcher finds it: the result is what is left of the string after the
    match.  [+] is greedy: it takes one more character whenever that leads to
    a match, and stops only when going on does not. *)
Fixpoint match_items (items : list item) : string -> option string :=
  match items with
  | [] => fun s => Some s
  | One cls :: items' =>
      fun s =>
        match s with
        | String c s' => if cls c then match_items items' s' else None
        | EmptyString => None
        end
  | Many cls :: items' =>
      fix many (s : string) : option string :=
        match s with
        | String c s' =>
            if cls c then
              match many s' with
              | Some rest => Some rest
              | None => match_items items' s'
              end
            else None
        | EmptyString => None
        end
  end.

(** [s[:n]] *)
Fixpoint str_take (n : nat) (s : string) : string :=
  match n, s with
  | S n', String c s' => String c (str_take n' s')
  | _, _ => EmptyString
  end.

(** [re.findall(pattern, s)] for a pattern that matches no empty string:
    the matches found from left to right, the search resuming where the last
    match ended.  [skip] counts the characters of the last match still to
    pass. *)
Fixpoint findall_items (items : list item) (skip : nat) (s : string) : list string :=
  match s with
  | EmptyString => []
  | String c s' =>
      match skip with
      | S n => findall_items items n s'
      | O =>
          match match_items items s with
          | Some rest =>
              let n := (String.length s - String.length rest)%nat in
              str_take n s :: findall_items items (n - 1) s'
          | None => findall_items items O s'
          end
      end
  end.

(** [[A-Z][LS][\d+a-z]+\d+]; inside the brackets [+] is the character. *)
Definition bouquet_design_pattern : list item :=
  [One is_upper; One is_size; Many in_design_class; Many is_digit].

(** [[a-z][LS]] *)
Definition flower_pattern : list item := [One is_lower; One is_size].

(** [extract_bouquet_designs_from_input_stream(input_stream)] *)
Definition extract_bouquet_designs_from_input_stream (input_stream : string) : list string :=
  findall_items bouquet_design_pattern O input_stream.

(** [extract_flowers_from_input_stream(input_stream)] *)
Definition extract_flowers_from_input_stream (input_stream : string) : list string :=
  findall_items flower_pattern O input_stream.

(** [production_facility] from the text of the input file on. *)
Definition production_facility_on (input_stream : string) : option facility :=
  production_facility
    (extract_bouquet_designs_from_input_stream input_stream)
    (extract_flowers_from_input_stream input_stream).

(** The strings a pattern matches in full. *)
Fixpoint matches (items : list item) (m : string) : Prop :=
  match items with
  | [] => m = EmptyString
  | One cls :: items' =>
      exists c m', m = String c m' /\ cls c = true /\ matches items' m'
  | Many cls :: items' =>
      exists x m',
        m = (x ++ m')%string /\ x <> EmptyString /\
        forallb cls (list_ascii_of_string x) = true /\ matches items' m'
  end.

(** ** Vocabulary of the statements *)

(** The dictionary of designs and the counter that the test
    [flower[1] == 'L'] selects for a size letter. *)
Definition designs_for (f : facility) (size : ascii) : dict design :=
  if Ascii.eqb size "L" then large_bouquet_designs f else small_bouquet_designs f.

Definition counter_for (f : facility) (size : ascii) : counter :=
  if Ascii.eqb size "L" then large_flowers_counter f else small_flowers_counter f.

(** Two size letters select the same dictionary and counter. *)
Definition same_size (size size' : ascii) : bool :=
  Bool.eqb (Ascii.eqb size "L") (Ascii.eqb size' "L").

(** The names [flower[0]] of the flowers of a stream that go to the counter
    of [size], in the order of the stream. *)
Fixpoint names_for (size : ascii) (stream_of_flowers : list string) : list ascii :=
  match stream_of_flowers with
  | [] => []
  | flower :: rest =>
      match String.get 1 flower, String.get 0 flower with
      | Some size', Some name =>
          if same_size size size' then name :: names_for size rest
          else names_for size rest
      | _, _ => names_for size rest
      end
  end.

(** The names of a list in the order of their first appearance, after the
    names [seen] already. *)
Fixpoint first_seen (seen names : list ascii) : list ascii :=
  match names with
  | [] => seen
  | name :: rest =>
      first_seen (if in_dec ascii_dec name seen then seen else seen ++ [name]) rest
  end.

(** The number of lines equal to [line]. *)
Definition printed_times (line : string) (out : list string) : nat :=
  count_occ string_dec out line.

(** A design that names at least one flower and asks for a positive number
    of each flower it names. *)
Definition asks_for_flowers (d : design) : Prop :=
  flowers d <> [] /\ forall k n, dict_get (flowers d) k = Some n -> 0 < int n.

(** Distinct names, and distinct flower names inside every design: what a
    Python dictionary guarantees. *)
Definition designs_ok (reg : dict design) : Prop :=
  NoDup (keys reg) /\ forall n d, dict_get reg n = Some d -> NoDup (keys (flowers d)).

(** No design of the dictionary can be made from the counter. *)
Definition quiet (reg : dict design) (c : counter) : Prop :=
  forall n d, dict_get reg n = Some d -> can_make d c = false.

(** Every design of the facility asks for flowers. *)
Definition all_ask_for_flowers (f : facility) : Prop :=
  forall size n d, dict_get (designs_for f size) n = Some d -> asks_for_flowers d.

(** Between two flowers: the dictionaries are well formed and no design can
    be made from the flowers that are left. *)
Definition settled (f : facility) : Prop :=
  forall size,
    designs_ok (designs_for f size) /\
    NoDup (keys (counter_for f size)) /\
    quiet (designs_for f size) (counter_for f size).

(** The dictionaries are well formed and no counter holds a negative
    number. *)
Definition sound (f : facility) : Prop :=
  forall size,
    designs_ok (designs_for f size) /\
    NoDup (keys (counter_for f size)) /\
    forall k, 0 <= count (counter_for f size) k.

(** The flowers of a stream that go to the counter of [size]. *)
Definition flowers_of (size : ascii) (stream_of_flowers : list string) : list string :=
  filter
    (fun flower =>
       match String.get 1 flower with
       | Some size' => same_size size size'
       | None => false
       end)
    stream_of_flowers.

(** Two facilities with the same designs and the same counter for [size]. *)
Definition agree (size : ascii) (f g : facility) : Prop :=
  small_bouquet_designs f = small_bouquet_designs g /\
  large_bouquet_designs f = large_bouquet_designs g /\
  counter_for f size = counter_for g size.

(** A numeral: a non-empty string of digits. *)
Definition is_number (s : string) : bool :=
  match s with
  | EmptyString => false
  | _ => forallb is_digit (list_ascii_of_string s)
  end.

(** The text of a design: a name, a size, pairs of a numeral and a flower
    name, and the total. *)
Definition design_text (name size : ascii) (pairs : list (string * ascii)) (total : string)
    : string :=
  String name (String size
    (fold_right (fun p rest => (fst p ++ String (snd p) rest)%string) total pairs)).

(** A string without any digit. *)
Definition no_digit (s : string) : bool :=
  forallb (fun c => negb (is_digit c)) (list_ascii_of_string s).

(** The numbers of a design are numerals and its flower names are lowercase
    letters. *)
Definition numeric (d : design) : Prop :=
  is_number (total_number_of_flowers d) = true /\
  forall k q, dict_get (flowers d) k = Some q ->
    is_lower k = true /\ is_number q = true /\ 0 <= int q.

(** The designs on which [create_bouquet_designs_matching_structure] raises
    [IndexError]: the empty string ([bouquet_design[0]]) and the strings
    without a digit from position 2 on ([pop] of an empty list). *)
Definition design_raises (bouquet_design : string) : bool :=
  match bouquet_design with
  | EmptyString => true
  | _ => no_digit (str_from 2 bouquet_design)
  end.

(** The flowers on which [flower[1]] raises [IndexError]. *)
Definition flower_raises (flower : string) : bool :=
  (String.length flower <? 2)%nat.

(** A string with its first occurrence of [old] removed. *)
Fixpoint remove_first (old s : string) : string :=
  match s with
  | EmptyString => EmptyString
  | String c s' =>
      if prefix old s then str_from (String.length old) s
      else String c (remove_first old s')
  end.

(** The display code in the words of the specification: the remainder of the
    description with the first occurrence of the total's numeral removed,
    after the name and the size. *)
Definition display_code_of_spec (bouquet_design total : string) : string :=
  match bouquet_design with
  | String name (String size remainder) =>
      String name (String size (remove_first total remainder))
  | _ => bouquet_design
  end.

(** ** Sample data *)

(** The design compiled from ["AS2a1b5"]: two [a], one [b] and two more
    flowers of any name. *)
Definition sample_design : design :=
  {| total_number_of_flowers := "5";
     flowers := [("a"%char, "2"); ("b"%char, "1")];
     bouquet := "AS2a1b" |}.

(** A counter that has seen [b], then [c], then [a]. *)
Definition sample_counter : counter :=
  [("b"%char, 1); ("c"%char, 4); ("a"%char, 3)].

(** The design compiled from ["CS33"]: no named flower. *)
Definition sample_design_without_flowers : design :=
  {| total_number_of_flowers := "33"; flowers := []; bouquet := "CS" |}.

(** A facility in the middle of a stream. *)
Definition sample_facility : facility :=
  {| small_bouquet_designs := [("A"%char, sample_design)];
     large_bouquet_designs := [("C"%char, sample_design_without_flowers)];
     large_flowers_counter := [("a"%char, 1)];
     small_flowers_counter := [("b"%char, 1)];
     printed := ["CS"] |}.

(** A numeral of 4301 digits, and a design, of the extraction pattern, that
    has it as its total and names no flower. *)
Definition long_numeral : string := string_of_list_ascii (repeat "1"%char 4301).

Definition long_design : design :=
  {| total_number_of_flowers := long_numeral; flowers := []; bouquet := "CS" |}.

(** * Properties *)

(** ** Dictionaries *)

Section DictFacts.

Context {V : Type}.
Implicit Types (d : dict V) (k : ascii) (v : V).

Lemma dict_get_set_same d k v : dict_get (dict_set d k v) k = Some v.
Proof.
  induction d as [|[k' v'] d IH]; simpl.
  - now rewrite Ascii.eqb_refl.
  - destruct (Ascii.eqb k' k) eqn:E; simpl; now rewrite E.
Qed.

Lemma dict_get_set_other d k k' v :
  k <> k' -> dict_get (dict_set d k v) k' = dict_get d k'.
Proof.
  intros Hne. induction d as [|[k0 v0] d IH]; simpl.
  - destruct (Ascii.eqb_spec k k'); congruence.
  - destruct (Ascii.eqb_spec k0 k) as [->|Hk]; simpl.
    + destruct (Ascii.eqb_spec k k'); congruence.
    + now rewrite IH.
Qed.

Lemma dict_get_None d k : dict_get d k = None <-> ~ In k (keys d).
Proof.
  induction d as [|[k' v'] d IH]; simpl.
  - tauto.
  - destruct (Ascii.eqb_spec k' k) as [->|Hk].
    + split; [discriminate | tauto].
    + rewrite IH. tauto.
Qed.

Lemma dict_get_Some_key d k v : dict_get d k = Some v -> In k (keys d).
Proof.
  intros H. destruct (in_dec ascii_dec k (keys d)) as [|Hn]; [assumption|].
  apply dict_get_None in Hn. congruence.
Qed.

Lemma dict_get_In d k : In k (keys d) -> exists v, dict_get d k = Some v.
Proof.
  intros H. destruct (dict_get d k) as [v|] eqn:E; [now exists v|].
  apply dict_get_None in E. contradiction.
Qed.

Lemma dict_get_Some_In d k v : dict_get d k = Some v -> In (k, v) d.
Proof.
  induction d as [|[k' v'] d IH]; simpl; [discriminate|].
  destruct (Ascii.eqb_spec k' k) as [->|Hk].
  - intros [= ->]. now left.
  - intros H. right. now apply IH.
Qed.

Lemma dict_get_of_In d k v : NoDup (keys d) -> In (k, v) d -> dict_get d k = Some v.
Proof.
  induction d as [|[k' v'] d IH]; simpl; [tauto|].
  intros Hnd [Heq|Hin].
  - injection Heq as -> ->. now rewrite Ascii.eqb_refl.
  - inversion Hnd as [|? ? Hk' Hnd']; subst.
    destruct (Ascii.eqb_spec k' k) as [->|Hk].
    + exfalso. apply Hk'. change k with (fst (k, v)). now apply in_map.
    + now apply IH.
Qed.

Lemma keys_set_old d k v : In k (keys d) -> keys (dict_set d k v) = keys d.
Proof.
  induction d as [|[k' v'] d IH]; simpl; [tauto|].
  intros H. destruct (Ascii.eqb_spec k' k) as [->|Hk]; simpl; [reflexivity|].
  f_equal. apply IH. destruct H; congruence.
Qed.

Lemma dict_set_new d k v : ~ In k (keys d) -> dict_set d k v = d ++ [(k, v)].
Proof.
  induction d as [|[k' v'] d IH]; simpl; [reflexivity|].
  intros H. destruct (Ascii.eqb_spec k' k) as [->|Hk]; [tauto|].
  f_equal. apply IH. tauto.
Qed.

Lemma keys_set_new d k v : ~ In k (keys d) -> keys (dict_set d k v) = keys d ++ [k].
Proof.
  intros H. rewrite dict_set_new by assumption. unfold keys. now rewrite map_app.
Qed.

Lemma keys_set d k v :
  keys (dict_set d k v) = if in_dec ascii_dec k (keys d) then keys d else keys d ++ [k].
Proof.
  destruct (in_dec ascii_dec k (keys d)); [now apply keys_set_old | now apply keys_set_new].
Qed.

Lemma In_keys_set d k v k' : In k' (keys (dict_set d k v)) <-> k' = k \/ In k' (keys d).
Proof.
  rewrite keys_set. destruct (in_dec ascii_dec k (keys d)).
  - split; [tauto|]. intros [->|]; assumption.
  - rewrite in_app_iff. simpl. split; intros; intuition congruence.
Qed.

Lemma NoDup_keys_set d k v : NoDup (keys d) -> NoDup (keys (dict_set d k v)).
Proof.
  intros H. rewrite keys_set. destruct (in_dec ascii_dec k (keys d)); [assumption|].
  apply NoDup_app; [assumption | repeat constructor; simpl; tauto |].
  intros x Hx [<-|[]]. contradiction.
Qed.

Lemma NoDup_keys_of_pairs (pairs : list (ascii * V)) : NoDup (keys (dict_of_pairs pairs)).
Proof.
  unfold dict_of_pairs.
  assert (G : forall (acc : dict V), NoDup (keys acc) ->
            NoDup (keys (fold_left (fun d kv => dict_set d (fst kv) (snd kv)) pairs acc))).
  { induction pairs as [|p pairs IH]; simpl; intros acc Hacc; [assumption|].
    apply IH. now apply NoDup_keys_set. }
  apply G. constructor.
Qed.

(** Reading every key of a dictionary yields its values, in order. *)
Lemma lookup_keys d :
  NoDup (keys d) -> map (dict_get d) (keys d) = map Some (values d).
Proof.
  induction d as [|[k v] d IH]; simpl; [reflexivity|].
  intros Hnd. inversion Hnd as [|? ? Hk Hnd']; subst.
  rewrite Ascii.eqb_refl. f_equal.
  rewrite <- IH by assumption.
  apply map_ext_in. intros k' Hk'.
  destruct (Ascii.eqb_spec k k') as [->|]; [contradiction | reflexivity].
Qed.

End DictFacts.

(** ** Counters *)

Lemma count_set_same (c : counter) k n : count (dict_set c k n) k = n.
Proof. unfold count. now rewrite dict_get_set_same. Qed.

Lemma count_set_other (c : counter) k k' n :
  k <> k' -> count (dict_set c k n) k' = count c k'.
Proof. intros H. unfold count. now rewrite dict_get_set_other. Qed.

Lemma count_absent (c : counter) k : ~ In k (keys c) -> count c k = 0.
Proof. intros H. unfold count. apply dict_get_None in H. now rewrite H. Qed.

(** *** The subtraction of the flowers of a design *)

Lemma keys_subtract_step d c key :
  In key (keys c) -> keys (subtract_step d c key) = keys c.
Proof.
  intros H. unfold subtract_step. destruct (dict_get (flowers d) key); [|reflexivity].
  now apply keys_set_old.
Qed.

Lemma keys_subtract_fold d ks : forall c,
  incl ks (keys c) -> keys (fold_left (subtract_step d) ks c) = keys c.
Proof.
  induction ks as [|k ks IH]; simpl; intros c Hincl; [reflexivity|].
  assert (Hk : In k (keys c)) by (apply Hincl; now left).
  rewrite IH.
  - now apply keys_subtract_step.
  - rewrite keys_subtract_step by assumption. intros x Hx. apply Hincl. now right.
Qed.

Lemma keys_subtract_flowers d c : keys (subtract_flowers d c) = keys c.
Proof. apply (keys_subtract_fold d (keys c) c). apply incl_refl. Qed.

Lemma count_subtract_fold d ks : forall c k,
  NoDup ks ->
  count (fold_left (subtract_step d) ks c) k =
  match dict_get (flowers d) k with
  | Some n => if in_dec ascii_dec k ks then count c k - int n else count c k
  | None => count c k
  end.
Proof.
  induction ks as [|k0 ks IH]; intros c k Hnd; simpl fold_left.
  - destruct (dict_get (flowers d) k); reflexivity.
  - inversion Hnd as [|? ? Hk0 Hnd']; subst.
    rewrite IH by assumption.
    destruct (ascii_dec k0 k) as [->|Hne].
    + unfold subtract_step.
      destruct (dict_get (flowers d) k) as [n|] eqn:E; [|reflexivity].
      destruct (in_dec ascii_dec k ks); [contradiction|].
      destruct (in_dec ascii_dec k (k :: ks)) as [|Hn]; [|exfalso; apply Hn; now left].
      apply count_set_same.
    + assert (Hc : count (subtract_step d c k0) k = count c k).
      { unfold subtract_step. destruct (dict_get (flowers d) k0); [|reflexivity].
        now apply count_set_other. }
      rewrite Hc.
      destruct (dict_get (flowers d) k); [|reflexivity].
      destruct (in_dec ascii_dec k ks), (in_dec ascii_dec k (k0 :: ks)) as [Hi|Hi];
        try reflexivity.
      * exfalso. apply Hi. now right.
      * destruct Hi; [congruence | contradiction].
Qed.

(** What the subtraction loop leaves in the counter. *)
Lemma count_subtract_flowers d c k :
  NoDup (keys c) ->
  count (subtract_flowers d c) k =
  match dict_get (flowers d) k with
  | Some n => if in_dec ascii_dec k (keys c) then count c k - int n else count c k
  | None => count c k
  end.
Proof. intros H. now apply (count_subtract_fold d (keys c) c k). Qed.

Lemma dict_get_subtract_fold_other d ks : forall (c : counter) k,
  dict_get (flowers d) k = None ->
  dict_get (fold_left (subtract_step d) ks c) k = dict_get c k.
Proof.
  induction ks as [|k0 ks IH]; intros c k Hk; simpl; [reflexivity|].
  rewrite IH by assumption. unfold subtract_step.
  destruct (dict_get (flowers d) k0) eqn:E; [|reflexivity].
  apply dict_get_set_other. congruence.
Qed.

Lemma subtract_flowers_no_flowers d c : flowers d = [] -> subtract_flowers d c = c.
Proof.
  intros H. unfold subtract_flowers.
  assert (G : forall ks c0, fold_left (subtract_step d) ks c0 = c0).
  { induction ks as [|k ks IH]; simpl; intros c0; [reflexivity|].
    rewrite IH. unfold subtract_step. now rewrite H. }
  apply (G (keys c) c).
Qed.

(** *** The subtraction of the additional flowers *)

Lemma keys_subtract_additional n ks : forall c,
  incl ks (keys c) -> keys (subtract_additional n ks c) = keys c.
Proof.
  induction ks as [|k ks IH]; simpl; intros c Hincl; [reflexivity|].
  destruct (n <=? count c k).
  - apply keys_set_old. apply Hincl. now left.
  - apply IH. intros x Hx. apply Hincl. now right.
Qed.

(** The loop stops at the first key holding at least [n] flowers ... *)
Lemma subtract_additional_first n pre key post c :
  (forall k, In k pre -> count c k < n) ->
  n <= count c key ->
  subtract_additional n (pre ++ key :: post) c = dict_set c key (count c key - n).
Proof.
  intros Hpre Hkey. induction pre as [|k pre IH]; simpl.
  - destruct (Z.leb_spec n (count c key)); [reflexivity | lia].
  - destruct (Z.leb_spec n (count c k)) as [Hle|_].
    + specialize (Hpre k (or_introl eq_refl)). lia.
    + apply IH. intros k' Hk'. apply Hpre. now right.
Qed.

(** ... and changes nothing when there is no such key. *)
Lemma subtract_additional_none n ks c :
  (forall k, In k ks -> count c k < n) -> subtract_additional n ks c = c.
Proof.
  induction ks as [|k ks IH]; simpl; intros H; [reflexivity|].
  destruct (Z.leb_spec n (count c k)) as [Hle|_].
  - specialize (H k (or_introl eq_refl)). lia.
  - apply IH. intros k' Hk'. apply H. now right.
Qed.

(** Either case holds, and they exclude each other. *)
Lemma subtract_additional_cases n ks c :
  (exists pre key post,
      ks = pre ++ key :: post /\ (forall k, In k pre -> count c k < n) /\ n <= count c key)
  \/ (forall k, In k ks -> count c k < n).
Proof.
  induction ks as [|k ks IH].
  - right. intros k [].
  - destruct (Z.leb_spec n (count c k)) as [Hle|Hlt].
    + left. exists [], k, ks. repeat split; [intros ? []| assumption].
    + destruct IH as [(pre & key & post & -> & Hpre & Hkey)|Hall].
      * left. exists (k :: pre), key, post. repeat split; [|assumption].
        intros k' [<-|Hk']; [assumption | now apply Hpre].
      * right. intros k' [<-|Hk']; [assumption | now apply Hall].
Qed.

(** *** The test that a bouquet can be made *)

Lemma enough_true d c k :
  enough d c k = true <-> exists n, dict_get (flowers d) k = Some n /\ int n <= count c k.
Proof.
  unfold enough. destruct (dict_get (flowers d) k) as [n|].
  - rewrite Z.leb_le. split.
    + intros H. now exists n.
    + intros (n' & [= <-] & H). exact H.
  - split; [discriminate | intros (n' & [=] & _)].
Qed.

Lemma matching_fold d c ks : forall acc,
  NoDup ks ->
  (forall k, In k ks -> ~ In k (keys acc)) ->
  fold_left (matching_step d c) ks acc
  = acc ++ map (fun k => (k, count c k)) (filter (enough d c) ks).
Proof.
  induction ks as [|k ks IH]; simpl; intros acc Hnd Hfresh.
  - now rewrite app_nil_r.
  - inversion Hnd as [|? ? Hk Hnd']; subst. unfold matching_step at 2.
    destruct (enough d c k).
    + rewrite IH; [| assumption |].
      * rewrite dict_set_new by (apply Hfresh; now left).
        now rewrite <- app_assoc.
      * intros k' Hk' Hin. apply In_keys_set in Hin. destruct Hin as [->|Hin].
        -- contradiction.
        -- apply (Hfresh k'); [now right | assumption].
    + apply IH; [assumption|]. intros k' Hk'. apply Hfresh. now right.
Qed.

Lemma keys_matching_flower_numbers d c :
  NoDup (keys c) ->
  keys (matching_flower_numbers d c) = filter (enough d c) (keys c).
Proof.
  intros Hnd. unfold matching_flower_numbers.
  rewrite matching_fold; [| assumption | intros k _ []].
  simpl. unfold keys at 1. rewrite map_map. simpl. apply map_id.
Qed.

(** The comparison of the two lengths holds exactly when every flower of the
    design is a key of the counter that holds enough flowers. *)
Lemma can_make_true d c :
  NoDup (keys c) -> NoDup (keys (flowers d)) ->
  can_make d c = true <->
  (forall k n, dict_get (flowers d) k = Some n -> In k (keys c) /\ int n <= count c k).
Proof.
  intros Hc Hf. unfold can_make. rewrite Nat.eqb_eq.
  assert (Hlen : List.length (matching_flower_numbers d c)
                 = List.length (filter (enough d c) (keys c))).
  { rewrite <- keys_matching_flower_numbers by assumption. unfold keys. now rewrite length_map. }
  rewrite Hlen. clear Hlen.
  assert (Hflen : List.length (flowers d) = List.length (keys (flowers d))).
  { unfold keys. now rewrite length_map. }
  rewrite Hflen. clear Hflen.
  assert (Hsub : incl (filter (enough d c) (keys c)) (keys (flowers d))).
  { intros k Hk. apply filter_In in Hk. destruct Hk as [_ Hk].
    apply enough_true in Hk. destruct Hk as (n & Hn & _).
    now apply dict_get_Some_key in Hn. }
  assert (Hndf : NoDup (filter (enough d c) (keys c))) by now apply NoDup_filter.
  split.
  - intros Hlen k n Hk.
    assert (Hin : In k (filter (enough d c) (keys c))).
    { apply (@NoDup_length_incl _ (filter (enough d c) (keys c)) (keys (flowers d)));
        [assumption | lia | assumption |].
      now apply dict_get_Some_key in Hk. }
    apply filter_In in Hin. destruct Hin as [Hin He]. split; [assumption|].
    apply enough_true in He. destruct He as (n' & Hn' & Hle). congruence.
  - intros Hall.
    assert (Hsup : incl (keys (flowers d)) (filter (enough d c) (keys c))).
    { intros k Hk. apply dict_get_In in Hk. destruct Hk as [n Hn].
      destruct (Hall k n Hn) as [Hin Hle]. apply filter_In. split; [assumption|].
      apply enough_true. now exists n. }
    apply Nat.le_antisymm; now apply NoDup_incl_length.
Qed.

Lemma forallb_false {A : Type} (f : A -> bool) (l : list A) :
  forallb f l = false -> exists x, In x l /\ f x = false.
Proof.
  induction l as [|a l IH]; simpl; [discriminate|].
  destruct (f a) eqn:E; simpl.
  - intros H. destruct (IH H) as (x & Hx & Hfx). exists x. now split; [right|].
  - intros _. exists a. now split; [left|].
Qed.

(** It fails exactly when some flower of the design is missing from the
    counter or is there in too small a number. *)
Lemma can_make_false d c :
  NoDup (keys c) -> NoDup (keys (flowers d)) ->
  can_make d c = false <->
  (exists k n, dict_get (flowers d) k = Some n /\ (~ In k (keys c) \/ count c k < int n)).
Proof.
  intros Hc Hf. split.
  - intros Hfalse.
    set (ok := fun k => if in_dec ascii_dec k (keys c) then enough d c k else false).
    destruct (forallb ok (keys (flowers d))) eqn:E.
    + exfalso. assert (Ht : can_make d c = true); [|congruence].
      apply can_make_true; [assumption | assumption |]. intros k n Hn.
      assert (Hk : In k (keys (flowers d))) by now apply dict_get_Some_key in Hn.
      assert (Hok := proj1 (forallb_forall ok _) E k Hk). unfold ok in Hok.
      destruct (in_dec ascii_dec k (keys c)); [|discriminate]. split; [assumption|].
      apply enough_true in Hok. destruct Hok as (n' & Hn' & Hle). congruence.
    + apply forallb_false in E. destruct E as (k & Hk & Hb).
      apply dict_get_In in Hk. destruct Hk as [n Hn]. exists k, n. split; [assumption|].
      unfold ok in Hb. destruct (in_dec ascii_dec k (keys c)); [|now left]. right.
      unfold enough in Hb. rewrite Hn in Hb. now apply Z.leb_gt in Hb.
  - intros (k & n & Hn & Hbad).
    destruct (can_make d c) eqn:E; [|reflexivity]. exfalso.
    destruct (proj1 (can_make_true d c Hc Hf) E k n Hn) as [Hin Hle].
    destruct Hbad; [contradiction | lia].
Qed.

Lemma can_make_no_flowers d c : flowers d = [] -> can_make d c = true.
Proof.
  intros H. unfold can_make, matching_flower_numbers.
  assert (He : forall k, enough d c k = false).
  { intros k. unfold enough. now rewrite H. }
  assert (G : forall ks, fold_left (matching_step d c) ks [] = []).
  { induction ks as [|k ks IH]; simpl; [reflexivity|].
    unfold matching_step at 2. now rewrite He. }
  rewrite G, H. reflexivity.
Qed.

(** ** One design, then all designs *)

Lemma try_design_cannot d c out : can_make d c = false -> try_design (c, out) d = (c, out).
Proof. intros H. unfold try_design. now rewrite H. Qed.

Lemma try_design_can d c out :
  can_make d c = true ->
  try_design (c, out) d =
  (let c1 := subtract_flowers d c in
   if 0 <? number_of_additional_flowers d
   then subtract_additional (number_of_additional_flowers d) (keys c1) c1
   else c1,
   out ++ [bouquet d]).
Proof. intros H. unfold try_design. now rewrite H. Qed.

Lemma keys_try_design d c out : keys (fst (try_design (c, out) d)) = keys c.
Proof.
  unfold try_design. destruct (can_make d c); [|reflexivity]. simpl.
  destruct (0 <? number_of_additional_flowers d).
  - rewrite keys_subtract_additional by apply incl_refl. apply keys_subtract_flowers.
  - apply keys_subtract_flowers.
Qed.

(** The lines printed so far are never taken back. *)
Lemma try_design_printed d c out :
  exists more, snd (try_design (c, out) d) = out ++ more /\ (List.length more <= 1)%nat.
Proof.
  unfold try_design. destruct (can_make d c); simpl.
  - exists [bouquet d]. split; [reflexivity | simpl; lia].
  - exists []. split; [now rewrite app_nil_r | simpl; lia].
Qed.

Lemma keys_try_names reg names : forall st,
  keys (fst (fold_left (try_name reg) names st)) = keys (fst st).
Proof.
  induction names as [|n names IH]; simpl; intros st; [reflexivity|].
  rewrite IH. unfold try_name. destruct (dict_get reg n); [|reflexivity].
  destruct st as [c out]. apply keys_try_design.
Qed.

Lemma keys_try_designs reg st : keys (fst (try_designs reg st)) = keys (fst st).
Proof. apply (keys_try_names reg (keys reg) st). Qed.

(** With distinct names, the loop visits the designs themselves, in order. *)
Lemma try_designs_values reg st :
  NoDup (keys reg) -> try_designs reg st = fold_left try_design (values reg) st.
Proof.
  intros Hnd. unfold try_designs.
  assert (G : forall (l : list ascii) (ds : list design) st0,
             map (dict_get reg) l = map Some ds ->
             fold_left (try_name reg) l st0 = fold_left try_design ds st0).
  { induction l as [|n l IH]; intros [|d ds] st0 Hmap; simpl in *; try discriminate.
    - reflexivity.
    - injection Hmap as Hn Hmap. unfold try_name at 2. rewrite Hn. now apply IH. }
  apply (G (keys reg) (values reg) st). now apply lookup_keys.
Qed.

(** When no design can be made, the loop changes nothing. *)
Lemma try_names_nothing reg c out names :
  (forall n d, dict_get reg n = Some d -> can_make d c = false) ->
  fold_left (try_name reg) names (c, out) = (c, out).
Proof.
  intros H. induction names as [|n names IH]; simpl; [reflexivity|].
  unfold try_name at 2. destruct (dict_get reg n) as [d|] eqn:E; [|exact IH].
  rewrite try_design_cannot by (eapply H; eassumption). exact IH.
Qed.

Lemma try_designs_nothing reg c out :
  (forall n d, dict_get reg n = Some d -> can_make d c = false) ->
  try_designs reg (c, out) = (c, out).
Proof. apply try_names_nothing. Qed.

Lemma try_names_printed reg names : forall c out,
  exists more, snd (fold_left (try_name reg) names (c, out)) = out ++ more.
Proof.
  induction names as [|n names IH]; simpl; intros c out.
  - exists []. now rewrite app_nil_r.
  - unfold try_name at 2. destruct (dict_get reg n) as [d|]; [|apply IH].
    destruct (try_design_printed d c out) as (m1 & Hm1 & _).
    destruct (try_design (c, out) d) as [c1 out1]. simpl in Hm1. subst out1.
    destruct (IH c1 (out ++ m1)) as (m2 & Hm2). exists (m1 ++ m2).
    now rewrite Hm2, app_assoc.
Qed.

(** A design that can be made whatever the counter is printed by the loop. *)
Lemma try_names_always reg names n d :
  In n names -> dict_get reg n = Some d -> (forall c, can_make d c = true) ->
  forall c out, In (bouquet d) (snd (fold_left (try_name reg) names (c, out))).
Proof.
  intros Hin Hn Hcan. induction names as [|n0 names IH]; [destruct Hin|].
  intros c out. simpl. destruct Hin as [->|Hin].
  - unfold try_name at 2. rewrite Hn, try_design_can by apply Hcan.
    match goal with |- context [fold_left _ _ (?c1, _)] =>
      destruct (try_names_printed reg names c1 (out ++ [bouquet d])) as (more & Hm) end.
    rewrite Hm. rewrite !in_app_iff. left. right. now left.
  - destruct (try_name reg (c, out) n0) as [c1 out1]. now apply IH.
Qed.

(** ** The facility: what a flower changes *)

Lemma keys_match_flower flower reg c c' out :
  match_flower_streams_with_bouquet_design_structures flower reg c = Some (c', out) ->
  exists name, String.get 0 flower = Some name /\
    keys c' = if in_dec ascii_dec name (keys c) then keys c else keys c ++ [name].
Proof.
  unfold match_flower_streams_with_bouquet_design_structures.
  destruct (String.get 0 flower) as [name|]; [|discriminate].
  intros [= H]. exists name. split; [reflexivity|].
  assert (K := keys_try_designs reg (dict_set c name (count c name + 1), [])).
  rewrite H in K. simpl in K. rewrite K. apply keys_set.
Qed.

Lemma receive_total f flower size name :
  String.get 1 flower = Some size -> String.get 0 flower = Some name ->
  exists f', receive f flower = Some f'.
Proof.
  intros H1 H0. unfold receive, match_flower_streams_with_bouquet_design_structures.
  rewrite H1, H0. destruct (Ascii.eqb size "L");
    match goal with |- context [try_designs ?r ?st] => destruct (try_designs r st) end;
    eexists; reflexivity.
Qed.

(** [receive] in terms of the dictionary and the counter of the flower's
    size: the other counter, and both dictionaries, stay as they are. *)
Lemma receive_inv f flower f' :
  receive f flower = Some f' ->
  exists size name c out,
    String.get 1 flower = Some size /\ String.get 0 flower = Some name /\
    try_designs (designs_for f size)
      (dict_set (counter_for f size) name (count (counter_for f size) name + 1), [])
      = (c, out) /\
    counter_for f' size = c /\
    printed f' = printed f ++ out /\
    small_bouquet_designs f' = small_bouquet_designs f /\
    large_bouquet_designs f' = large_bouquet_designs f /\
    (forall size', same_size size size' = false -> counter_for f' size' = counter_for f size').
Proof.
  unfold receive, match_flower_streams_with_bouquet_design_structures.
  destruct (String.get 1 flower) as [size|] eqn:H1; [|discriminate].
  destruct (String.get 0 flower) as [name|] eqn:H0;
    [| destruct (Ascii.eqb size "L"); discriminate].
  unfold designs_for, counter_for, same_size.
  destruct (Ascii.eqb size "L") eqn:EL.
  - destruct (try_designs _ _) as [c out] eqn:ET. intros [= <-].
    exists size, name, c, out. rewrite EL. simpl. repeat split; try assumption.
    intros size' Hs. destruct (Ascii.eqb size' "L"); [discriminate | reflexivity].
  - destruct (try_designs _ _) as [c out] eqn:ET. intros [= <-].
    exists size, name, c, out. rewrite EL. simpl. repeat split; try assumption.
    intros size' Hs. destruct (Ascii.eqb size' "L"); [reflexivity | discriminate].
Qed.

Lemma same_size_designs f size size' :
  same_size size size' = true -> designs_for f size' = designs_for f size.
Proof.
  unfold same_size, designs_for.
  destruct (Ascii.eqb size "L"), (Ascii.eqb size' "L"); simpl; congruence.
Qed.

Lemma same_size_counter f size size' :
  same_size size size' = true -> counter_for f size' = counter_for f size.
Proof.
  unfold same_size, counter_for.
  destruct (Ascii.eqb size "L"), (Ascii.eqb size' "L"); simpl; congruence.
Qed.

Lemma designs_for_unchanged f f' size :
  small_bouquet_designs f' = small_bouquet_designs f ->
  large_bouquet_designs f' = large_bouquet_designs f ->
  designs_for f' size = designs_for f size.
Proof. unfold designs_for. intros -> ->. reflexivity. Qed.

(** The keys of a counter are the names of the flowers it has received, in
    the order of their first appearance. *)
Lemma keys_receive_all size stream : forall f f',
  receive_all f stream = Some f' ->
  keys (counter_for f' size) = first_seen (keys (counter_for f size)) (names_for size stream).
Proof.
  induction stream as [|flower stream IH]; simpl; intros f f' H.
  - now injection H as <-.
  - destruct (receive f flower) as [f1|] eqn:E; [|discriminate].
    rewrite (IH f1 f' H).
    destruct (receive_inv _ _ _ E)
      as (size0 & name & c & out & H1 & H0 & Ht & Hc & _ & _ & _ & Hother).
    rewrite H1, H0. destruct (same_size size size0) eqn:Es.
    + simpl. f_equal.
      rewrite <- (same_size_counter f1 size size0 Es), <- (same_size_counter f size size0 Es).
      rewrite Hc.
      assert (K := keys_try_designs (designs_for f size0)
                     (dict_set (counter_for f size0) name (count (counter_for f size0) name + 1), [])).
      rewrite Ht in K. simpl in K. rewrite K. apply keys_set.
    + rewrite Hother; [reflexivity|].
      unfold same_size in *.
      destruct (Ascii.eqb size "L"), (Ascii.eqb size0 "L"); simpl in *; congruence.
Qed.

Ltac solve_nodup :=
  repeat (constructor; [simpl; intuition discriminate|]); constructor.

(** ** The claims *)

(** C9.  When a flower arrives and no design of its size can be made from
    the counter that includes it, the number of flowers of its name goes up
    by one in the counter of its size; every other number of that counter,
    the counter of the other size, both dictionaries of designs and the
    printed lines stay as they were. *)
Theorem C9_flower_without_bouquet (f : facility) (flower : string) (size name : ascii) :
  String.get 1 flower = Some size ->
  String.get 0 flower = Some name ->
  (forall n d,
      dict_get (designs_for f size) n = Some d ->
      can_make d (dict_set (counter_for f size) name (count (counter_for f size) name + 1))
      = false) ->
  exists f',
    receive f flower = Some f' /\
    count (counter_for f' size) name = count (counter_for f size) name + 1 /\
    (forall k, k <> name -> dict_get (counter_for f' size) k = dict_get (counter_for f size) k) /\
    (forall size', same_size size size' = false -> counter_for f' size' = counter_for f size') /\
    small_bouquet_designs f' = small_bouquet_designs f /\
    large_bouquet_designs f' = large_bouquet_designs f /\
    printed f' = printed f.
Proof.
  intros H1 H0 Hnone.
  destruct (receive_total f flower size name H1 H0) as [f' Hf']. exists f'.
  split; [assumption|].
  destruct (receive_inv _ _ _ Hf')
    as (size0 & name0 & c & out & H1' & H0' & Ht & Hc & Hp & Hs & Hl & Hother).
  assert (size0 = size) by congruence. assert (name0 = name) by congruence. subst size0 name0.
  rewrite try_designs_nothing in Ht by assumption. injection Ht as <- <-.
  rewrite Hc. repeat split; try assumption.
  - apply count_set_same.
  - intros k Hk. apply dict_get_set_other. congruence.
  - now rewrite Hp, app_nil_r.
Qed.

Lemma C9_flower_without_bouquet_witness :
  String.get 1 "aS" = Some "S"%char /\
  String.get 0 "aS" = Some "a"%char /\
  exists f',
    receive sample_facility "aS" = Some f' /\
    count (small_flowers_counter f') "a" = 0 + 1 /\
    dict_get (small_flowers_counter f') "b"%char = Some 1 /\
    large_flowers_counter f' = [("a"%char, 1)] /\
    printed f' = ["CS"].
Proof.
  assert (H1 : String.get 1 "aS" = Some "S"%char) by reflexivity.
  assert (H0 : String.get 0 "aS" = Some "a"%char) by reflexivity.
  refine (conj H1 (conj H0 _)).
  destruct (C9_flower_without_bouquet sample_facility "aS" "S" "a" H1 H0)
    as (f' & Hr & Ha & Hb & Hl & _ & _ & Hp).
  - intros n d Hd. apply dict_get_Some_In in Hd.
    destruct Hd as [[= <- <-]|[]]. reflexivity.
  - exists f'. refine (conj Hr (conj Ha (conj _ (conj _ Hp)))).
    + apply (Hb "b"%char). discriminate.
    + exact (Hl "L"%char eq_refl).
Defined.

(** A design without named flowers, in the program without the digit limit. *)
Lemma design_without_flowers_run (f : facility) (size bouquet_name : ascii) (d : design) :
  dict_get (designs_for f size) bouquet_name = Some d ->
  flowers d = [] ->
  (forall c, can_make d c = true /\ subtract_flowers d c = c) /\
  (forall flower size' f',
      String.get 1 flower = Some size' -> same_size size size' = true ->
      receive f flower = Some f' ->
      dict_get (designs_for f' size) bouquet_name = Some d /\
      exists out, printed f' = printed f ++ out /\ In (bouquet d) out) /\
  (forall stream f',
      receive_all f stream = Some f' ->
      dict_get (designs_for f' size) bouquet_name = Some d /\
      (printed_times (bouquet d) (printed f) + List.length (names_for size stream)
       <= printed_times (bouquet d) (printed f'))%nat).
Proof.
  intros Hd Hnone.
  assert (Hcan : forall c, can_make d c = true) by (intros c; now apply can_make_no_flowers).
  assert (Hone : forall g flower size' g',
             dict_get (designs_for g size) bouquet_name = Some d ->
             String.get 1 flower = Some size' -> same_size size size' = true ->
             receive g flower = Some g' ->
             dict_get (designs_for g' size) bouquet_name = Some d /\
             exists out, printed g' = printed g ++ out /\ In (bouquet d) out).
  { intros g flower size' g' Hg H1 Hs Hr.
    destruct (receive_inv _ _ _ Hr)
      as (size0 & name & c & out & H1' & H0 & Ht & _ & Hp & Hsm & Hlg & _).
    assert (size0 = size') by congruence. subst size0.
    split.
    - now rewrite (designs_for_unchanged g g' size Hsm Hlg).
    - exists out. split; [assumption|].
      rewrite (same_size_designs g size size' Hs) in Ht.
      change out with (snd (c, out)). rewrite <- Ht.
      apply (try_names_always _ _ bouquet_name d); try assumption.
      now apply dict_get_Some_key in Hg. }
  split; [| split].
  - intros c. split; [apply Hcan | now apply subtract_flowers_no_flowers].
  - intros flower size' f'. now apply Hone.
  - intros stream. revert f Hd.
    induction stream as [|flower stream IH]; simpl; intros f Hd f' Hr.
    + injection Hr as <-. split; [assumption | lia].
    + destruct (receive f flower) as [f1|] eqn:E; [|discriminate].
      destruct (receive_inv _ _ _ E)
        as (size0 & name & c & out & H1 & H0 & _ & _ & Hp & Hsm & Hlg & _).
      assert (Hd1 : dict_get (designs_for f1 size) bouquet_name = Some d)
        by now rewrite (designs_for_unchanged f f1 size Hsm Hlg).
      destruct (IH f1 Hd1 f' Hr) as [Hd' Hcount]. split; [assumption|].
      rewrite H1, H0. destruct (same_size size size0) eqn:Es.
      * destruct (Hone f flower size0 f1 Hd H1 Es E) as (_ & out' & Hp' & Hin).
        unfold printed_times in *. rewrite Hp' in Hcount. rewrite count_occ_app in Hcount.
        apply (count_occ_In string_dec) in Hin. simpl. lia.
      * unfold printed_times in *. rewrite Hp in Hcount. rewrite count_occ_app in Hcount. lia.
Qed.

(** ** Dictionaries of designs built by the program *)

Lemma create_designs_ok bouquet_design reg reg' :
  designs_ok reg ->
  create_bouquet_designs_matching_structure bouquet_design reg = Some reg' ->
  designs_ok reg'.
Proof.
  intros [Hnd Hfl]. unfold create_bouquet_designs_matching_structure.
  destruct (String.get 0 bouquet_design) as [name|]; [|discriminate]. cbv zeta.
  destruct (pop (findall_digits (str_from 2 bouquet_design))) as [[rest total]|];
    [|discriminate].
  intros [= <-]. split.
  - now apply NoDup_keys_set.
  - intros n d. destruct (ascii_dec name n) as [->|Hne].
    + rewrite dict_get_set_same. intros [= <-]. simpl. apply NoDup_keys_of_pairs.
    + rewrite dict_get_set_other by assumption. apply Hfl.
Qed.

Lemma add_bouquet_designs_ok bouquet_designs : forall small large small' large',
  designs_ok small -> designs_ok large ->
  add_bouquet_designs bouquet_designs small large = Some (small', large') ->
  designs_ok small' /\ designs_ok large'.
Proof.
  induction bouquet_designs as [|bd rest IH]; simpl; intros small large small' large' Hs Hl H.
  - injection H as <- <-. now split.
  - destruct (str_contains "L" bd).
    + destruct (create_bouquet_designs_matching_structure bd large) as [large1|] eqn:E;
        [|discriminate].
      apply (IH small large1); try assumption.
      exact (create_designs_ok bd large large1 Hl E).
    + destruct (create_bouquet_designs_matching_structure bd small) as [small1|] eqn:E;
        [|discriminate].
      apply (IH small1 large); try assumption.
      exact (create_designs_ok bd small small1 Hs E).
Qed.

Lemma designs_ok_empty : designs_ok [].
Proof. split; [constructor | intros n d [=]]. Qed.

(** ** At most one bouquet when every design asks for flowers *)

Lemma count_subtract_additional n ks : forall (c : counter) k,
  0 < n ->
  count (subtract_additional n ks c) k <= count c k /\
  (count c k < n -> count (subtract_additional n ks c) k = count c k).
Proof.
  induction ks as [|k0 ks IH]; simpl; intros c k Hn; [split; [lia | reflexivity]|].
  destruct (Z.leb_spec n (count c k0)) as [Hle|Hlt]; [|now apply IH].
  destruct (ascii_dec k0 k) as [->|Hne].
  - rewrite count_set_same. split; lia.
  - rewrite count_set_other by assumption. split; [lia | reflexivity].
Qed.

(** The counter after a match never holds more than before it. *)
Lemma count_try_design_le d c out k :
  NoDup (keys c) ->
  (forall k n, dict_get (flowers d) k = Some n -> 0 < int n) ->
  count (fst (try_design (c, out) d)) k <= count c k.
Proof.
  intros Hc Hpos. unfold try_design. destruct (can_make d c); simpl; [|lia].
  assert (H1 : count (subtract_flowers d c) k <= count c k).
  { rewrite count_subtract_flowers by assumption.
    destruct (dict_get (flowers d) k) as [n|] eqn:E; [|lia].
    specialize (Hpos k n E). destruct (in_dec ascii_dec k (keys c)); lia. }
  destruct (Z.ltb_spec 0 (number_of_additional_flowers d)) as [Hn|_]; [|assumption].
  destruct (count_subtract_additional _ (keys (subtract_flowers d c))
              (subtract_flowers d c) k Hn) as [Hle _]. lia.
Qed.

(** A design that could not be made before the flower arrived, and can be
    made with it, takes every flower of the arriving name. *)
Lemma count_after_match d c name out :
  NoDup (keys c) -> NoDup (keys (flowers d)) ->
  (forall k n, dict_get (flowers d) k = Some n -> 0 < int n) ->
  can_make d c = false ->
  can_make d (dict_set c name (count c name + 1)) = true ->
  count (fst (try_design (dict_set c name (count c name + 1), out) d)) name = 0.
Proof.
  intros Hc Hf Hpos Hbefore Hafter.
  set (c0 := dict_set c name (count c name + 1)) in *.
  assert (Hc0 : NoDup (keys c0)) by now apply NoDup_keys_set.
  apply (can_make_false d c Hc Hf) in Hbefore.
  destruct Hbefore as (k & n & Hk & Hbad).
  destruct (proj1 (can_make_true d c0 Hc0 Hf) Hafter k n Hk) as [Hin Hle].
  assert (Hpn := Hpos k n Hk).
  destruct (ascii_dec name k) as [<-|Hne].
  - assert (Hcount : count c0 name = int n).
    { unfold c0 in *. rewrite count_set_same in *.
      destruct Hbad as [Hout|Hlt]; [rewrite (count_absent c name Hout) in *|]; lia. }
    assert (H1 : count (subtract_flowers d c0) name = 0).
    { rewrite count_subtract_flowers by assumption. rewrite Hk.
      destruct (in_dec ascii_dec name (keys c0)); [lia | contradiction]. }
    rewrite try_design_can by assumption. simpl.
    destruct (Z.ltb_spec 0 (number_of_additional_flowers d)) as [Hn|_]; [|assumption].
    destruct (count_subtract_additional _ (keys (subtract_flowers d c0))
                (subtract_flowers d c0) name Hn) as [_ Heq].
    rewrite Heq; lia.
  - exfalso. unfold c0 in *. rewrite count_set_other in Hle by assumption.
    apply In_keys_set in Hin. destruct Hin as [->|Hin]; [congruence|].
    destruct Hbad; [contradiction | lia].
Qed.

(** After that match no design that could not be made before the flower
    arrived can be made. *)
Lemma dead_after_match d d' c name out :
  NoDup (keys c) -> NoDup (keys (flowers d)) -> NoDup (keys (flowers d')) ->
  (forall k n, dict_get (flowers d) k = Some n -> 0 < int n) ->
  (forall k n, dict_get (flowers d') k = Some n -> 0 < int n) ->
  can_make d c = false ->
  can_make d (dict_set c name (count c name + 1)) = true ->
  can_make d' c = false ->
  can_make d' (fst (try_design (dict_set c name (count c name + 1), out) d)) = false.
Proof.
  intros Hc Hf Hf' Hpos Hpos' Hbefore Hafter Hbefore'.
  assert (Hzero := count_after_match d c name out Hc Hf Hpos Hbefore Hafter).
  set (c0 := dict_set c name (count c name + 1)) in *.
  assert (Hc0 : NoDup (keys c0)) by now apply NoDup_keys_set.
  set (c2 := fst (try_design (c0, out) d)) in *.
  assert (Hk2 : keys c2 = keys c0) by apply keys_try_design.
  assert (Hc2 : NoDup (keys c2)) by now rewrite Hk2.
  apply (can_make_false d' c2 Hc2 Hf').
  apply (can_make_false d' c Hc Hf') in Hbefore'.
  destruct Hbefore' as (k & n & Hk & Hbad). exists k, n. split; [assumption|].
  assert (Hpn := Hpos' k n Hk).
  destruct (ascii_dec name k) as [<-|Hne].
  - right. lia.
  - destruct Hbad as [Hout|Hlt].
    + left. rewrite Hk2. intros Hin. apply In_keys_set in Hin.
      destruct Hin as [->|Hin]; [congruence | contradiction].
    + right. assert (Hle := count_try_design_le d c0 out k Hc0 Hpos). fold c2 in Hle.
      unfold c0 in Hle. rewrite count_set_other in Hle by assumption. lia.
Qed.

Lemma fold_try_design_quiet ds c out :
  (forall d, In d ds -> can_make d c = false) ->
  fold_left try_design ds (c, out) = (c, out).
Proof.
  induction ds as [|d ds IH]; cbn [fold_left]; intros H; [reflexivity|].
  rewrite try_design_cannot by (apply H; now left).
  apply IH. intros d' Hd'. apply H. now right.
Qed.

(** The loop does nothing up to the first design that can be made. *)
Lemma fold_try_design_first ds c out :
  (forall d, In d ds -> can_make d c = false) \/
  exists pre d post,
    ds = pre ++ d :: post /\
    (forall d', In d' pre -> can_make d' c = false) /\
    can_make d c = true /\
    fold_left try_design ds (c, out) = fold_left try_design post (try_design (c, out) d).
Proof.
  induction ds as [|d ds IH].
  - left. intros d [].
  - destruct (can_make d c) eqn:E.
    + right. exists [], d, ds. repeat split; [intros ? [] | assumption].
    + destruct IH as [Hall|(pre & d1 & post & -> & Hpre & Hcan & Hfold)].
      * left. intros d' [<-|Hd']; [assumption | now apply Hall].
      * right. exists (d :: pre), d1, post. repeat split; [| assumption |].
        -- intros d' [<-|Hd']; [assumption | now apply Hpre].
        -- cbn [app fold_left]. rewrite try_design_cannot by assumption. exact Hfold.
Qed.

Lemma In_values_get (reg : dict design) d :
  NoDup (keys reg) -> In d (values reg) -> exists n, dict_get reg n = Some d.
Proof.
  intros Hnd Hin. unfold values in Hin. apply in_map_iff in Hin.
  destruct Hin as ([n d'] & <- & Hin). exists n. now apply dict_get_of_In.
Qed.

(** One flower, when no design could be made before it and every design
    asks for flowers: at most one bouquet, and again no design can be made. *)
Lemma arrival_at_most_one reg c name c' out :
  designs_ok reg -> NoDup (keys c) ->
  (forall n d, dict_get reg n = Some d -> asks_for_flowers d) ->
  quiet reg c ->
  try_designs reg (dict_set c name (count c name + 1), []) = (c', out) ->
  (List.length out <= 1)%nat /\ quiet reg c' /\ NoDup (keys c').
Proof.
  intros [Hnd Hfl] Hc Hask Hquiet Htry.
  set (c0 := dict_set c name (count c name + 1)) in *.
  assert (Hc0 : NoDup (keys c0)) by now apply NoDup_keys_set.
  assert (Hkeys : keys c' = keys c0).
  { assert (K := keys_try_designs reg (c0, [])). now rewrite Htry in K. }
  split; [| split]; [| | now rewrite Hkeys].
  - rewrite try_designs_values in Htry by assumption.
    destruct (fold_try_design_first (values reg) c0 [])
      as [Hall|(pre & d & post & Hsplit & Hpre & Hcan & Hfold)].
    + rewrite fold_try_design_quiet in Htry by assumption.
      injection Htry as <- <-. simpl. lia.
    + rewrite Hfold in Htry. rewrite try_design_can in Htry by assumption.
      rewrite fold_try_design_quiet in Htry.
      * injection Htry as <- <-. simpl. lia.
      * intros d' Hd'.
        assert (Hd : In d (values reg)) by (rewrite Hsplit; apply in_elt).
        assert (Hd'' : In d' (values reg))
          by (rewrite Hsplit, in_app_iff; right; now right).
        destruct (In_values_get reg d Hnd Hd) as [n Hn].
        destruct (In_values_get reg d' Hnd Hd'') as [n' Hn'].
        assert (E := dead_after_match d d' c name [] Hc (Hfl n d Hn) (Hfl n' d' Hn')
                       (proj2 (Hask n d Hn)) (proj2 (Hask n' d' Hn'))
                       (Hquiet n d Hn) Hcan (Hquiet n' d' Hn')).
        fold c0 in E. rewrite try_design_can in E by assumption. exact E.
  - intros n' d' Hn'.
    rewrite try_designs_values in Htry by assumption.
    destruct (fold_try_design_first (values reg) c0 [])
      as [Hall|(pre & d & post & Hsplit & Hpre & Hcan & Hfold)].
    + rewrite fold_try_design_quiet in Htry by assumption.
      injection Htry as <- <-. apply Hall.
      apply dict_get_Some_In in Hn'. unfold values. apply in_map_iff. now exists (n', d').
    + assert (Hd : In d (values reg)) by (rewrite Hsplit; apply in_elt).
      destruct (In_values_get reg d Hnd Hd) as [n Hn].
      assert (Hdead : forall d1, In d1 (values reg) ->
                can_make d1 (fst (try_design (c0, []) d)) = false).
      { intros d1 Hd1. destruct (In_values_get reg d1 Hnd Hd1) as [n1 Hn1].
        exact (dead_after_match d d1 c name [] Hc (Hfl n d Hn) (Hfl n1 d1 Hn1)
                 (proj2 (Hask n d Hn)) (proj2 (Hask n1 d1 Hn1))
                 (Hquiet n d Hn) Hcan (Hquiet n1 d1 Hn1)). }
      rewrite Hfold in Htry. destruct (try_design (c0, []) d) as [c2 out2] eqn:E2.
      simpl in Hdead. rewrite fold_try_design_quiet in Htry.
      * injection Htry as <- <-. apply Hdead.
        apply dict_get_Some_In in Hn'. unfold values. apply in_map_iff. now exists (n', d').
      * intros d1 Hd1. apply Hdead. rewrite Hsplit, in_app_iff. right. now right.
Qed.

Lemma can_make_nothing d : flowers d <> [] -> can_make d [] = false.
Proof.
  intros H. unfold can_make, matching_flower_numbers. simpl.
  destruct (flowers d); [contradiction | reflexivity].
Qed.

Lemma receive_designs f flower f' :
  receive f flower = Some f' ->
  forall size, designs_for f' size = designs_for f size.
Proof.
  intros H size.
  destruct (receive_inv _ _ _ H) as (_ & _ & _ & _ & _ & _ & _ & _ & _ & Hsm & Hlg & _).
  now apply designs_for_unchanged.
Qed.

Lemma receive_all_designs stream : forall f f',
  receive_all f stream = Some f' ->
  forall size, designs_for f' size = designs_for f size.
Proof.
  induction stream as [|flower stream IH]; simpl; intros f f' H size.
  - now injection H as <-.
  - destruct (receive f flower) as [f1|] eqn:E; [|discriminate].
    rewrite (IH f1 f' H size). now apply (receive_designs f flower).
Qed.

Lemma same_size_sym size size' : same_size size size' = same_size size' size.
Proof. unfold same_size. now destruct (Ascii.eqb size "L"), (Ascii.eqb size' "L"). Qed.

(** A flower keeps the facility settled and prints at most one bouquet. *)
Lemma receive_settled f flower f' :
  settled f -> all_ask_for_flowers f ->
  receive f flower = Some f' ->
  settled f' /\ exists out, printed f' = printed f ++ out /\ (List.length out <= 1)%nat.
Proof.
  intros Hset Hask Hr.
  destruct (receive_inv _ _ _ Hr)
    as (size0 & name & c & out & H1 & H0 & Ht & Hc & Hp & Hsm & Hlg & Hother).
  destruct (Hset size0) as (Hok & Hnd & Hq).
  destruct (arrival_at_most_one _ _ _ _ _ Hok Hnd (Hask size0) Hq Ht) as (Hlen & Hq' & Hnd').
  split; [| exists out; now split].
  intros size. rewrite (designs_for_unchanged f f' size Hsm Hlg).
  destruct (same_size size0 size) eqn:Es.
  - rewrite (same_size_counter f' size0 size Es), (same_size_designs f size0 size Es), Hc.
    split; [assumption | split; assumption].
  - rewrite (Hother size Es). apply Hset.
Qed.

Lemma receive_all_settled stream : forall f f',
  settled f -> all_ask_for_flowers f ->
  receive_all f stream = Some f' -> settled f'.
Proof.
  induction stream as [|flower stream IH]; simpl; intros f f' Hset Hask H.
  - now injection H as <-.
  - destruct (receive f flower) as [f1|] eqn:E; [|discriminate].
    apply (IH f1 f'); [| | assumption].
    + now destruct (receive_settled f flower f1 Hset Hask E).
    + intros size n d. rewrite (receive_designs f flower f1 E size). apply Hask.
Qed.

(** The facility is settled before the first flower. *)
Lemma production_facility_settled bouquet_designs stream_of_flowers f :
  production_facility bouquet_designs stream_of_flowers = Some f ->
  all_ask_for_flowers f -> settled f.
Proof.
  unfold production_facility.
  destruct (add_bouquet_designs bouquet_designs [] []) as [[small large]|] eqn:E;
    [|discriminate].
  intros Hr Hask.
  destruct (add_bouquet_designs_ok _ _ _ _ _ designs_ok_empty designs_ok_empty E) as [Hs Hl].
  assert (Hask0 : all_ask_for_flowers
            {| small_bouquet_designs := small; large_bouquet_designs := large;
               large_flowers_counter := []; small_flowers_counter := []; printed := [] |}).
  { intros size n d. rewrite <- (receive_all_designs _ _ _ Hr size). apply Hask. }
  apply (receive_all_settled _ _ _) with (3 := Hr); [| assumption].
  intros size. unfold designs_for, counter_for. simpl.
  destruct (Ascii.eqb size "L") eqn:EL.
  - repeat split; try apply Hl; [constructor|].
    intros n d Hn. apply can_make_nothing.
    apply (proj1 (Hask0 size n d ltac:(unfold designs_for; rewrite EL; exact Hn))).
  - repeat split; try apply Hs; [constructor|].
    intros n d Hn. apply can_make_nothing.
    apply (proj1 (Hask0 size n d ltac:(unfold designs_for; rewrite EL; exact Hn))).
Qed.

Lemma try_names_length reg names : forall c out,
  (List.length (snd (fold_left (try_name reg) names (c, out)))
   <= List.length out + List.length names)%nat.
Proof.
  induction names as [|n names IH]; intros c out; cbn [fold_left List.length]; [simpl; lia|].
  unfold try_name at 2. destruct (dict_get reg n) as [d|].
  - destruct (try_design_printed d c out) as (more & Hm & Hlen).
    destruct (try_design (c, out) d) as [c1 out1]. simpl in Hm. subst out1.
    specialize (IH c1 (out ++ more)). rewrite length_app in IH. lia.
  - specialize (IH c out). lia.
Qed.

(** ** Further properties of the matching *)

(** The test of line 76.  For dictionaries with distinct keys, a design can
    be made exactly when each of its flower names is a key of the counter
    that holds at least the number asked for.  The comprehension ranges over
    the keys of the counter: a name that has never arrived blocks the
    design even if it is asked for zero times. *)
Theorem can_make_spec (d : design) (c : counter) :
  NoDup (keys c) -> NoDup (keys (flowers d)) ->
  (can_make d c = true <->
   forall k n, dict_get (flowers d) k = Some n -> In k (keys c) /\ int n <= count c k) /\
  (forall k n, dict_get (flowers d) k = Some n -> ~ In k (keys c) -> can_make d c = false).
Proof.
  intros Hc Hf. split; [now apply can_make_true|].
  intros k n Hk Hout. apply can_make_false; [assumption | assumption |].
  exists k, n. split; [assumption | now left].
Qed.

Lemma can_make_spec_witness :
  NoDup (keys sample_counter) /\ NoDup (keys (flowers sample_design)) /\
  (forall k n, dict_get (flowers sample_design) k = Some n ->
     In k (keys sample_counter) /\ int n <= count sample_counter k).
Proof.
  assert (Hc : NoDup (keys sample_counter)) by solve_nodup.
  assert (Hf : NoDup (keys (flowers sample_design))) by solve_nodup.
  refine (conj Hc (conj Hf _)).
  exact (proj1 (proj1 (can_make_spec sample_design sample_counter Hc Hf)) eq_refl).
Defined.

(** One flower prints at most one line per design of its size; when every
    design names a flower and asks for positive numbers only, a flower
    prints at most one line in all, although the loop over the designs has
    no [break]. *)
Theorem bouquets_per_flower (bouquet_designs stream_of_flowers : list string)
    (f : facility) (flower : string) (f' : facility) :
  production_facility bouquet_designs stream_of_flowers = Some f ->
  receive f flower = Some f' ->
  exists out,
    printed f' = printed f ++ out /\
    (forall size, String.get 1 flower = Some size ->
       (List.length out <= List.length (designs_for f size))%nat) /\
    (all_ask_for_flowers f -> (List.length out <= 1)%nat).
Proof.
  intros Hrun Hr.
  destruct (receive_inv _ _ _ Hr)
    as (size0 & name & c & out & H1 & H0 & Ht & _ & Hp & _ & _ & _).
  exists out. split; [assumption|]. split.
  - intros size Hs. assert (size = size0) by congruence. subst size.
    assert (L := try_names_length (designs_for f size0) (keys (designs_for f size0))
                   (dict_set (counter_for f size0) name (count (counter_for f size0) name + 1))
                   []).
    change (fold_left (try_name (designs_for f size0)) (keys (designs_for f size0)))
      with (try_designs (designs_for f size0)) in L.
    rewrite Ht in L. simpl in L. unfold keys in L. now rewrite length_map in L.
  - intros Hask.
    assert (Hset := production_facility_settled _ _ _ Hrun Hask).
    destruct (receive_settled f flower f' Hset Hask Hr) as (_ & out' & Hp' & Hlen).
    rewrite Hp in Hp'. apply app_inv_head in Hp'. now subst out'.
Qed.

Lemma bouquets_per_flower_witness :
  exists f f' out,
    production_facility ["AS2a1b5"] ["bS"; "aS"] = Some f /\
    receive f "aS" = Some f' /\
    printed f' = printed f ++ out /\
    (List.length out <= 1)%nat.
Proof.
  destruct (production_facility ["AS2a1b5"] ["bS"; "aS"]) as [f|] eqn:Ef;
    [| vm_compute in Ef; discriminate Ef].
  destruct (receive f "aS") as [f'|] eqn:Ef'.
  - destruct (bouquets_per_flower _ _ f "aS" f' Ef Ef') as (out & Hp & _ & Hone).
    exists f, f', out. refine (conj eq_refl (conj Ef' (conj Hp (Hone _)))).
    vm_compute in Ef. injection Ef as <-.
    intros size n d Hd. unfold designs_for in Hd.
    destruct (Ascii.eqb size "L"); apply dict_get_Some_In in Hd;
      [destruct Hd | destruct Hd as [[= <- <-]|[]]].
    split; [discriminate|].
    intros k m Hk. apply dict_get_Some_In in Hk.
    destruct Hk as [[= <- <-]|[[= <- <-]|[]]]; reflexivity.
  - exfalso. vm_compute in Ef. injection Ef as <-. vm_compute in Ef'. discriminate Ef'.
Defined.

Lemma fold_try_design_printed ds : forall c out,
  exists more, snd (fold_left try_design ds (c, out)) = out ++ more /\
               Forall (fun line => exists d, In d ds /\ bouquet d = line) more.
Proof.
  induction ds as [|d ds IH]; intros c out; cbn [fold_left].
  - exists []. split; [now rewrite app_nil_r | constructor].
  - unfold try_design at 2. destruct (can_make d c).
    + match goal with |- context [fold_left _ _ (?c1, _)] =>
        destruct (IH c1 (out ++ [bouquet d])) as (more & Hm & Hall) end.
      exists (bouquet d :: more). split.
      * rewrite Hm. now rewrite <- app_assoc.
      * constructor; [exists d; split; [now left | reflexivity]|].
        eapply Forall_impl; [|exact Hall].
        intros line (d' & Hd' & Hb). exists d'. split; [now right | assumption].
    + destruct (IH c out) as (more & Hm & Hall). exists more. split; [assumption|].
      eapply Forall_impl; [|exact Hall].
      intros line (d' & Hd' & Hb). exists d'. split; [now right | assumption].
Qed.

(** The designs are tried in the order of the dictionary, each against the
    flowers the earlier ones have left: the first design that can be made is
    printed first, and every line printed is the bouquet of a design of the
    dictionary. *)
Theorem first_design_first (reg : dict design) (c : counter) (out : list string)
    (pre post : list design) (d : design) :
  NoDup (keys reg) ->
  values reg = pre ++ d :: post ->
  (forall d', In d' pre -> can_make d' c = false) ->
  can_make d c = true ->
  exists c' more,
    try_designs reg (c, out) = (c', out ++ bouquet d :: more) /\
    fold_left try_design post (fst (try_design (c, out) d), out ++ [bouquet d])
    = (c', out ++ bouquet d :: more) /\
    Forall (fun line => exists d', In d' post /\ bouquet d' = line) more.
Proof.
  intros Hnd Hsplit Hpre Hcan.
  rewrite try_designs_values by assumption. rewrite Hsplit, fold_left_app.
  rewrite fold_try_design_quiet by assumption. cbn [fold_left].
  rewrite try_design_can by assumption. cbn [fst].
  match goal with |- context [fold_left _ _ (?c1, _)] =>
    destruct (fold_try_design_printed post c1 (out ++ [bouquet d])) as (more & Hm & Hall);
    destruct (fold_left try_design post (c1, out ++ [bouquet d])) as [c' out'] eqn:E end.
  simpl in Hm. subst out'. exists c', more.
  rewrite <- app_assoc. simpl. now repeat split.
Qed.

Lemma first_design_first_witness :
  NoDup (keys (large_bouquet_designs sample_facility ++ [("A"%char, sample_design)])) /\
  exists c' more,
    try_designs (large_bouquet_designs sample_facility ++ [("A"%char, sample_design)])
      (sample_counter, []) = (c', "CS" :: more).
Proof.
  assert (Hnd : NoDup (keys (large_bouquet_designs sample_facility
                               ++ [("A"%char, sample_design)]))) by solve_nodup.
  refine (conj Hnd _).
  destruct (first_design_first _ sample_counter [] [] [sample_design]
              sample_design_without_flowers Hnd eq_refl) as (c' & more & H & _).
  - intros d' [].
  - reflexivity.
  - exists c', more. exact H.
Defined.

(** ** No counter ever goes below zero *)

Lemma nonneg_subtract_additional n ks : forall (c : counter),
  (forall k, 0 <= count c k) -> 0 < n ->
  forall k, 0 <= count (subtract_additional n ks c) k.
Proof.
  induction ks as [|k0 ks IH]; simpl; intros c Hc Hn k; [apply Hc|].
  destruct (Z.leb_spec n (count c k0)) as [Hle|Hlt]; [|now apply IH].
  destruct (ascii_dec k0 k) as [->|Hne].
  - rewrite count_set_same. lia.
  - rewrite count_set_other by assumption. apply Hc.
Qed.

Lemma nonneg_try_design d (c : counter) out :
  NoDup (keys c) -> NoDup (keys (flowers d)) ->
  (forall k, 0 <= count c k) ->
  forall k, 0 <= count (fst (try_design (c, out) d)) k.
Proof.
  intros Hc Hf Hpos. unfold try_design. destruct (can_make d c) eqn:Hcan; [|exact Hpos].
  cbn [fst].
  assert (H1 : forall k, 0 <= count (subtract_flowers d c) k).
  { intros k. rewrite count_subtract_flowers by assumption.
    destruct (dict_get (flowers d) k) as [n|] eqn:E; [|apply Hpos].
    destruct (proj1 (can_make_true d c Hc Hf) Hcan k n E) as [Hin Hle].
    destruct (in_dec ascii_dec k (keys c)); [lia | apply Hpos]. }
  destruct (Z.ltb_spec 0 (number_of_additional_flowers d)); [|exact H1].
  now apply nonneg_subtract_additional.
Qed.

Lemma nonneg_fold_try_design ds : forall (c : counter) out,
  NoDup (keys c) -> Forall (fun d => NoDup (keys (flowers d))) ds ->
  (forall k, 0 <= count c k) ->
  forall k, 0 <= count (fst (fold_left try_design ds (c, out))) k.
Proof.
  induction ds as [|d ds IH]; intros c out Hc Hds Hpos; cbn [fold_left]; [exact Hpos|].
  inversion Hds as [|? ? Hd Hds']; subst.
  assert (Hk := keys_try_design d c out).
  assert (Hn := nonneg_try_design d c out Hc Hd Hpos).
  destruct (try_design (c, out) d) as [c1 out1]. cbn [fst] in *.
  apply IH; [now rewrite Hk | assumption | assumption].
Qed.

Lemma designs_ok_values reg :
  designs_ok reg -> Forall (fun d => NoDup (keys (flowers d))) (values reg).
Proof.
  intros [Hnd Hfl]. apply Forall_forall. intros d Hd.
  destruct (In_values_get reg d Hnd Hd) as [n Hn]. now apply (Hfl n).
Qed.

Lemma receive_sound f flower f' : sound f -> receive f flower = Some f' -> sound f'.
Proof.
  intros Hs Hr.
  destruct (receive_inv _ _ _ Hr)
    as (size0 & name & c & out & H1 & H0 & Ht & Hc & Hp & Hsm & Hlg & Hother).
  destruct (Hs size0) as (Hok & Hnd & Hpos).
  set (c0 := dict_set (counter_for f size0) name (count (counter_for f size0) name + 1)) in *.
  assert (Hnd0 : NoDup (keys c0)) by now apply NoDup_keys_set.
  assert (Hpos0 : forall k, 0 <= count c0 k).
  { intros k. unfold c0. destruct (ascii_dec name k) as [->|Hne].
    - rewrite count_set_same. specialize (Hpos k). lia.
    - rewrite count_set_other by assumption. apply Hpos. }
  assert (Hkc : keys c = keys c0).
  { assert (K := keys_try_designs (designs_for f size0) (c0, [])). now rewrite Ht in K. }
  assert (Hposc : forall k, 0 <= count c k).
  { rewrite try_designs_values in Ht by apply Hok.
    assert (N := nonneg_fold_try_design (values (designs_for f size0)) c0 [] Hnd0
                   (designs_ok_values _ Hok) Hpos0).
    now rewrite Ht in N. }
  intros size. rewrite (designs_for_unchanged f f' size Hsm Hlg).
  destruct (same_size size0 size) eqn:Es.
  - rewrite (same_size_counter f' size0 size Es), (same_size_designs f size0 size Es), Hc.
    split; [assumption | split; [now rewrite Hkc | assumption]].
  - rewrite (Hother size Es). apply Hs.
Qed.

Lemma receive_all_sound stream : forall f f',
  sound f -> receive_all f stream = Some f' -> sound f'.
Proof.
  induction stream as [|flower stream IH]; simpl; intros f f' Hs H.
  - now injection H as <-.
  - destruct (receive f flower) as [f1|] eqn:E; [|discriminate].
    apply (IH f1 f'); [|assumption]. now apply (receive_sound f flower).
Qed.

(** Whatever the designs and the flowers, the counters of a run keep
    distinct keys and never hold a negative number: the loops subtract only
    what the tests of lines 76 and 89 have found to be there. *)
Theorem counters_never_negative (bouquet_designs stream_of_flowers : list string)
    (f : facility) :
  production_facility bouquet_designs stream_of_flowers = Some f ->
  forall size,
    NoDup (keys (counter_for f size)) /\ forall k, 0 <= count (counter_for f size) k.
Proof.
  unfold production_facility.
  destruct (add_bouquet_designs bouquet_designs [] []) as [[small large]|] eqn:E;
    [|discriminate].
  intros Hr.
  destruct (add_bouquet_designs_ok _ _ _ _ _ designs_ok_empty designs_ok_empty E) as [Hs Hl].
  assert (S : sound f).
  { apply (receive_all_sound _ _ _) with (2 := Hr).
    intros size. unfold designs_for, counter_for. simpl.
    destruct (Ascii.eqb size "L"); (split; [assumption | split; [constructor | ]]);
      intros k; unfold count; simpl; lia. }
  intros size. destruct (S size) as (_ & Hnd & Hpos). now split.
Qed.

Lemma counters_never_negative_witness :
  production_facility ["AS2a1b5"; "BL1a3"] ["bS"; "aL"; "aS"; "cS"; "aS"] <> None /\
  forall f,
    production_facility ["AS2a1b5"; "BL1a3"] ["bS"; "aL"; "aS"; "cS"; "aS"] = Some f ->
    0 <= count (small_flowers_counter f) "c".
Proof.
  split; [vm_compute; discriminate|]. intros f Hf.
  exact (proj2 (counters_never_negative _ _ f Hf "S"%char) "c"%char).
Defined.

(** ** The two sizes do not interfere *)

Lemma agree_designs size f g s : agree size f g -> designs_for f s = designs_for g s.
Proof. intros (Hsm & Hlg & _). unfold designs_for. now rewrite Hsm, Hlg. Qed.

Lemma receive_agree_same size f g flower s f1 :
  agree size f g ->
  String.get 1 flower = Some s -> same_size size s = true ->
  receive f flower = Some f1 ->
  exists g1, receive g flower = Some g1 /\ agree size f1 g1.
Proof.
  intros Hag H1 Hs Hr.
  destruct (receive_inv _ _ _ Hr)
    as (s0 & name & c & out & H1' & H0 & Ht & Hc & _ & Hsm & Hlg & _).
  assert (s0 = s) by congruence. subst s0.
  destruct (receive_total g flower s name H1 H0) as [g1 Hg1]. exists g1.
  split; [assumption|].
  destruct (receive_inv _ _ _ Hg1)
    as (s0 & name' & c' & out' & H1'' & H0' & Ht' & Hc' & _ & Hsm' & Hlg' & _).
  assert (s0 = s) by congruence. assert (name' = name) by congruence. subst s0 name'.
  assert (Hcs : counter_for g s = counter_for f s).
  { rewrite (same_size_counter g size s Hs), (same_size_counter f size s Hs).
    symmetry. apply Hag. }
  rewrite <- (agree_designs size f g s Hag), Hcs, Ht in Ht'. injection Ht' as <- <-.
  destruct Hag as (Ha & Hb & _). repeat split.
  - congruence.
  - congruence.
  - rewrite <- (same_size_counter f1 size s Hs), <- (same_size_counter g1 size s Hs).
    congruence.
Qed.

Lemma receive_agree_other size f g flower s f1 :
  agree size f g ->
  String.get 1 flower = Some s -> same_size size s = false ->
  receive f flower = Some f1 ->
  agree size f1 g.
Proof.
  intros (Ha & Hb & Hcnt) H1 Hs Hr.
  destruct (receive_inv _ _ _ Hr)
    as (s0 & name & c & out & H1' & _ & _ & _ & _ & Hsm & Hlg & Hother).
  assert (s0 = s) by congruence. subst s0.
  repeat split; [congruence | congruence |].
  rewrite Hother; [assumption|]. now rewrite same_size_sym.
Qed.

Lemma receive_all_agree size stream : forall f g f',
  agree size f g ->
  receive_all f stream = Some f' ->
  exists g', receive_all g (flowers_of size stream) = Some g' /\ agree size f' g'.
Proof.
  induction stream as [|flower stream IH]; simpl; intros f g f' Hag H.
  - injection H as <-. now exists g.
  - destruct (receive f flower) as [f1|] eqn:E; [|discriminate].
    destruct (receive_inv _ _ _ E) as (s & _ & _ & _ & H1 & _).
    rewrite H1. destruct (same_size size s) eqn:Es.
    + destruct (receive_agree_same size f g flower s f1 Hag H1 Es E) as (g1 & Hg1 & Hag1).
      simpl. rewrite Hg1. now apply (IH f1 g1 f').
    + apply (IH f1 g f'); [|assumption].
      now apply (receive_agree_other size f g flower s f1).
Qed.

(** The counter of a size after a run is the counter it has after the run
    on the flowers of that size alone: the flowers of the other size leave
    it as it is, and the run on the flowers of one size does not fail when
    the run on all of them does not. *)
Theorem sizes_do_not_interfere (bouquet_designs stream_of_flowers : list string)
    (f : facility) (size : ascii) :
  production_facility bouquet_designs stream_of_flowers = Some f ->
  exists g,
    production_facility bouquet_designs (flowers_of size stream_of_flowers) = Some g /\
    counter_for g size = counter_for f size /\
    designs_for g size = designs_for f size.
Proof.
  unfold production_facility.
  destruct (add_bouquet_designs bouquet_designs [] []) as [[small large]|]; [|discriminate].
  intros Hr.
  destruct (receive_all_agree size stream_of_flowers _ _ f
              (conj eq_refl (conj eq_refl eq_refl)) Hr) as (g & Hg & Hag).
  exists g. split; [assumption|]. split.
  - symmetry. apply Hag.
  - symmetry. now apply (agree_designs size).
Qed.

Lemma sizes_do_not_interfere_witness :
  production_facility ["AS2a1b5"; "BL1a3"] ["bS"; "aL"; "aS"; "cL"; "aS"] <> None /\
  forall f,
    production_facility ["AS2a1b5"; "BL1a3"] ["bS"; "aL"; "aS"; "cL"; "aS"] = Some f ->
    exists g,
      production_facility ["AS2a1b5"; "BL1a3"] ["aL"; "cL"] = Some g /\
      large_flowers_counter g = large_flowers_counter f.
Proof.
  split; [vm_compute; discriminate|]. intros f Hf.
  destruct (sizes_do_not_interfere _ _ f "L"%char Hf) as (g & Hg & Hc & _).
  exists g. split; [exact Hg | exact Hc].
Defined.

(** ** Text *)

Lemma lower_not_digit c : is_lower c = true -> is_digit c = false.
Proof.
  destruct c as [[] [] [] [] [] [] [] []]; intros H; try reflexivity; discriminate H.
Qed.

Lemma digit_value_bounds c : is_digit c = true -> 0 <= digit_value c <= 9.
Proof.
  destruct c as [[] [] [] [] [] [] [] []]; intros H; try discriminate H;
    vm_compute; split; intro; discriminate.
Qed.

Lemma int_nonneg s : forallb is_digit (list_ascii_of_string s) = true -> 0 <= int s.
Proof.
  unfold int. intros H.
  assert (G : forall l acc, forallb is_digit l = true -> 0 <= acc ->
              0 <= fold_left (fun a c => 10 * a + digit_value c) l acc).
  { induction l as [|c l IH]; cbn [fold_left forallb]; intros acc Hl Hacc; [assumption|].
    apply andb_true_iff in Hl. destruct Hl as [Hc Hl].
    apply IH; [assumption|]. assert (B := digit_value_bounds c Hc). lia. }
  apply G; [assumption | lia].
Qed.

Lemma is_number_digits s : is_number s = true -> forallb is_digit (list_ascii_of_string s) = true.
Proof. destruct s; [discriminate | trivial]. Qed.

Lemma is_number_snoc run c :
  (run = EmptyString \/ is_number run = true) -> is_digit c = true ->
  is_number (run ++ String c EmptyString) = true.
Proof.
  intros Hrun Hc.
  assert (G : forall r, forallb is_digit (list_ascii_of_string r) = true ->
              forallb is_digit (list_ascii_of_string (r ++ String c EmptyString)) = true).
  { induction r as [|a r IH]; simpl; intros H.
    - now rewrite Hc.
    - apply andb_true_iff in H. destruct H as [Ha Hr]. rewrite Ha. simpl. now apply IH. }
  destruct Hrun as [->|Hrun]; [simpl; now rewrite Hc|].
  destruct run as [|a r]; [discriminate|].
  change (forallb is_digit (list_ascii_of_string (String a r ++ String c EmptyString)) = true).
  apply G. exact Hrun.
Qed.

(** Every string found by [\d+] is a numeral. *)
Lemma digit_runs_numbers s : forall run,
  (run = EmptyString \/ is_number run = true) ->
  Forall (fun q => is_number q = true) (digit_runs run s).
Proof.
  induction s as [|c s IH]; simpl; intros run Hrun.
  - destruct run; simpl; [constructor|]. destruct Hrun as [|Hrun]; [discriminate|].
    now repeat constructor.
  - destruct (is_digit c) eqn:Ec.
    + apply IH. right. now apply is_number_snoc.
    + apply Forall_app. split.
      * destruct run; simpl; [constructor|]. destruct Hrun as [|Hrun]; [discriminate|].
        now repeat constructor.
      * apply IH. now left.
Qed.

Lemma findall_digits_numbers s : Forall (fun q => is_number q = true) (findall_digits s).
Proof. apply digit_runs_numbers. now left. Qed.

Lemma findall_lower_lower s : Forall (fun c => is_lower c = true) (findall_lower s).
Proof.
  induction s as [|c s IH]; simpl; [constructor|].
  destruct (is_lower c) eqn:E; [now constructor | assumption].
Qed.

(** No numeral is found exactly when the string has no digit. *)
Lemma digit_runs_nil s : forall run,
  digit_runs run s = [] <-> run = EmptyString /\ no_digit s = true.
Proof.
  unfold no_digit. induction s as [|c s IH]; simpl; intros run.
  - destruct run; simpl; split; try tauto; try discriminate. intros [[=] _].
  - destruct (is_digit c) eqn:Ec; simpl.
    + rewrite IH. split; [|intros [_ [=]]].
      intros [H _]. destruct run; discriminate H.
    + split.
      * intros H. apply app_eq_nil in H. destruct H as [Hf Hr].
        apply IH in Hr. destruct run; [tauto | discriminate Hf].
      * intros [-> H]. simpl. apply IH. tauto.
Qed.

Lemma pop_None {A : Type} (l : list A) : pop l = None <-> l = [].
Proof.
  unfold pop. split.
  - destruct (rev l) eqn:E; [|intros [=]]. intros _.
    rewrite <- (rev_involutive l), E. reflexivity.
  - intros ->. reflexivity.
Qed.

Lemma pop_snoc {A : Type} (l : list A) x : pop (l ++ [x]) = Some (l, x).
Proof. unfold pop. rewrite rev_app_distr. simpl. now rewrite rev_involutive. Qed.

Lemma pop_Some {A : Type} (l r : list A) x : pop l = Some (r, x) -> l = r ++ [x].
Proof.
  unfold pop. destruct (rev l) as [|y t] eqn:E; [discriminate|].
  intros [= <- <-]. rewrite <- (rev_involutive l), E. reflexivity.
Qed.

Lemma dict_get_of_pairs_In {V : Type} (pairs : list (ascii * V)) k v :
  dict_get (dict_of_pairs pairs) k = Some v -> In (k, v) pairs.
Proof.
  unfold dict_of_pairs.
  assert (G : forall (acc : dict V),
             dict_get (fold_left (fun d kv => dict_set d (fst kv) (snd kv)) pairs acc) k = Some v ->
             In (k, v) pairs \/ dict_get acc k = Some v).
  { induction pairs as [|[k0 v0] pairs IH]; simpl; intros acc H; [now right|].
    destruct (IH _ H) as [Hin|Hacc]; [left; now right|].
    destruct (ascii_dec k0 k) as [->|Hne].
    - rewrite dict_get_set_same in Hacc. injection Hacc as ->. left. now left.
    - rewrite dict_get_set_other in Hacc by assumption. now right. }
  intros H. destruct (G [] H) as [Hin|Hacc]; [assumption | discriminate Hacc].
Qed.

(** ** What [create_bouquet_designs_matching_structure] stores *)

Lemma create_inv bouquet_design reg reg' :
  create_bouquet_designs_matching_structure bouquet_design reg = Some reg' ->
  exists name rest total,
    String.get 0 bouquet_design = Some name /\
    findall_digits (str_from 2 bouquet_design) = rest ++ [total] /\
    reg' = dict_set reg name
             {| total_number_of_flowers := total;
                flowers := dict_of_pairs
                             (combine (findall_lower (str_from 2 bouquet_design)) rest);
                bouquet := str_remove total bouquet_design |}.
Proof.
  unfold create_bouquet_designs_matching_structure.
  destruct (String.get 0 bouquet_design) as [name|]; [|discriminate]. cbv zeta.
  destruct (pop (findall_digits (str_from 2 bouquet_design))) as [[rest total]|] eqn:E;
    [|discriminate].
  intros [= <-]. exists name, rest, total. apply pop_Some in E. now repeat split.
Qed.

Lemma create_numeric bouquet_design reg reg' :
  (forall n d, dict_get reg n = Some d -> numeric d) ->
  create_bouquet_designs_matching_structure bouquet_design reg = Some reg' ->
  forall n d, dict_get reg' n = Some d -> numeric d.
Proof.
  intros Hreg Hc n d Hn.
  destruct (create_inv _ _ _ Hc) as (name & rest & total & _ & Hdigits & ->).
  destruct (ascii_dec name n) as [->|Hne].
  - rewrite dict_get_set_same in Hn. injection Hn as <-.
    assert (Hnum := findall_digits_numbers (str_from 2 bouquet_design)).
    rewrite Hdigits in Hnum. apply Forall_app in Hnum. destruct Hnum as [Hrest Htotal].
    split; simpl.
    + now inversion Htotal.
    + intros k q Hk. apply dict_get_of_pairs_In in Hk.
      assert (Hl := in_combine_l _ _ _ _ Hk). assert (Hr := in_combine_r _ _ _ _ Hk).
      assert (Hq : is_number q = true) by (rewrite Forall_forall in Hrest; now apply Hrest).
      repeat split.
      * assert (L := findall_lower_lower (str_from 2 bouquet_design)).
        rewrite Forall_forall in L. now apply L.
      * assumption.
      * apply int_nonneg. now apply is_number_digits.
  - rewrite dict_get_set_other in Hn by assumption. now apply (Hreg n).
Qed.

Lemma add_bouquet_designs_numeric bouquet_designs : forall small large small' large',
  (forall n d, dict_get small n = Some d -> numeric d) ->
  (forall n d, dict_get large n = Some d -> numeric d) ->
  add_bouquet_designs bouquet_designs small large = Some (small', large') ->
  (forall n d, dict_get small' n = Some d -> numeric d) /\
  (forall n d, dict_get large' n = Some d -> numeric d).
Proof.
  induction bouquet_designs as [|bd rest IH]; simpl; intros small large small' large' Hs Hl H.
  - injection H as <- <-. now split.
  - destruct (str_contains "L" bd).
    + destruct (create_bouquet_designs_matching_structure bd large) as [large1|] eqn:E;
        [|discriminate].
      apply (IH small large1); try assumption. exact (create_numeric bd large large1 Hl E).
    + destruct (create_bouquet_designs_matching_structure bd small) as [small1|] eqn:E;
        [|discriminate].
      apply (IH small1 large); try assumption. exact (create_numeric bd small small1 Hs E).
Qed.

(** In any run, every design has distinct flower names, which are lowercase
    letters, and its total and the numbers it asks for are numerals, so that
    [int] is applied to strings of digits only and yields numbers that are
    not negative. *)
Theorem designs_are_numeric (bouquet_designs stream_of_flowers : list string)
    (f : facility) (size n : ascii) (d : design) :
  production_facility bouquet_designs stream_of_flowers = Some f ->
  dict_get (designs_for f size) n = Some d ->
  NoDup (keys (flowers d)) /\ numeric d.
Proof.
  unfold production_facility.
  destruct (add_bouquet_designs bouquet_designs [] []) as [[small large]|] eqn:E;
    [|discriminate].
  intros Hr Hd. rewrite (receive_all_designs _ _ _ Hr size) in Hd.
  destruct (add_bouquet_designs_ok _ _ _ _ _ designs_ok_empty designs_ok_empty E)
    as [[_ Hs] [_ Hl]].
  destruct (add_bouquet_designs_numeric bouquet_designs [] [] small large) as [Ns Nl];
    try assumption; try (intros ? ? [=]).
  unfold designs_for in Hd. simpl in Hd. destruct (Ascii.eqb size "L").
  - split; [now apply (Hl n) | now apply (Nl n)].
  - split; [now apply (Hs n) | now apply (Ns n)].
Qed.

Lemma designs_are_numeric_witness :
  production_facility ["AS2a1b5"; "BL1a3"] ["bS"] <> None /\
  forall f d,
    production_facility ["AS2a1b5"; "BL1a3"] ["bS"] = Some f ->
    dict_get (small_bouquet_designs f) "A"%char = Some d ->
    numeric d.
Proof.
  split; [vm_compute; discriminate|]. intros f d Hf Hd.
  exact (proj2 (designs_are_numeric _ _ f "S"%char "A"%char d Hf Hd)).
Defined.

(** ** When the program raises *)

Lemma create_None bouquet_design reg :
  create_bouquet_designs_matching_structure bouquet_design reg = None
  <-> design_raises bouquet_design = true.
Proof.
  unfold create_bouquet_designs_matching_structure, design_raises.
  destruct bouquet_design as [|c s]; simpl String.get; [tauto|]. cbv zeta.
  destruct (pop (findall_digits (str_from 2 (String c s)))) as [[rest total]|] eqn:E.
  - split; [discriminate|]. intros H. exfalso.
    assert (N : findall_digits (str_from 2 (String c s)) = []).
    { apply digit_runs_nil. now split. }
    rewrite N in E. discriminate E.
  - split; [|reflexivity]. intros _. apply pop_None in E.
    apply digit_runs_nil in E. apply E.
Qed.

Lemma add_bouquet_designs_None bouquet_designs : forall small large,
  add_bouquet_designs bouquet_designs small large = None
  <-> existsb design_raises bouquet_designs = true.
Proof.
  induction bouquet_designs as [|bd rest IH]; intros small large;
    cbn [add_bouquet_designs existsb].
  - split; discriminate.
  - rewrite orb_true_iff. destruct (str_contains "L" bd).
    + destruct (create_bouquet_designs_matching_structure bd large) as [large1|] eqn:E.
      * rewrite IH. split; [tauto|]. intros [H|H]; [|assumption].
        apply (create_None bd large) in H. congruence.
      * split; [|reflexivity]. intros _. left. apply (create_None bd large). exact E.
    + destruct (create_bouquet_designs_matching_structure bd small) as [small1|] eqn:E.
      * rewrite IH. split; [tauto|]. intros [H|H]; [|assumption].
        apply (create_None bd small) in H. congruence.
      * split; [|reflexivity]. intros _. left. apply (create_None bd small). exact E.
Qed.

Lemma receive_None f flower : receive f flower = None <-> flower_raises flower = true.
Proof.
  unfold flower_raises. rewrite Nat.ltb_lt.
  destruct flower as [|c0 [|c1 s]].
  - simpl. split; [intros _; lia | reflexivity].
  - simpl. split; [intros _; lia | reflexivity].
  - split.
    + intros H. exfalso.
      destruct (receive_total f (String c0 (String c1 s)) c1 c0 eq_refl eq_refl) as [f' Hf'].
      congruence.
    + simpl. lia.
Qed.

Lemma receive_all_None stream : forall f,
  receive_all f stream = None <-> existsb flower_raises stream = true.
Proof.
  induction stream as [|flower stream IH]; intros f; cbn [receive_all existsb].
  - split; discriminate.
  - rewrite orb_true_iff. destruct (receive f flower) as [f1|] eqn:E.
    + rewrite IH. split; [tauto|]. intros [H|H]; [|assumption].
      apply (receive_None f) in H. congruence.
    + split; [|reflexivity]. intros _. left. now apply (receive_None f).
Qed.

Lemma production_facility_None (bouquet_designs stream_of_flowers : list string) :
  production_facility bouquet_designs stream_of_flowers = None <->
  existsb design_raises bouquet_designs = true \/
  existsb flower_raises stream_of_flowers = true.
Proof.
  unfold production_facility.
  destruct (add_bouquet_designs bouquet_designs [] []) as [[small large]|] eqn:E.
  - rewrite receive_all_None. split; [tauto|]. intros [H|H]; [|assumption].
    apply (add_bouquet_designs_None bouquet_designs [] []) in H. congruence.
  - split; [|reflexivity]. intros _. left.
    now apply (add_bouquet_designs_None bouquet_designs [] []).
Qed.

(** ** The extraction *)

Lemma str_app_assoc (a b c : string) : ((a ++ b) ++ c = a ++ (b ++ c))%string.
Proof. induction a as [|x a IH]; simpl; [reflexivity | now rewrite IH]. Qed.

Lemma str_app_empty (a : string) : (a ++ EmptyString)%string = a.
Proof. induction a as [|x a IH]; simpl; [reflexivity | now rewrite IH]. Qed.

Lemma str_length_app (a b : string) :
  String.length (a ++ b)%string = (String.length a + String.length b)%nat.
Proof. induction a as [|x a IH]; simpl; [reflexivity | now rewrite IH]. Qed.

Lemma str_take_app (m rest : string) :
  str_take (String.length (m ++ rest)%string - String.length rest) (m ++ rest)%string = m.
Proof.
  rewrite str_length_app.
  replace (String.length m + String.length rest - String.length rest)%nat
    with (String.length m) by lia.
  induction m as [|x m IH]; simpl.
  - destruct rest; reflexivity.
  - now rewrite IH.
Qed.

Lemma list_of_app (a b : string) :
  list_ascii_of_string (a ++ b)%string = list_ascii_of_string a ++ list_ascii_of_string b.
Proof. induction a as [|x a IH]; simpl; [reflexivity | now rewrite IH]. Qed.

(** What the matcher returns is a full match followed by the rest. *)
Lemma match_items_sound items : forall s rest,
  match_items items s = Some rest ->
  exists m, s = (m ++ rest)%string /\ matches items m.
Proof.
  induction items as [|[cls|cls] items IH]; intros s rest H.
  - simpl in H. injection H as <-. exists EmptyString. now split.
  - destruct s as [|c s]; simpl in H; [discriminate|].
    destruct (cls c) eqn:Ec; [|discriminate].
    destruct (IH s rest H) as (m & -> & Hm).
    exists (String c m). split; [reflexivity|]. simpl. now exists c, m.
  - revert rest H. induction s as [|c s IHs]; intros rest H; simpl in H; [discriminate|].
    destruct (cls c) eqn:Ec; [|discriminate].
    match type of H with
    | match ?t with _ => _ end = _ => destruct t as [r|] eqn:Emany
    end.
    + injection H as ->.
      destruct (IHs rest Emany) as (m & -> & x & m' & -> & Hx & Hcls & Hm').
      exists (String c (x ++ m')). split; [reflexivity|].
      exists (String c x), m'. repeat split; [discriminate | | assumption].
      simpl. now rewrite Ec.
    + destruct (IH s rest H) as (m & -> & Hm).
      exists (String c m). split; [reflexivity|].
      exists (String c EmptyString), m. repeat split; [discriminate | | assumption].
      simpl. now rewrite Ec.
Qed.

Lemma findall_items_matches items s : forall skip,
  Forall (matches items) (findall_items items skip s).
Proof.
  induction s as [|c s IH]; intros skip; cbn [findall_items]; [constructor|].
  destruct skip as [|n]; [|apply IH].
  destruct (match_items items (String c s)) as [rest|] eqn:E; [|apply IH].
  constructor; [|apply IH].
  destruct (match_items_sound items _ _ E) as (m & Hs & Hm).
  rewrite Hs, str_take_app. exact Hm.
Qed.

Lemma matches_flower m : matches flower_pattern m -> is_flower m = true.
Proof.
  intros (c0 & m0 & -> & H0 & c1 & m1 & -> & H1 & ->). simpl. now rewrite H0, H1.
Qed.

Lemma digits_in_class l : forallb is_digit l = true -> forallb in_design_class l = true.
Proof.
  induction l as [|c l IH]; simpl; [reflexivity|]. intros H.
  apply andb_true_iff in H. destruct H as [Hc Hl].
  unfold in_design_class at 1. rewrite Hc. simpl. now apply IH.
Qed.

Lemma last_is_digit (l : list ascii) :
  l <> [] -> forallb is_digit l = true ->
  forall pre, match rev (pre ++ l) with c :: _ => is_digit c | [] => false end = true.
Proof.
  intros Hne Hl pre. rewrite rev_app_distr.
  destruct (rev l) as [|c r] eqn:E.
  - exfalso. apply Hne. rewrite <- (rev_involutive l), E. reflexivity.
  - simpl. assert (Hin : In c l) by (apply in_rev; rewrite E; now left).
    rewrite forallb_forall in Hl. now apply Hl.
Qed.

Lemma list_of_nonempty (x : string) : x <> EmptyString -> list_ascii_of_string x <> [].
Proof. destruct x; [congruence | discriminate]. Qed.

Lemma matches_bouquet_design m : matches bouquet_design_pattern m -> is_bouquet_design m = true.
Proof.
  intros (c0 & m0 & -> & H0 & c1 & m1 & -> & H1 & x & m2 & -> & Hx & Hcx
          & y & m3 & -> & Hy & Hcy & ->).
  unfold is_bouquet_design. rewrite H0, H1. simpl andb.
  rewrite str_app_empty, list_of_app, forallb_app, Hcx, (digits_in_class _ Hcy). simpl andb.
  rewrite (last_is_digit _ (list_of_nonempty y Hy) Hcy). rewrite andb_true_r.
  rewrite str_length_app.
  destruct x; [congruence|]. destruct y; [congruence|]. simpl.
  now rewrite Nat.add_succ_r.
Qed.

Lemma bouquet_design_does_not_raise bd : is_bouquet_design bd = true -> design_raises bd = false.
Proof.
  unfold is_bouquet_design, design_raises.
  destruct bd as [|c0 [|c1 rest]]; try discriminate. simpl str_from.
  intros H. apply andb_true_iff in H. destruct H as [_ H].
  unfold no_digit. destruct (rev (list_ascii_of_string rest)) as [|c r] eqn:E; [discriminate|].
  destruct (forallb (fun c => negb (is_digit c)) (list_ascii_of_string rest)) eqn:F;
    [|reflexivity].
  rewrite forallb_forall in F.
  assert (Hin : In c (list_ascii_of_string rest)) by (apply in_rev; rewrite E; now left).
  specialize (F c Hin). rewrite H in F. discriminate F.
Qed.

Lemma flower_does_not_raise fl : is_flower fl = true -> flower_raises fl = false.
Proof.
  unfold is_flower, flower_raises. destruct fl as [|c0 [|c1 [|c2 s]]]; try discriminate.
  reflexivity.
Qed.

(** ** The design made from the text of a design *)

Lemma digit_not_lower c : is_digit c = true -> is_lower c = false.
Proof.
  destruct c as [[] [] [] [] [] [] [] []]; intros H; try reflexivity; discriminate H.
Qed.

Lemma digit_runs_digits q : forall run s,
  forallb is_digit (list_ascii_of_string q) = true ->
  digit_runs run (q ++ s)%string = digit_runs (run ++ q)%string s.
Proof.
  induction q as [|c q IH]; simpl; intros run s H.
  - now rewrite str_app_empty.
  - apply andb_true_iff in H. destruct H as [Hc Hq]. rewrite Hc.
    rewrite IH by assumption. now rewrite str_app_assoc.
Qed.

Lemma findall_lower_digits q : forall s,
  forallb is_digit (list_ascii_of_string q) = true ->
  findall_lower (q ++ s)%string = findall_lower s.
Proof.
  induction q as [|c q IH]; simpl; intros s H; [reflexivity|].
  apply andb_true_iff in H. destruct H as [Hc Hq].
  rewrite (digit_not_lower c Hc). now apply IH.
Qed.

Lemma flush_number q : is_number q = true -> flush q = [q].
Proof. destruct q; [discriminate | reflexivity]. Qed.

Lemma findall_digits_pairs pairs total :
  Forall (fun p => is_number (fst p) = true /\ is_lower (snd p) = true) pairs ->
  is_number total = true ->
  findall_digits
    (fold_right (fun p rest => (fst p ++ String (snd p) rest)%string) total pairs)
  = map fst pairs ++ [total].
Proof.
  intros Hp Ht. unfold findall_digits.
  induction Hp as [|[q l] pairs [Hq Hl] Hp IH]; simpl in *.
  - rewrite <- (str_app_empty total) at 1.
    rewrite digit_runs_digits by now apply is_number_digits.
    simpl. now apply flush_number.
  - rewrite digit_runs_digits by now apply is_number_digits.
    simpl. rewrite (lower_not_digit l Hl), (flush_number q Hq), IH. reflexivity.
Qed.

Lemma findall_lower_pairs pairs total :
  Forall (fun p => is_number (fst p) = true /\ is_lower (snd p) = true) pairs ->
  is_number total = true ->
  findall_lower
    (fold_right (fun p rest => (fst p ++ String (snd p) rest)%string) total pairs)
  = map snd pairs.
Proof.
  intros Hp Ht.
  induction Hp as [|[q l] pairs [Hq Hl] Hp IH]; simpl in *.
  - rewrite <- (str_app_empty total).
    rewrite findall_lower_digits by now apply is_number_digits. reflexivity.
  - rewrite findall_lower_digits by now apply is_number_digits.
    simpl. now rewrite Hl, IH.
Qed.

Lemma combine_snd_fst {A B : Type} (pairs : list (A * B)) :
  combine (map snd pairs) (map fst pairs) = map (fun p => (snd p, fst p)) pairs.
Proof. induction pairs as [|[a b] pairs IH]; simpl; [reflexivity | now rewrite IH]. Qed.

Lemma dict_of_pairs_distinct {V : Type} (pairs : list (ascii * V)) :
  NoDup (map fst pairs) -> dict_of_pairs pairs = pairs.
Proof.
  unfold dict_of_pairs.
  assert (G : forall (acc : dict V),
             NoDup (map fst pairs) ->
             (forall k, In k (map fst pairs) -> ~ In k (keys acc)) ->
             fold_left (fun d kv => dict_set d (fst kv) (snd kv)) pairs acc = acc ++ pairs).
  { induction pairs as [|[k v] pairs IH]; simpl; intros acc Hnd Hfresh.
    - now rewrite app_nil_r.
    - inversion Hnd as [|? ? Hk Hnd']; subst.
      rewrite dict_set_new by (apply Hfresh; now left).
      rewrite IH; [now rewrite <- app_assoc | assumption |].
      intros k' Hk' Hin. unfold keys in Hin. rewrite map_app, in_app_iff in Hin.
      destruct Hin as [Hin|[<-|[]]]; [|contradiction].
      apply (Hfresh k'); [now right | assumption]. }
  intros Hnd. apply (G [] Hnd). intros k _ [].
Qed.

(** From the text of a design, with numerals followed by lowercase names and
    a final numeral, the function stores under the name the total, the
    numerals paired with the names in order (the last numeral of a repeated
    name wins), and the text with the total removed; the size letter plays
    no part.  With distinct names the flowers are exactly the pairs. *)
Theorem create_on_design_text (name size : ascii) (pairs : list (string * ascii))
    (total : string) (reg : dict design) :
  Forall (fun p => is_number (fst p) = true /\ is_lower (snd p) = true) pairs ->
  is_number total = true ->
  create_bouquet_designs_matching_structure (design_text name size pairs total) reg
  = Some (dict_set reg name
            {| total_number_of_flowers := total;
               flowers := dict_of_pairs (map (fun p => (snd p, fst p)) pairs);
               bouquet := str_remove total (design_text name size pairs total) |}) /\
  (NoDup (map snd pairs) ->
   dict_of_pairs (map (fun p => (snd p, fst p)) pairs) = map (fun p => (snd p, fst p)) pairs).
Proof.
  intros Hp Ht. split.
  - unfold create_bouquet_designs_matching_structure, design_text.
    cbn [String.get str_from]. cbv zeta.
    rewrite (findall_digits_pairs pairs total Hp Ht), (findall_lower_pairs pairs total Hp Ht).
    rewrite pop_snoc, combine_snd_fst. reflexivity.
  - intros Hnd. apply dict_of_pairs_distinct. now rewrite map_map.
Qed.

Lemma create_on_design_text_witness :
  Forall (fun p => is_number (fst p) = true /\ is_lower (snd p) = true)
    [("10", "a"%char); ("10", "b"%char)] /\
  is_number "25" = true /\
  create_bouquet_designs_matching_structure
    (design_text "A" "S" [("10", "a"%char); ("10", "b"%char)] "25") []
  = Some [("A"%char,
           {| total_number_of_flowers := "25";
              flowers := dict_of_pairs [("a"%char, "10"); ("b"%char, "10")];
              bouquet := str_remove "25"
                           (design_text "A" "S" [("10", "a"%char); ("10", "b"%char)] "25") |})].
Proof.
  assert (Hp : Forall (fun p => is_number (fst p) = true /\ is_lower (snd p) = true)
                 [("10", "a"%char); ("10", "b"%char)])
    by (repeat constructor).
  assert (Ht : is_number "25" = true) by reflexivity.
  refine (conj Hp (conj Ht _)).
  exact (proj1 (create_on_design_text "A" "S" _ "25" [] Hp Ht)).
Defined.

(** ** The bouquet of a design: what [replace] removes *)

Lemma prefix_app (old post : string) : prefix old (old ++ post)%string = true.
Proof.
  induction old as [|c old IH]; simpl; [now destruct post|].
  destruct (ascii_dec c c); [assumption | congruence].
Qed.

Lemma remove_occurrences_skip old u : forall s,
  remove_occurrences old (String.length u) (u ++ s)%string = remove_occurrences old O s.
Proof.
  induction u as [|c u IH]; simpl; intros s; [reflexivity | apply IH].
Qed.

Lemma remove_occurrences_first old pre : forall post,
  old <> EmptyString ->
  (forall i, (i < String.length pre)%nat ->
     prefix old (str_from i (pre ++ old ++ post)%string) = false) ->
  remove_occurrences old O (pre ++ old ++ post)%string
  = (pre ++ remove_occurrences old O post)%string.
Proof.
  induction pre as [|c pre IH]; intros post Hold Hfirst.
  - simpl. destruct old as [|a old]; [congruence|].
    change ((String a old ++ post)%string) with (String a (old ++ post)%string).
    cbn [remove_occurrences].
    change (String a (old ++ post)%string) with ((String a old ++ post)%string).
    rewrite prefix_app.
    replace (String.length (String a old) - 1)%nat with (String.length old)
      by (simpl; lia).
    apply remove_occurrences_skip.
  - change ((String c pre ++ old ++ post)%string)
      with (String c (pre ++ old ++ post)%string).
    cbn [remove_occurrences].
    assert (H0 := Hfirst O ltac:(simpl; lia)). cbn [str_from] in H0.
    change ((String c pre ++ old ++ post)%string)
      with (String c (pre ++ old ++ post)%string) in H0.
    rewrite H0. simpl. f_equal. apply IH; [assumption|].
    intros i Hi. apply (Hfirst (S i)). simpl. lia.
Qed.

(** The bouquet of a design is its text with every occurrence of the total's
    numeral removed, scanning from the left: up to the first occurrence the
    text is kept, the occurrence is dropped, and the removal goes on in what
    follows it; when the numeral occurs first at the very end, the bouquet is
    the text without its total. *)
Theorem bouquet_drops_every_total (bouquet_design : string) (reg reg' : dict design) :
  create_bouquet_designs_matching_structure bouquet_design reg = Some reg' ->
  exists name d,
    String.get 0 bouquet_design = Some name /\
    dict_get reg' name = Some d /\
    total_number_of_flowers d <> EmptyString /\
    forall pre post,
      bouquet_design = (pre ++ total_number_of_flowers d ++ post)%string ->
      (forall i, (i < String.length pre)%nat ->
         prefix (total_number_of_flowers d) (str_from i bouquet_design) = false) ->
      bouquet d = (pre ++ str_remove (total_number_of_flowers d) post)%string /\
      (post = EmptyString -> bouquet d = pre).
Proof.
  intros Hc. destruct (create_inv _ _ _ Hc) as (name & rest & total & H0 & Hdigits & ->).
  eexists name, _. split; [assumption|]. split; [apply dict_get_set_same|]. simpl.
  assert (Ht : is_number total = true).
  { assert (N := findall_digits_numbers (str_from 2 bouquet_design)).
    rewrite Hdigits in N. apply Forall_app in N. destruct N as [_ N]. now inversion N. }
  assert (Hne : total <> EmptyString) by (intros ->; discriminate Ht).
  split; [assumption|].
  intros pre post Hsplit Hfirst.
  assert (E : str_remove total bouquet_design = (pre ++ str_remove total post)%string).
  { unfold str_remove. destruct total as [|a t]; [congruence|].
    rewrite Hsplit. apply remove_occurrences_first; [assumption|].
    intros i Hi. rewrite <- Hsplit. now apply Hfirst. }
  split; [assumption|]. intros ->. rewrite E.
  unfold str_remove. destruct total; [congruence|]. simpl. apply str_app_empty.
Qed.

Lemma bouquet_drops_every_total_witness :
  exists reg',
    create_bouquet_designs_matching_structure "AS10a25b25" [] = Some reg' /\
    exists d, dict_get reg' "A"%char = Some d /\ bouquet d = "AS10ab".
Proof.
  destruct (create_bouquet_designs_matching_structure "AS10a25b25" []) as [reg'|] eqn:E;
    [| vm_compute in E; discriminate E].
  exists reg'. split; [reflexivity|].
  destruct (bouquet_drops_every_total "AS10a25b25" [] reg' E) as (name & d & H0 & Hd & _ & H).
  injection H0 as <-. exists d. split; [assumption|].
  assert (Ht : total_number_of_flowers d = "25").
  { vm_compute in E. injection E as <-. vm_compute in Hd. now injection Hd as <-. }
  destruct (H "AS10a" "b25") as [Hb _].
  - now rewrite Ht.
  - rewrite Ht. intros i Hi. simpl in Hi.
    do 5 (destruct i as [|i]; [reflexivity|]). lia.
  - rewrite Hb, Ht. reflexivity.
Defined.

(** ** Where a design is stored *)

Lemma class_is_not_L c : in_design_class c = true -> Ascii.eqb c "L" = false.
Proof.
  destruct c as [[] [] [] [] [] [] [] []]; intros H; try reflexivity; discriminate H.
Qed.

Lemma str_contains_class s :
  forallb in_design_class (list_ascii_of_string s) = true -> str_contains "L" s = false.
Proof.
  induction s as [|c s IH]; simpl; [reflexivity|]. intros H.
  apply andb_true_iff in H. destruct H as [Hc Hs].
  now rewrite (class_is_not_L c Hc), IH.
Qed.

(** The first loop tests ['L' in bouquet_design], not the size letter: a
    design extracted by the pattern is stored among the large designs when
    its name or its size is [L], and among the small ones otherwise, and the
    other dictionary is left as it is.  A design named [L] is large whatever
    its size. *)
Theorem design_is_filed_by_letter_L (bouquet_design : string) (name size : ascii)
    (small large : dict design) :
  is_bouquet_design bouquet_design = true ->
  String.get 0 bouquet_design = Some name ->
  String.get 1 bouquet_design = Some size ->
  exists reg',
    create_bouquet_designs_matching_structure bouquet_design
      (if Ascii.eqb name "L" || Ascii.eqb size "L" then large else small) = Some reg' /\
    add_bouquet_designs [bouquet_design] small large
    = Some (if Ascii.eqb name "L" || Ascii.eqb size "L"
            then (small, reg') else (reg', large)).
Proof.
  intros Hshape H0 H1.
  assert (Hok := bouquet_design_does_not_raise _ Hshape).
  destruct bouquet_design as [|c0 [|c1 rest]]; try discriminate.
  injection H0 as <-. injection H1 as <-.
  assert (Hclass : forallb in_design_class (list_ascii_of_string rest) = true).
  { unfold is_bouquet_design in Hshape.
    repeat (apply andb_true_iff in Hshape; destruct Hshape as [Hshape ?]). assumption. }
  assert (HL : str_contains "L" (String c0 (String c1 rest))
               = Ascii.eqb c0 "L" || Ascii.eqb c1 "L").
  { simpl. rewrite (str_contains_class rest Hclass). now rewrite orb_false_r. }
  cbn [add_bouquet_designs]. rewrite HL.
  destruct (Ascii.eqb c0 "L" || Ascii.eqb c1 "L").
  - destruct (create_bouquet_designs_matching_structure _ large) as [reg'|] eqn:E.
    + now exists reg'.
    + apply create_None in E. congruence.
  - destruct (create_bouquet_designs_matching_structure _ small) as [reg'|] eqn:E.
    + now exists reg'.
    + apply create_None in E. congruence.
Qed.

Lemma design_is_filed_by_letter_L_witness :
  is_bouquet_design "LS1a1" = true /\
  exists reg', add_bouquet_designs ["LS1a1"] [] [] = Some ([], reg').
Proof.
  split; [reflexivity|].
  destruct (design_is_filed_by_letter_L "LS1a1" "L" "S" [] [] eq_refl eq_refl eq_refl)
    as (reg' & _ & H).
  exists reg'. exact H.
Defined.

(** A design is stored under its first character, and what is stored is
    made from its text alone: the last numeral from position 2 on as total,
    the lowercase letters paired with the other numerals as flowers, the text
    without the total as bouquet.  A name that is new is added after the
    designs already there; a name already there keeps its place in the order
    and its design is replaced by the new one; no other design changes. *)
Theorem design_replaces_its_namesake (bouquet_design : string) (reg reg' : dict design) :
  create_bouquet_designs_matching_structure bouquet_design reg = Some reg' ->
  exists name rest total,
    String.get 0 bouquet_design = Some name /\
    findall_digits (str_from 2 bouquet_design) = rest ++ [total] /\
    dict_get reg' name
    = Some {| total_number_of_flowers := total;
              flowers := dict_of_pairs
                           (combine (findall_lower (str_from 2 bouquet_design)) rest);
              bouquet := str_remove total bouquet_design |} /\
    keys reg' = (if in_dec ascii_dec name (keys reg) then keys reg else keys reg ++ [name]) /\
    (forall n, n <> name -> dict_get reg' n = dict_get reg n) /\
    (NoDup (keys reg) -> NoDup (keys reg')).
Proof.
  intros Hc. destruct (create_inv _ _ _ Hc) as (name & rest & total & H0 & Hd & ->).
  exists name, rest, total. split; [assumption|]. split; [assumption|].
  split; [apply dict_get_set_same|].
  split; [apply keys_set|]. split.
  - intros n Hn. apply dict_get_set_other. congruence.
  - apply NoDup_keys_set.
Qed.

Lemma design_replaces_its_namesake_witness :
  exists reg reg',
    add_bouquet_designs ["AS1a1"; "BS1b1"] [] [] = Some (reg, []) /\
    create_bouquet_designs_matching_structure "AS2c2" reg = Some reg' /\
    keys reg' = ["A"; "B"]%char /\
    dict_get reg' "A"%char
    = Some {| total_number_of_flowers := "2"; flowers := [("c"%char, "2")];
              bouquet := "ASc" |}.
Proof.
  destruct (add_bouquet_designs ["AS1a1"; "BS1b1"] [] []) as [[reg large]|] eqn:E;
    [| vm_compute in E; discriminate E].
  assert (large = []) by (vm_compute in E; now injection E as _ <-). subst large.
  destruct (create_bouquet_designs_matching_structure "AS2c2" reg) as [reg'|] eqn:E';
    [| exfalso; apply create_None in E'; discriminate E'].
  exists reg, reg'. refine (conj eq_refl (conj E' _)).
  destruct (design_replaces_its_namesake "AS2c2" reg reg' E')
    as (name & rest & total & H0 & Hd & Hget & Hk & _).
  injection H0 as <-. split.
  - rewrite Hk. vm_compute in E. injection E as <-. reflexivity.
  - rewrite Hget. vm_compute in Hd.
    destruct rest as [|r0 [|r1 rest]]; simpl in Hd.
    + discriminate Hd.
    + injection Hd as <- <-. reflexivity.
    + exfalso. injection Hd as _ _ Hrest. destruct rest; discriminate Hrest.
Defined.

(** ** Bouquets and flowers over a whole run *)

Lemma receive_all_printed_bound stream : forall f f',
  settled f -> all_ask_for_flowers f ->
  receive_all f stream = Some f' ->
  (List.length (printed f') <= List.length (printed f) + List.length stream)%nat.
Proof.
  induction stream as [|flower stream IH]; simpl; intros f f' Hset Hask H.
  - injection H as <-. lia.
  - destruct (receive f flower) as [f1|] eqn:E; [|discriminate].
    destruct (receive_settled f flower f1 Hset Hask E) as (Hset1 & out & Hp & Hlen).
    assert (Hask1 : all_ask_for_flowers f1).
    { intros size n d. rewrite (receive_designs f flower f1 E size). apply Hask. }
    specialize (IH f1 f' Hset1 Hask1 H). rewrite Hp, length_app in IH. lia.
Qed.

(** When every design names a flower and asks only for positive numbers, a
    run prints no more bouquets than it has received flowers. *)
Theorem no_more_bouquets_than_flowers (bouquet_designs stream_of_flowers : list string)
    (f : facility) :
  production_facility bouquet_designs stream_of_flowers = Some f ->
  all_ask_for_flowers f ->
  (List.length (printed f) <= List.length stream_of_flowers)%nat.
Proof.
  intros Hrun Hask. revert Hrun. unfold production_facility.
  destruct (add_bouquet_designs bouquet_designs [] []) as [[small large]|] eqn:E;
    [|discriminate].
  intros Hr.
  set (f0 := {| small_bouquet_designs := small; large_bouquet_designs := large;
                large_flowers_counter := []; small_flowers_counter := []; printed := [] |})
    in *.
  assert (Hask0 : all_ask_for_flowers f0).
  { intros size n d. rewrite <- (receive_all_designs _ _ _ Hr size). apply Hask. }
  assert (Hset0 : settled f0).
  { apply (production_facility_settled bouquet_designs [] f0); [|assumption].
    unfold production_facility. now rewrite E. }
  exact (receive_all_printed_bound stream_of_flowers f0 f Hset0 Hask0 Hr).
Qed.

Lemma asks_for_flowers_sample : asks_for_flowers sample_design.
Proof.
  split; [discriminate|]. intros k n Hk. apply dict_get_Some_In in Hk.
  destruct Hk as [[= <- <-]|[[= <- <-]|[]]]; reflexivity.
Qed.

Lemma no_more_bouquets_than_flowers_witness :
  exists f,
    production_facility ["AS2a1b5"] ["bS"; "aS"; "aS"; "aL"] = Some f /\
    (List.length (printed f) <= 4)%nat.
Proof.
  destruct (production_facility ["AS2a1b5"] ["bS"; "aS"; "aS"; "aL"]) as [f|] eqn:Ef;
    [| vm_compute in Ef; discriminate Ef].
  exists f. split; [reflexivity|].
  apply (no_more_bouquets_than_flowers _ _ f Ef).
  vm_compute in Ef. injection Ef as <-.
  intros size n d Hd. unfold designs_for in Hd.
  destruct (Ascii.eqb size "L"); apply dict_get_Some_In in Hd;
    [destruct Hd | destruct Hd as [[= <- <-]|[]]].
  apply asks_for_flowers_sample.
Defined.

Lemma count_try_design_le0 d (c : counter) out k :
  NoDup (keys c) ->
  (forall k n, dict_get (flowers d) k = Some n -> 0 <= int n) ->
  count (fst (try_design (c, out) d)) k <= count c k.
Proof.
  intros Hc Hpos. unfold try_design. destruct (can_make d c); simpl; [|lia].
  assert (H1 : count (subtract_flowers d c) k <= count c k).
  { rewrite count_subtract_flowers by assumption.
    destruct (dict_get (flowers d) k) as [n|] eqn:E; [|lia].
    specialize (Hpos k n E). destruct (in_dec ascii_dec k (keys c)); lia. }
  destruct (Z.ltb_spec 0 (number_of_additional_flowers d)) as [Hn|_]; [|assumption].
  destruct (count_subtract_additional _ (keys (subtract_flowers d c))
              (subtract_flowers d c) k Hn) as [Hle _]. lia.
Qed.

Lemma count_fold_try_design_le ds : forall (c : counter) out k,
  NoDup (keys c) ->
  Forall (fun d => forall k n, dict_get (flowers d) k = Some n -> 0 <= int n) ds ->
  count (fst (fold_left try_design ds (c, out))) k <= count c k.
Proof.
  induction ds as [|d ds IH]; intros c out k Hc Hds; cbn [fold_left]; [simpl; lia|].
  inversion Hds as [|? ? Hd Hds']; subst.
  assert (Hk := keys_try_design d c out).
  assert (Hle := count_try_design_le0 d c out k Hc Hd).
  destruct (try_design (c, out) d) as [c1 out1]. cbn [fst] in *.
  assert (Hc1 : NoDup (keys c1)) by now rewrite Hk.
  specialize (IH c1 out1 k Hc1 Hds'). lia.
Qed.

Lemma receive_all_arrivals size stream : forall f f',
  sound f ->
  (forall s n d, dict_get (designs_for f s) n = Some d -> numeric d) ->
  receive_all f stream = Some f' ->
  forall k,
    count (counter_for f' size) k
    <= count (counter_for f size) k
       + Z.of_nat (count_occ ascii_dec (names_for size stream) k).
Proof.
  induction stream as [|flower stream IH]; simpl; intros f f' Hs Hnum H k.
  - injection H as <-. lia.
  - destruct (receive f flower) as [f1|] eqn:E; [|discriminate].
    assert (Hs1 := receive_sound f flower f1 Hs E).
    assert (Hnum1 : forall s n d, dict_get (designs_for f1 s) n = Some d -> numeric d).
    { intros s n d. rewrite (receive_designs f flower f1 E s). apply Hnum. }
    specialize (IH f1 f' Hs1 Hnum1 H k).
    destruct (receive_inv _ _ _ E)
      as (size0 & name & c & out & H1 & H0 & Ht & Hc & _ & _ & _ & Hother).
    rewrite H1, H0.
    destruct (same_size size size0) eqn:Es.
    + destruct (Hs size0) as (Hok & Hnd & _).
      rewrite try_designs_values in Ht by apply Hok.
      assert (Hle := count_fold_try_design_le (values (designs_for f size0))
                       (dict_set (counter_for f size0) name
                          (count (counter_for f size0) name + 1)) [] k
                       (NoDup_keys_set _ _ _ Hnd)).
      rewrite Ht in Hle. cbn [fst] in Hle.
      assert (Hds : Forall (fun d => forall k n, dict_get (flowers d) k = Some n -> 0 <= int n)
                      (values (designs_for f size0))).
      { apply Forall_forall. intros d Hd.
        destruct (In_values_get _ d (proj1 Hok) Hd) as [n Hn].
        intros k0 q Hq. now apply (proj2 (Hnum size0 n d Hn) k0 q Hq). }
      specialize (Hle Hds).
      rewrite <- (same_size_counter f1 size size0 Es), Hc in IH.
      rewrite <- (same_size_counter f size size0 Es).
      cbn [count_occ]. destruct (ascii_dec name k) as [->|Hne].
      * rewrite count_set_same in Hle. lia.
      * rewrite count_set_other in Hle by assumption. lia.
    + rewrite Hother in IH; [assumption|]. now rewrite same_size_sym.
Qed.

(** A counter never holds more flowers of a name than have arrived with that
    name and its size: the program only takes flowers out, apart from the
    one it adds per arrival. *)
Theorem counter_bounded_by_arrivals (bouquet_designs stream_of_flowers : list string)
    (f : facility) (size k : ascii) :
  production_facility bouquet_designs stream_of_flowers = Some f ->
  0 <= count (counter_for f size) k
    <= Z.of_nat (count_occ ascii_dec (names_for size stream_of_flowers) k).
Proof.
  unfold production_facility.
  destruct (add_bouquet_designs bouquet_designs [] []) as [[small large]|] eqn:E;
    [|discriminate].
  intros Hr.
  destruct (add_bouquet_designs_ok _ _ _ _ _ designs_ok_empty designs_ok_empty E) as [Hs Hl].
  destruct (add_bouquet_designs_numeric bouquet_designs [] [] small large) as [Ns Nl];
    try assumption; try (intros ? ? [=]).
  set (f0 := {| small_bouquet_designs := small; large_bouquet_designs := large;
                large_flowers_counter := []; small_flowers_counter := []; printed := [] |})
    in *.
  assert (S0 : sound f0).
  { intros s. unfold designs_for, counter_for. simpl.
    destruct (Ascii.eqb s "L"); (split; [assumption | split; [constructor | ]]);
      intros k0; unfold count; simpl; lia. }
  assert (N0 : forall s n d, dict_get (designs_for f0 s) n = Some d -> numeric d).
  { intros s n d. unfold designs_for. simpl. destruct (Ascii.eqb s "L"); [apply Nl | apply Ns]. }
  assert (B := receive_all_arrivals size stream_of_flowers f0 f S0 N0 Hr k).
  assert (Z0 : count (counter_for f0 size) k = 0).
  { unfold counter_for. simpl. now destruct (Ascii.eqb size "L"). }
  destruct (receive_all_sound _ _ _ S0 Hr size) as (_ & _ & Hpos).
  specialize (Hpos k). lia.
Qed.

Lemma counter_bounded_by_arrivals_witness :
  exists f,
    production_facility ["AS2a1b5"] ["bS"; "aS"; "cS"; "aL"; "cS"] = Some f /\
    0 <= count (small_flowers_counter f) "c" <= 2.
Proof.
  destruct (production_facility ["AS2a1b5"] ["bS"; "aS"; "cS"; "aL"; "cS"]) as [f|] eqn:Ef;
    [| vm_compute in Ef; discriminate Ef].
  exists f. split; [reflexivity|].
  exact (counter_bounded_by_arrivals _ _ f "S"%char "c"%char Ef).
Defined.

(** ** Extraction of a single token *)

Lemma findall_items_skip_all items s : forall n,
  (String.length s <= n)%nat -> findall_items items n s = [].
Proof.
  induction s as [|c s IH]; intros n Hn; cbn [findall_items]; [reflexivity|].
  simpl in Hn. destruct n as [|n]; [lia|]. apply IH. lia.
Qed.

Lemma findall_items_whole items c s :
  match_items items (String c s) = Some EmptyString ->
  findall_items items O (String c s) = [String c s].
Proof.
  intros H. cbn [findall_items]. rewrite H. cbv zeta.
  replace (String.length (String c s) - String.length EmptyString)%nat
    with (S (String.length s)) by (simpl; lia).
  cbn [str_take]. f_equal.
  - f_equal. clear H. induction s as [|a s IH]; simpl; [reflexivity | now rewrite IH].
  - apply findall_items_skip_all. simpl. lia.
Qed.

Lemma match_digits_end c :
  is_digit c = true -> match_items [Many is_digit] (String c EmptyString) = Some EmptyString.
Proof. intros H. simpl. now rewrite H. Qed.

(** On characters of the class that end in a digit, the greedy [+] gives
    back exactly what the final [\d+] needs. *)
Lemma match_class_digits r : forall c,
  in_design_class c = true ->
  forallb in_design_class (list_ascii_of_string r) = true ->
  r <> EmptyString ->
  match rev (list_ascii_of_string r) with a :: _ => is_digit a | [] => false end = true ->
  match_items [Many in_design_class; Many is_digit] (String c r) = Some EmptyString.
Proof.
  induction r as [|a r IH]; intros c Hc Hr Hne Hlast; [congruence|].
  simpl in Hr. apply andb_true_iff in Hr. destruct Hr as [Ha Hr].
  destruct r as [|b r].
  - simpl in Hlast. simpl. now rewrite Hc, Ha, Hlast.
  - assert (IH' := IH a Ha Hr ltac:(discriminate)).
    assert (Hlast' : match rev (list_ascii_of_string (String b r)) with
                     | x :: _ => is_digit x | [] => false end = true).
    { change (list_ascii_of_string (String a (String b r)))
        with ([a] ++ list_ascii_of_string (String b r)) in Hlast.
      rewrite rev_app_distr in Hlast.
      destruct (rev (list_ascii_of_string (String b r))) as [|x t] eqn:E; [|exact Hlast].
      exfalso. assert (L : List.length (rev (list_ascii_of_string (String b r))) = O)
        by now rewrite E.
      rewrite length_rev in L. simpl in L. discriminate L. }
    specialize (IH' Hlast').
    change (match_items [Many in_design_class; Many is_digit] (String c (String a (String b r))))
      with (if in_design_class c
            then match match_items [Many in_design_class; Many is_digit] (String a (String b r))
                 with
                 | Some rest => Some rest
                 | None => match_items [Many is_digit] (String a (String b r))
                 end
            else None).
    now rewrite Hc, IH'.
Qed.

Lemma class_is_not_size c : in_design_class c = true -> is_size c = false.
Proof.
  destruct c as [[] [] [] [] [] [] [] []]; intros H; try reflexivity; discriminate H.
Qed.

Lemma size_is_not_lower c : is_size c = true -> is_lower c = false.
Proof.
  destruct c as [[] [] [] [] [] [] [] []]; intros H; try reflexivity; discriminate H.
Qed.

Lemma upper_is_not_lower c : is_upper c = true -> is_lower c = false.
Proof.
  destruct c as [[] [] [] [] [] [] [] []]; intros H; try reflexivity; discriminate H.
Qed.

Lemma no_flower_in_class r : forall n,
  forallb in_design_class (list_ascii_of_string r) = true ->
  findall_items flower_pattern n r = [].
Proof.
  induction r as [|c r IH]; intros n Hr; cbn [findall_items]; [reflexivity|].
  simpl in Hr. apply andb_true_iff in Hr. destruct Hr as [Hc Hr].
  destruct n as [|n]; [|now apply IH].
  assert (E : match_items flower_pattern (String c r) = None).
  { simpl. destruct (is_lower c); [|reflexivity].
    destruct r as [|a r]; [reflexivity|].
    simpl in Hr. apply andb_true_iff in Hr. destruct Hr as [Ha _].
    now rewrite (class_is_not_size a Ha). }
  rewrite E. now apply IH.
Qed.

(** A string of the shape of a design is extracted as one design, whole, and
    holds no flower; a string of the shape of a flower is extracted as one
    flower. *)
Theorem extraction_returns_a_token_whole :
  (forall bd, is_bouquet_design bd = true ->
     extract_bouquet_designs_from_input_stream bd = [bd] /\
     extract_flowers_from_input_stream bd = []) /\
  (forall fl, is_flower fl = true -> extract_flowers_from_input_stream fl = [fl]).
Proof.
  split.
  - intros bd H. unfold is_bouquet_design in H.
    destruct bd as [|c0 [|c1 r]]; try discriminate.
    apply andb_true_iff in H. destruct H as [H Hlast].
    apply andb_true_iff in H. destruct H as [H Hlen].
    apply andb_true_iff in H. destruct H as [H Hclass].
    apply andb_true_iff in H. destruct H as [H0 H1].
    split.
    + unfold extract_bouquet_designs_from_input_stream. apply findall_items_whole.
      unfold bouquet_design_pattern.
      change (match_items [One is_upper; One is_size; Many in_design_class; Many is_digit]
                (String c0 (String c1 r)))
        with (if is_upper c0
              then (if is_size c1
                    then match_items [Many in_design_class; Many is_digit] r else None)
              else None).
      rewrite H0, H1.
      destruct r as [|a r]; [discriminate|].
      simpl in Hclass. apply andb_true_iff in Hclass. destruct Hclass as [Ha Hr].
      destruct r as [|b r]; [discriminate|].
      apply match_class_digits; [assumption | assumption | discriminate |].
      change (list_ascii_of_string (String a (String b r)))
        with ([a] ++ list_ascii_of_string (String b r)) in Hlast.
      rewrite rev_app_distr in Hlast.
      destruct (rev (list_ascii_of_string (String b r))) as [|x t] eqn:E; [|exact Hlast].
      exfalso. assert (L : List.length (rev (list_ascii_of_string (String b r))) = O)
        by now rewrite E.
      rewrite length_rev in L. simpl in L. discriminate L.
    + unfold extract_flowers_from_input_stream. cbn [findall_items].
      assert (E0 : match_items flower_pattern (String c0 (String c1 r)) = None).
      { simpl. now rewrite (upper_is_not_lower c0 H0). }
      rewrite E0.
      assert (E1 : match_items flower_pattern (String c1 r) = None).
      { simpl. now rewrite (size_is_not_lower c1 H1). }
      rewrite E1. now apply no_flower_in_class.
  - intros fl H. unfold is_flower in H.
    destruct fl as [|c0 [|c1 [|c2 s]]]; try discriminate.
    apply andb_true_iff in H. destruct H as [H0 H1].
    unfold extract_flowers_from_input_stream. apply findall_items_whole.
    simpl. now rewrite H0, H1.
Qed.

Lemma extraction_returns_a_token_whole_witness :
  is_bouquet_design "AS10a10b25" = true /\
  extract_bouquet_designs_from_input_stream "AS10a10b25" = ["AS10a10b25"] /\
  is_flower "aL" = true /\
  extract_flowers_from_input_stream "aL" = ["aL"].
Proof.
  refine (conj eq_refl (conj _ (conj eq_refl _))).
  - exact (proj1 (proj1 extraction_returns_a_token_whole "AS10a10b25" eq_refl)).
  - exact (proj2 extraction_returns_a_token_whole "aL" eq_refl).
Defined.

(** ** The program with the digit limit agrees with the program without *)

Lemma checked_int s : fits s = true -> Checked.int s = Some (int s).
Proof. unfold Checked.int, fits. now intros ->. Qed.

Lemma fits_lookup (d : design) k n :
  design_fits d -> dict_get (flowers d) k = Some n -> fits n = true.
Proof.
  intros [_ Hall] Hk. rewrite Forall_forall in Hall. apply Hall.
  apply dict_get_Some_In in Hk. unfold values. apply in_map_iff. now exists (k, n).
Qed.

Lemma checked_enough d c k :
  design_fits d -> Checked.enough d c k = Some (enough d c k).
Proof.
  intros Hd. unfold Checked.enough, enough.
  destruct (dict_get (flowers d) k) as [n|] eqn:E; [|reflexivity].
  now rewrite (checked_int n (fits_lookup d k n Hd E)).
Qed.

Lemma checked_can_make d c :
  design_fits d -> Checked.can_make d c = Some (can_make d c).
Proof.
  intros Hd. unfold Checked.can_make, can_make,
    Checked.matching_flower_numbers, matching_flower_numbers.
  assert (G : forall ks acc,
             fold_left (Checked.matching_step d c) ks (Some acc)
             = Some (fold_left (matching_step d c) ks acc)).
  { induction ks as [|k ks IH]; intros acc; cbn [fold_left]; [reflexivity|].
    unfold Checked.matching_step at 2, matching_step at 2.
    rewrite (checked_enough d c k Hd). destruct (enough d c k); apply IH. }
  now rewrite G.
Qed.

Lemma checked_ints l :
  Forall (fun n => fits n = true) l -> Checked.ints l = Some (map int l).
Proof.
  induction 1 as [|n l Hn Hl IH]; simpl; [reflexivity|].
  now rewrite (checked_int n Hn), IH.
Qed.

Lemma checked_additional d :
  design_fits d ->
  Checked.number_of_additional_flowers d = Some (number_of_additional_flowers d).
Proof.
  intros [Ht Hall]. unfold Checked.number_of_additional_flowers, number_of_additional_flowers.
  now rewrite (checked_int _ Ht), (checked_ints _ Hall).
Qed.

Lemma checked_subtract d c :
  design_fits d -> Checked.subtract_flowers d c = Some (subtract_flowers d c).
Proof.
  intros Hd. unfold Checked.subtract_flowers, subtract_flowers.
  assert (G : forall ks acc,
             fold_left (Checked.subtract_step d) ks (Some acc)
             = Some (fold_left (subtract_step d) ks acc)).
  { induction ks as [|k ks IH]; intros acc; cbn [fold_left]; [reflexivity|].
    unfold Checked.subtract_step at 2, subtract_step at 2.
    destruct (dict_get (flowers d) k) as [n|] eqn:E; [|apply IH].
    rewrite (checked_int n (fits_lookup d k n Hd E)). apply IH. }
  apply G.
Qed.

Lemma checked_try_design d st :
  design_fits d -> Checked.try_design (Some st) d = Some (try_design st d).
Proof.
  intros Hd. destruct st as [c out]. unfold Checked.try_design, try_design.
  rewrite (checked_can_make d c Hd). destruct (can_make d c); [|reflexivity].
  now rewrite (checked_additional d Hd), (checked_subtract d c Hd).
Qed.

Lemma checked_try_designs reg st :
  (forall n d, dict_get reg n = Some d -> design_fits d) ->
  Checked.try_designs reg (Some st) = Some (try_designs reg st).
Proof.
  intros Hreg. unfold Checked.try_designs, try_designs.
  assert (G : forall names st0,
             fold_left (Checked.try_name reg) names (Some st0)
             = Some (fold_left (try_name reg) names st0)).
  { induction names as [|n names IH]; intros st0; cbn [fold_left]; [reflexivity|].
    unfold Checked.try_name at 2, try_name at 2.
    destruct (dict_get reg n) as [d|] eqn:E; [|apply IH].
    rewrite (checked_try_design d st0 (Hreg n d E)). apply IH. }
  apply G.
Qed.

Lemma checked_receive f flower :
  (forall size n d,
      String.get 1 flower = Some size ->
      dict_get (designs_for f size) n = Some d -> design_fits d) ->
  Checked.receive f flower = receive f flower.
Proof.
  intros Hfit. unfold Checked.receive, receive,
    Checked.match_flower_streams_with_bouquet_design_structures,
    match_flower_streams_with_bouquet_design_structures.
  destruct (String.get 1 flower) as [size|] eqn:H1; [|reflexivity].
  specialize (Hfit size). unfold designs_for in Hfit.
  destruct (String.get 0 flower) as [name|]; [|reflexivity].
  destruct (Ascii.eqb size "L");
    rewrite checked_try_designs by (intros n d; now apply Hfit); reflexivity.
Qed.

Lemma checked_receive_all stream : forall f,
  (forall size n d, dict_get (designs_for f size) n = Some d -> design_fits d) ->
  Checked.receive_all f stream = receive_all f stream.
Proof.
  induction stream as [|flower stream IH]; intros f Hfit; cbn [Checked.receive_all receive_all];
    [reflexivity|].
  rewrite checked_receive by (intros size n d _; apply Hfit).
  destruct (receive f flower) as [f1|] eqn:E; [|reflexivity].
  apply IH. intros size n d. rewrite (receive_designs f flower f1 E size). apply Hfit.
Qed.

Lemma values_of_pairs {V : Type} (pairs : list (ascii * V)) v :
  In v (values (dict_of_pairs pairs)) -> In v (map snd pairs).
Proof.
  intros H. unfold values in H. apply in_map_iff in H. destruct H as ([k v'] & <- & Hin).
  assert (Hnd := NoDup_keys_of_pairs pairs).
  apply (dict_get_of_In _ k v' Hnd) in Hin. apply dict_get_of_pairs_In in Hin.
  apply in_map_iff. now exists (k, v').
Qed.

Lemma create_fits bouquet_design reg reg' :
  text_fits bouquet_design = true ->
  (forall n d, dict_get reg n = Some d -> design_fits d) ->
  create_bouquet_designs_matching_structure bouquet_design reg = Some reg' ->
  forall n d, dict_get reg' n = Some d -> design_fits d.
Proof.
  intros Ht Hreg Hc n d Hn.
  destruct (create_inv _ _ _ Hc) as (name & rest & total & _ & Hdigits & ->).
  destruct (ascii_dec name n) as [->|Hne].
  - rewrite dict_get_set_same in Hn. injection Hn as <-.
    unfold text_fits in Ht. rewrite Hdigits, forallb_app in Ht.
    apply andb_true_iff in Ht. destruct Ht as [Hrest Htotal].
    split; simpl.
    + simpl in Htotal. now rewrite andb_true_r in Htotal.
    + apply Forall_forall. intros v Hv. apply values_of_pairs in Hv.
      apply in_map_iff in Hv. destruct Hv as ([k v'] & <- & Hin).
      apply in_combine_r in Hin. rewrite forallb_forall in Hrest. now apply Hrest.
  - rewrite dict_get_set_other in Hn by assumption. now apply (Hreg n).
Qed.

Lemma add_bouquet_designs_fit bouquet_designs : forall small large small' large',
  forallb text_fits bouquet_designs = true ->
  (forall n d, dict_get small n = Some d -> design_fits d) ->
  (forall n d, dict_get large n = Some d -> design_fits d) ->
  add_bouquet_designs bouquet_designs small large = Some (small', large') ->
  (forall n d, dict_get small' n = Some d -> design_fits d) /\
  (forall n d, dict_get large' n = Some d -> design_fits d).
Proof.
  induction bouquet_designs as [|bd rest IH]; cbn [add_bouquet_designs forallb];
    intros small large small' large' Hfit Hs Hl H.
  - injection H as <- <-. now split.
  - apply andb_true_iff in Hfit. destruct Hfit as [Hbd Hrest].
    destruct (str_contains "L" bd).
    + destruct (create_bouquet_designs_matching_structure bd large) as [large1|] eqn:E;
        [|discriminate].
      apply (IH small large1); try assumption. exact (create_fits bd large large1 Hbd Hl E).
    + destruct (create_bouquet_designs_matching_structure bd small) as [small1|] eqn:E;
        [|discriminate].
      apply (IH small1 large); try assumption. exact (create_fits bd small small1 Hbd Hs E).
Qed.

(** When every numeral of the designs has at most 4300 digits, no conversion
    raises and the run is the one computed without the limit. *)
Lemma checked_production_facility bouquet_designs stream_of_flowers :
  forallb text_fits bouquet_designs = true ->
  Checked.production_facility bouquet_designs stream_of_flowers
  = production_facility bouquet_designs stream_of_flowers.
Proof.
  intros Hfit. unfold Checked.production_facility, production_facility.
  destruct (add_bouquet_designs bouquet_designs [] []) as [[small large]|] eqn:E;
    [|reflexivity].
  destruct (add_bouquet_designs_fit bouquet_designs [] [] small large Hfit) as [Fs Fl];
    try assumption; try (intros ? ? [=]).
  apply checked_receive_all. intros size n d. unfold designs_for. simpl.
  destruct (Ascii.eqb size "L"); [apply Fl | apply Fs].
Qed.

(** ** The claims about a match *)

(** The counter after the subtraction of the named flowers of a design that
    can be made. *)
Lemma named_subtraction (d : design) (c : counter) :
  NoDup (keys c) -> NoDup (keys (flowers d)) ->
  can_make d c = true ->
  keys (subtract_flowers d c) = keys c /\
  forall k,
    match dict_get (flowers d) k with
    | Some n =>
        In k (keys c) /\
        count (subtract_flowers d c) k = count c k - int n /\
        0 <= count (subtract_flowers d c) k
    | None => dict_get (subtract_flowers d c) k = dict_get c k
    end.
Proof.
  intros Hc Hf Hcan. split; [apply keys_subtract_flowers|].
  intros k. destruct (dict_get (flowers d) k) as [n|] eqn:E.
  - destruct (proj1 (can_make_true d c Hc Hf) Hcan k n E) as [Hin Hle].
    rewrite count_subtract_flowers by assumption. rewrite E.
    destruct (in_dec ascii_dec k (keys c)); [|contradiction]. split; [assumption | lia].
  - now apply dict_get_subtract_fold_other.
Qed.

Lemma additional_is_total_minus_sum (d : design) :
  number_of_additional_flowers d
  = int (total_number_of_flowers d) - fold_left Z.add (map int (map snd (flowers d))) 0.
Proof. reflexivity. Qed.

(** C5.  On every match the program goes through the counter [c1] in which,
    for every flower name of the design, the number is the old one minus the
    number the design asks for, and is not negative, and in which every other
    entry and the order of the keys are as before; the counter it leaves is
    [c1] after the step of the additional flowers, which only takes flowers
    away, and the bouquet is printed. *)
Theorem C5_named_deduction (d : design) (c : counter) (out : list string) :
  NoDup (keys c) -> NoDup (keys (flowers d)) ->
  can_make d c = true ->
  exists c1,
    keys c1 = keys c /\
    (forall k,
        match dict_get (flowers d) k with
        | Some n => In k (keys c) /\ count c1 k = count c k - int n /\ 0 <= count c1 k
        | None => dict_get c1 k = dict_get c k
        end) /\
    try_design (c, out) d
    = (let n := int (total_number_of_flowers d)
                - fold_left Z.add (map int (map snd (flowers d))) 0 in
       if 0 <? n then subtract_additional n (keys c1) c1 else c1,
       out ++ [bouquet d]) /\
    (forall k, count (fst (try_design (c, out) d)) k <= count c1 k).
Proof.
  intros Hc Hf Hcan. exists (subtract_flowers d c).
  destruct (named_subtraction d c Hc Hf Hcan) as [Hk Hcounts].
  split; [assumption|]. split; [assumption|].
  assert (E : try_design (c, out) d
              = (let n := int (total_number_of_flowers d)
                          - fold_left Z.add (map int (map snd (flowers d))) 0 in
                 if 0 <? n
                 then subtract_additional n (keys (subtract_flowers d c)) (subtract_flowers d c)
                 else subtract_flowers d c,
                 out ++ [bouquet d])).
  { rewrite try_design_can by assumption. cbv zeta.
    now rewrite additional_is_total_minus_sum. }
  split; [exact E|].
  intros k. rewrite E. cbv zeta. cbn [fst].
  destruct (Z.ltb_spec 0 (int (total_number_of_flowers d)
                          - fold_left Z.add (map int (map snd (flowers d))) 0)) as [Hn|_];
    [|lia].
  now destruct (count_subtract_additional _ (keys (subtract_flowers d c))
                  (subtract_flowers d c) k Hn).
Qed.

Lemma C5_named_deduction_witness :
  NoDup (keys sample_counter) /\ NoDup (keys (flowers sample_design)) /\
  can_make sample_design sample_counter = true /\
  try_design (sample_counter, []) sample_design
  = ([("b"%char, 0); ("c"%char, 2); ("a"%char, 1)], ["AS2a1b"]).
Proof.
  assert (Hc : NoDup (keys sample_counter)) by solve_nodup.
  assert (Hf : NoDup (keys (flowers sample_design))) by solve_nodup.
  assert (Hcan : can_make sample_design sample_counter = true) by reflexivity.
  refine (conj Hc (conj Hf (conj Hcan _))).
  destruct (C5_named_deduction sample_design sample_counter [] Hc Hf Hcan)
    as (c1 & Hk & Hcounts & Htry & _).
  assert (Hb := Hcounts "b"%char). assert (Hcc := Hcounts "c"%char).
  assert (Ha := Hcounts "a"%char). simpl in Hb, Hcc, Ha.
  destruct Hb as (_ & Hb & _). destruct Ha as (_ & Ha & _).
  destruct c1 as [|[k1 v1] [|[k2 v2] [|[k3 v3] [|]]]]; try discriminate Hk.
  injection Hk as -> -> ->.
  unfold count in Hb, Ha. simpl in Hb, Ha, Hcc. injection Hcc as ->. subst v1 v3.
  rewrite Htry. reflexivity.
Defined.

(** C3.  The keys of a counter are the names of the flowers received for its
    size, in the order of their first appearance.  On a match of a design
    whose total exceeds the sum of the numbers it asks for by [n > 0], the
    bouquet is printed in every case; with [c1] the counter after the
    subtraction of the named flowers, the keys are scanned in their order and
    either [n] is subtracted from the first key that holds at least [n]
    flowers, every other entry being left alone, or no key holds [n] flowers
    and the counter is left as [c1]. *)
Theorem C3_additional_flowers :
  (forall bouquet_designs stream_of_flowers f size,
      production_facility bouquet_designs stream_of_flowers = Some f ->
      keys (counter_for f size) = first_seen [] (names_for size stream_of_flowers)) /\
  (forall d c out,
      NoDup (keys c) -> NoDup (keys (flowers d)) ->
      can_make d c = true ->
      let n := int (total_number_of_flowers d)
               - fold_left Z.add (map int (map snd (flowers d))) 0 in
      0 < n ->
      exists c1 c2,
        keys c1 = keys c /\
        (forall k,
            match dict_get (flowers d) k with
            | Some q => count c1 k = count c k - int q
            | None => dict_get c1 k = dict_get c k
            end) /\
        try_design (c, out) d = (c2, out ++ [bouquet d]) /\
        keys c2 = keys c /\
        ((exists pre key post,
             keys c1 = pre ++ key :: post /\
             (forall k, In k pre -> count c1 k < n) /\
             n <= count c1 key /\
             count c2 key = count c1 key - n /\
             (forall k, k <> key -> dict_get c2 k = dict_get c1 k))
         \/ ((forall k, count c1 k < n) /\ c2 = c1))).
Proof.
  split.
  - intros bouquet_designs stream_of_flowers f size. unfold production_facility.
    destruct (add_bouquet_designs bouquet_designs [] []) as [[small large]|]; [|discriminate].
    intros H. apply (keys_receive_all size) in H. rewrite H. unfold counter_for. simpl.
    now destruct (Ascii.eqb size "L").
  - intros d c out Hc Hf Hcan n Hpos.
    set (c1 := subtract_flowers d c).
    destruct (named_subtraction d c Hc Hf Hcan) as [Hk1 Hcounts]. fold c1 in Hk1, Hcounts.
    assert (E : try_design (c, out) d
                = (subtract_additional n (keys c1) c1, out ++ [bouquet d])).
    { rewrite try_design_can by assumption. cbv zeta.
      rewrite additional_is_total_minus_sum. fold n. fold c1.
      destruct (Z.ltb_spec 0 n) as [_|Hle]; [reflexivity | lia]. }
    exists c1, (subtract_additional n (keys c1) c1).
    split; [assumption|]. split.
    { intros k. specialize (Hcounts k).
      destruct (dict_get (flowers d) k); [apply Hcounts | assumption]. }
    split; [exact E|]. split.
    { rewrite keys_subtract_additional by apply incl_refl. assumption. }
    destruct (subtract_additional_cases n (keys c1) c1)
      as [(pre & key & post & Hsplit & Hpre & Hkey)|Hall].
    + left. exists pre, key, post.
      assert (E2 : subtract_additional n (keys c1) c1 = dict_set c1 key (count c1 key - n)).
      { rewrite Hsplit. now apply subtract_additional_first. }
      rewrite E2. repeat split; try assumption.
      * apply count_set_same.
      * intros k Hk. apply dict_get_set_other. congruence.
    + right. split.
      * intros k. destruct (in_dec ascii_dec k (keys c1)) as [Hin|Hout].
        -- now apply Hall.
        -- rewrite count_absent by assumption. lia.
      * now apply subtract_additional_none.
Qed.

Lemma C3_additional_flowers_witness :
  production_facility ["AS2a1b5"] ["bS"; "cS"; "aL"; "cS"; "aS"; "cS"; "cS"; "aS"]
  <> None /\
  NoDup (keys sample_counter) /\ NoDup (keys (flowers sample_design)) /\
  can_make sample_design sample_counter = true /\
  0 < int "5" - (int "2" + int "1") /\
  (forall f,
      production_facility ["AS2a1b5"] ["bS"; "cS"; "aL"; "cS"; "aS"; "cS"; "cS"; "aS"]
      = Some f ->
      keys (small_flowers_counter f) = ["b"; "c"; "a"]%char) /\
  exists c2,
    try_design (sample_counter, []) sample_design = (c2, ["AS2a1b"]) /\
    keys c2 = ["b"; "c"; "a"]%char /\
    count c2 "b" = 0 /\ count c2 "c" = 4 - 2 /\ count c2 "a" = 1.
Proof.
  assert (Hc : NoDup (keys sample_counter)) by solve_nodup.
  assert (Hf : NoDup (keys (flowers sample_design))) by solve_nodup.
  assert (Hcan : can_make sample_design sample_counter = true) by reflexivity.
  assert (Hpos : 0 < int "5" - (int "2" + int "1")) by reflexivity.
  refine (conj _ (conj Hc (conj Hf (conj Hcan (conj Hpos (conj _ _)))))).
  - vm_compute. discriminate.
  - intros f Hf'. exact (proj1 C3_additional_flowers _ _ f "S"%char Hf').
  - destruct (proj2 C3_additional_flowers sample_design sample_counter [] Hc Hf Hcan Hpos)
      as (c1 & c2 & Hk1 & Hcounts & Ht & Hk2 & Hcases).
    exists c2. split; [assumption|]. split; [assumption|].
    assert (Hb := Hcounts "b"%char). assert (Hcc := Hcounts "c"%char).
    assert (Ha := Hcounts "a"%char). simpl in Hb, Hcc, Ha.
    destruct c1 as [|[k1 v1] [|[k2 v2] [|[k3 v3] [|]]]]; try discriminate Hk1.
    injection Hk1 as -> -> ->.
    unfold count in Hb, Ha. simpl in Hb, Ha, Hcc. injection Hcc as ->. subst v1 v3.
    destruct Hcases as [(pre & key & post & Hsplit & Hpre & Hkey & Hcount & Hother)|[Hall _]].
    + simpl in Hsplit.
      destruct pre as [|p0 [|p1 [|p2 pre]]]; simpl in Hsplit.
      * injection Hsplit as <- <-. vm_compute in Hkey. exfalso. now apply Hkey.
      * injection Hsplit as <- <- <-.
        split; [| split].
        -- unfold count. rewrite (Hother "b"%char) by discriminate. reflexivity.
        -- rewrite Hcount. reflexivity.
        -- unfold count. rewrite (Hother "a"%char) by discriminate. reflexivity.
      * injection Hsplit as <- <- <- <-.
        assert (Hbad := Hpre "c"%char (or_intror (or_introl eq_refl))).
        vm_compute in Hbad. discriminate Hbad.
      * exfalso. injection Hsplit as _ _ _ Hrest. destruct pre; discriminate Hrest.
    + exfalso. assert (Hbad := Hall "c"%char). vm_compute in Hbad. discriminate Hbad.
Defined.

(** ** A design without named flowers *)

Lemma no_flower_raises_get stream flower :
  existsb flower_raises stream = false -> In flower stream ->
  exists size name, String.get 1 flower = Some size /\ String.get 0 flower = Some name.
Proof.
  intros H Hin.
  assert (Hf : flower_raises flower = false).
  { destruct (flower_raises flower) eqn:E; [|reflexivity].
    assert (X : existsb flower_raises stream = true)
      by (apply existsb_exists; now exists flower).
    congruence. }
  unfold flower_raises in Hf. apply Nat.ltb_ge in Hf.
  destruct flower as [|c0 [|c1 s]]; simpl in Hf; try lia.
  now exists c1, c0.
Qed.

(** A design of the extraction pattern without named flowers whose total has
    4301 digits is registered; a flower of its size arrives, the conversion
    of the total raises, and nothing is printed. *)
Lemma C10_counterexample :
  is_bouquet_design (String "C" (String "S" long_numeral)) = true /\
  add_bouquet_designs [String "C" (String "S" long_numeral)] [] []
  = Some ([("C"%char, long_design)], []) /\
  flowers long_design = [] /\
  Checked.production_facility [String "C" (String "S" long_numeral)] ["aS"] = None.
Proof.
  split; [vm_compute; reflexivity|]. split; [vm_compute; reflexivity|].
  split; [reflexivity|]. vm_compute. reflexivity.
Qed.

(** C10, amended.  A design without named flowers can be made from every
    counter and its subtraction loop changes nothing.  When the numerals of
    the designs have at most 4300 digits, every flower of its size is
    received without an exception and prints its bouquet, the design stays in
    its dictionary, and over a stream of flowers of two characters or more
    the bouquet is printed at least once for each flower of that size. *)
Theorem C10_design_without_flowers (f : facility) (size bouquet_name : ascii) (d : design) :
  dict_get (designs_for f size) bouquet_name = Some d ->
  flowers d = [] ->
  (forall c, can_make d c = true /\ subtract_flowers d c = c /\
             Checked.matching_flower_numbers d c = Some []) /\
  (forall flower size',
      String.get 1 flower = Some size' -> same_size size size' = true ->
      (forall n d', dict_get (designs_for f size) n = Some d' -> design_fits d') ->
      exists f' out,
        Checked.receive f flower = Some f' /\
        dict_get (designs_for f' size) bouquet_name = Some d /\
        printed f' = printed f ++ out /\ In (bouquet d) out) /\
  (forall stream,
      (forall s n d', dict_get (designs_for f s) n = Some d' -> design_fits d') ->
      existsb flower_raises stream = false ->
      exists f',
        Checked.receive_all f stream = Some f' /\
        dict_get (designs_for f' size) bouquet_name = Some d /\
        (printed_times (bouquet d) (printed f) + List.length (names_for size stream)
         <= printed_times (bouquet d) (printed f'))%nat).
Proof.
  intros Hd Hnone.
  destruct (design_without_flowers_run f size bouquet_name d Hd Hnone) as (H1 & H2 & H3).
  split; [| split].
  - intros c. destruct (H1 c) as [Ha Hb]. split; [assumption|]. split; [assumption|].
    unfold Checked.matching_flower_numbers.
    assert (G : forall ks, fold_left (Checked.matching_step d c) ks (Some []) = Some []).
    { induction ks as [|k ks IH]; cbn [fold_left]; [reflexivity|].
      unfold Checked.matching_step at 2, Checked.enough. now rewrite Hnone. }
    apply G.
  - intros flower size' Hs Hsame Hfit.
    assert (Hfit' : forall size0 n d', String.get 1 flower = Some size0 ->
                 dict_get (designs_for f size0) n = Some d' -> design_fits d').
    { intros size0 n d' Hs0. assert (size0 = size') by congruence. subst size0.
      rewrite (same_size_designs f size size' Hsame). apply Hfit. }
    rewrite (checked_receive f flower Hfit').
    destruct flower as [|c0 [|c1 rest]]; try discriminate Hs.
    destruct (receive_total f (String c0 (String c1 rest)) c1 c0 eq_refl eq_refl) as [f' Hf'].
    destruct (H2 _ size' f' Hs Hsame Hf') as (Hd' & out & Hp & Hin).
    exists f', out. now repeat split.
  - intros stream Hfit Hok.
    rewrite (checked_receive_all stream f Hfit).
    destruct (receive_all f stream) as [f'|] eqn:E.
    + exists f'. destruct (H3 stream f' E) as [Ha Hb]. now repeat split.
    + exfalso. apply receive_all_None in E. congruence.
Qed.

Lemma design_fits_sample : design_fits sample_design.
Proof. split; [reflexivity | repeat constructor]. Qed.

Lemma design_fits_sample_without_flowers : design_fits sample_design_without_flowers.
Proof. split; [reflexivity | constructor]. Qed.

Lemma sample_facility_fits s n d' :
  dict_get (designs_for sample_facility s) n = Some d' -> design_fits d'.
Proof.
  unfold designs_for. destruct (Ascii.eqb s "L"); intros H;
    apply dict_get_Some_In in H; destruct H as [[= <- <-]|[]].
  - apply design_fits_sample_without_flowers.
  - apply design_fits_sample.
Qed.

Lemma C10_design_without_flowers_witness :
  dict_get (designs_for sample_facility "L") "C"%char = Some sample_design_without_flowers /\
  flowers sample_design_without_flowers = [] /\
  existsb flower_raises ["bL"; "aS"; "bL"] = false /\
  exists f',
    Checked.receive_all sample_facility ["bL"; "aS"; "bL"] = Some f' /\
    (1 + 2 <= printed_times "CS" (printed f'))%nat.
Proof.
  assert (Hd : dict_get (designs_for sample_facility "L") "C"%char
               = Some sample_design_without_flowers) by reflexivity.
  assert (Hn : flowers sample_design_without_flowers = []) by reflexivity.
  assert (Hok : existsb flower_raises ["bL"; "aS"; "bL"] = false) by reflexivity.
  refine (conj Hd (conj Hn (conj Hok _))).
  destruct (proj2 (proj2
    (C10_design_without_flowers sample_facility "L" "C" sample_design_without_flowers Hd Hn))
    ["bL"; "aS"; "bL"] sample_facility_fits Hok) as (f' & Hr & _ & Hcount).
  exists f'. split; [exact Hr | exact Hcount].
Defined.

(** ** Exceptions *)

Lemma checked_receive_all_short stream : forall f,
  existsb flower_raises stream = true -> Checked.receive_all f stream = None.
Proof.
  induction stream as [|flower stream IH]; intros f H; cbn [existsb Checked.receive_all] in *;
    [discriminate|].
  destruct (Checked.receive f flower) as [f1|] eqn:E; [|reflexivity].
  apply orb_true_iff in H. destruct H as [H|H]; [|now apply IH].
  exfalso. unfold flower_raises in H. apply Nat.ltb_lt in H.
  unfold Checked.receive in E.
  destruct flower as [|c0 [|c1 s]]; simpl in H; try lia; discriminate E.
Qed.

(** The run raises when a design is empty or has no digit from position 2
    on, and when a flower has fewer than two characters ([IndexError]); when
    every numeral of the designs has at most 4300 digits, so that no
    conversion raises [ValueError], it raises in these cases only. *)
Theorem production_facility_raises (bouquet_designs stream_of_flowers : list string) :
  (existsb design_raises bouquet_designs = true \/
   existsb flower_raises stream_of_flowers = true ->
   Checked.production_facility bouquet_designs stream_of_flowers = None) /\
  (forallb text_fits bouquet_designs = true ->
   Checked.production_facility bouquet_designs stream_of_flowers = None ->
   existsb design_raises bouquet_designs = true \/
   existsb flower_raises stream_of_flowers = true).
Proof.
  split.
  - intros H. unfold Checked.production_facility.
    destruct (add_bouquet_designs bouquet_designs [] []) as [[small large]|] eqn:E;
      [|reflexivity].
    destruct H as [H|H].
    + apply (add_bouquet_designs_None bouquet_designs [] []) in H. congruence.
    + now apply checked_receive_all_short.
  - intros Hfit H. rewrite checked_production_facility in H by assumption.
    now apply production_facility_None.
Qed.

Lemma production_facility_raises_witness :
  existsb flower_raises ["aS"; "b"] = true /\
  forallb text_fits ["AS2a1b5"] = true /\
  Checked.production_facility ["AS2a1b5"] ["aS"; "b"] = None /\
  (existsb design_raises ["AS2a1b5"] = true \/ existsb flower_raises ["aS"; "b"] = true).
Proof.
  assert (H1 : existsb flower_raises ["aS"; "b"] = true) by reflexivity.
  assert (H2 : forallb text_fits ["AS2a1b5"] = true) by reflexivity.
  assert (H3 := proj1 (production_facility_raises ["AS2a1b5"] ["aS"; "b"]) (or_intror H1)).
  refine (conj H1 (conj H2 (conj H3 _))).
  exact (proj2 (production_facility_raises ["AS2a1b5"] ["aS"; "b"]) H2 H3).
Defined.

(** The designs and the flowers extracted from a text have the shape of
    their pattern; when the numerals of the extracted designs have at most
    4300 digits, the run on what is extracted does not raise. *)
Theorem extracted_input_is_accepted (input_stream : string) :
  Forall (fun bd => is_bouquet_design bd = true)
    (extract_bouquet_designs_from_input_stream input_stream) /\
  Forall (fun fl => is_flower fl = true)
    (extract_flowers_from_input_stream input_stream) /\
  (forallb text_fits (extract_bouquet_designs_from_input_stream input_stream) = true ->
   exists f,
     Checked.production_facility
       (extract_bouquet_designs_from_input_stream input_stream)
       (extract_flowers_from_input_stream input_stream) = Some f).
Proof.
  assert (Hd : Forall (fun bd => is_bouquet_design bd = true)
                 (extract_bouquet_designs_from_input_stream input_stream)).
  { eapply Forall_impl; [|apply findall_items_matches]. apply matches_bouquet_design. }
  assert (Hf : Forall (fun fl => is_flower fl = true)
                 (extract_flowers_from_input_stream input_stream)).
  { eapply Forall_impl; [|apply findall_items_matches]. apply matches_flower. }
  refine (conj Hd (conj Hf _)). intros Hfit.
  rewrite checked_production_facility by assumption.
  destruct (production_facility _ _) as [f|] eqn:E; [now exists f|]. exfalso.
  apply production_facility_None in E.
  destruct E as [E|E]; apply existsb_exists in E; destruct E as (x & Hx & Hr).
  - rewrite Forall_forall in Hd. rewrite (bouquet_design_does_not_raise x (Hd x Hx)) in Hr.
    discriminate Hr.
  - rewrite Forall_forall in Hf. rewrite (flower_does_not_raise x (Hf x Hx)) in Hr.
    discriminate Hr.
Qed.

Lemma extracted_input_is_accepted_witness :
  forallb text_fits (extract_bouquet_designs_from_input_stream "AS2a1b5 BL1a3 aS bS aL aS")
  = true /\
  exists f,
    Checked.production_facility
      (extract_bouquet_designs_from_input_stream "AS2a1b5 BL1a3 aS bS aL aS")
      (extract_flowers_from_input_stream "AS2a1b5 BL1a3 aS bS aL aS") = Some f.
Proof.
  assert (H : forallb text_fits
                (extract_bouquet_designs_from_input_stream "AS2a1b5 BL1a3 aS bS aL aS")
              = true) by reflexivity.
  refine (conj H _).
  exact (proj2 (proj2 (extracted_input_is_accepted "AS2a1b5 BL1a3 aS bS aL aS")) H).
Defined.

(** ** The claims about the bouquets of one flower *)





(** ** The claims about the order of the designs *)




(** ** The claims about the designs *)

(** C2.  The design [LS1a1], of size [S] by its second character, is stored
    among the large designs, because its name is [L] and the first loop
    tests ['L' in bouquet_design]: a small [a] never makes its bouquet, a
    large [a] does. *)
Theorem C2_design_named_L_is_filed_as_large :
  is_bouquet_design "LS1a1" = true /\
  String.get 1 "LS1a1" = Some "S"%char /\
  add_bouquet_designs ["LS1a1"] [] []
  = Some ([], [("L"%char, {| total_number_of_flowers := "1";
                             flowers := [("a"%char, "1")];
                             bouquet := "LSa" |})]) /\
  option_map printed (Checked.production_facility ["LS1a1"] ["aS"]) = Some [] /\
  option_map printed (Checked.production_facility ["LS1a1"] ["aL"]) = Some ["LSa"].
Proof. repeat split; vm_compute; reflexivity. Qed.

(** C4.  The design of [AS0a0] asks for zero flowers [a].  After a flower
    [b], the counter holds for every flower name of the design at least the
    number asked for (zero [a], by default), and yet the test of line 76
    fails, because [a] is not a key of the counter: the bouquet is printed
    only once an [a] has arrived. *)
Theorem C4_zero_of_an_unseen_flower_blocks :
  is_bouquet_design "AS0a0" = true /\
  add_bouquet_designs ["AS0a0"] [] []
  = Some ([("A"%char, {| total_number_of_flowers := "0";
                         flowers := [("a"%char, "0")];
                         bouquet := "ASa" |})], []) /\
  (forall k n,
      dict_get [("a"%char, "0")] k = Some n -> int n <= count [("b"%char, 1)] k) /\
  can_make {| total_number_of_flowers := "0"; flowers := [("a"%char, "0")];
              bouquet := "ASa" |} [("b"%char, 1)] = false /\
  option_map printed (Checked.production_facility ["AS0a0"] ["bS"]) = Some [] /\
  option_map printed (Checked.production_facility ["AS0a0"] ["bS"; "aS"]) = Some ["ASa"].
Proof.
  split; [reflexivity|]. split; [reflexivity|]. split.
  - intros k n Hk. apply dict_get_Some_In in Hk. destruct Hk as [[= <- <-]|[]].
    vm_compute. discriminate.
  - repeat split; vm_compute; reflexivity.
Qed.

Lemma remove_first_at old pre : forall post,
  old <> EmptyString ->
  (forall i, (i < String.length pre)%nat ->
     prefix old (str_from i (pre ++ old ++ post)%string) = false) ->
  remove_first old (pre ++ old ++ post)%string = (pre ++ post)%string.
Proof.
  induction pre as [|c pre IH]; intros post Hold Hfirst.
  - simpl. destruct old as [|a old]; [congruence|].
    change ((String a old ++ post)%string) with (String a (old ++ post)%string).
    cbn [remove_first].
    change (String a (old ++ post)%string) with ((String a old ++ post)%string).
    rewrite prefix_app. clear.
    generalize (String a old). intros u. induction u as [|x u IH]; simpl; [reflexivity|].
    exact IH.
  - change ((String c pre ++ old ++ post)%string)
      with (String c (pre ++ old ++ post)%string).
    cbn [remove_first].
    assert (H0 := Hfirst O ltac:(simpl; lia)). cbn [str_from] in H0.
    change ((String c pre ++ old ++ post)%string)
      with (String c (pre ++ old ++ post)%string) in H0.
    rewrite H0. simpl. f_equal. apply IH; [assumption|].
    intros i Hi. apply (Hfirst (S i)). simpl. lia.
Qed.

Lemma str_remove_first old pre post :
  old <> EmptyString ->
  (forall i, (i < String.length pre)%nat ->
     prefix old (str_from i (pre ++ old ++ post)%string) = false) ->
  str_remove old (pre ++ old ++ post)%string = (pre ++ str_remove old post)%string.
Proof.
  intros Hold Hfirst. unfold str_remove. destruct old as [|a t]; [congruence|].
  now apply remove_occurrences_first.
Qed.

Lemma prefix_number_not_digit total c s :
  is_number total = true -> is_digit c = false -> prefix total (String c s) = false.
Proof.
  destruct total as [|a t]; [discriminate|]. simpl. intros H Hc.
  apply andb_true_iff in H. destruct H as [Ha _].
  destruct (ascii_dec a c) as [->|]; [congruence | reflexivity].
Qed.

(** The description [AS10a10]: the numeral of the total occurs twice, the
    program removes both occurrences, the words of the specification only
    the first. *)
Lemma C6_counterexample :
  is_bouquet_design "AS10a10" = true /\
  create_bouquet_designs_matching_structure "AS10a10" []
  = Some [("A"%char, {| total_number_of_flowers := "10";
                        flowers := [("a"%char, "10")];
                        bouquet := "ASa" |})] /\
  display_code_of_spec "AS10a10" "10" = "ASa10" /\
  "ASa" <> display_code_of_spec "AS10a10" "10".
Proof. repeat split; try (vm_compute; reflexivity). vm_compute. discriminate. Qed.

(** C6, amended.  The bouquet of a design is its whole description with
    every occurrence of the total's numeral removed, from the left.  For a
    description that starts with two characters that are not digits and
    whose remainder has the first occurrence of the numeral after [pre] and
    before [post], the specification's display code is the two characters,
    [pre] and [post], while the bouquet is the two characters, [pre], and
    [post] with its occurrences of the numeral removed in turn: the two agree
    exactly when nothing is removed from [post]. *)
Theorem C6_bouquet_drops_every_occurrence (bouquet_design : string) (reg reg' : dict design) :
  create_bouquet_designs_matching_structure bouquet_design reg = Some reg' ->
  exists name d,
    String.get 0 bouquet_design = Some name /\
    dict_get reg' name = Some d /\
    bouquet d = str_remove (total_number_of_flowers d) bouquet_design /\
    forall c0 c1 pre post,
      bouquet_design
      = String c0 (String c1 (pre ++ total_number_of_flowers d ++ post)%string) ->
      is_digit c0 = false -> is_digit c1 = false ->
      (forall i, (i < String.length pre)%nat ->
         prefix (total_number_of_flowers d)
           (str_from i (pre ++ total_number_of_flowers d ++ post)%string) = false) ->
      display_code_of_spec bouquet_design (total_number_of_flowers d)
      = String c0 (String c1 (pre ++ post)%string) /\
      bouquet d
      = String c0 (String c1 (pre ++ str_remove (total_number_of_flowers d) post)%string) /\
      (bouquet d = display_code_of_spec bouquet_design (total_number_of_flowers d)
       <-> str_remove (total_number_of_flowers d) post = post).
Proof.
  intros Hc. destruct (create_inv _ _ _ Hc) as (name & rest & total & H0 & Hdigits & ->).
  eexists name, _. split; [assumption|]. split; [apply dict_get_set_same|]. simpl.
  split; [reflexivity|].
  assert (Ht : is_number total = true).
  { assert (N := findall_digits_numbers (str_from 2 bouquet_design)).
    rewrite Hdigits in N. apply Forall_app in N. destruct N as [_ N]. now inversion N. }
  assert (Hne : total <> EmptyString) by (intros ->; discriminate Ht).
  intros c0 c1 pre post Hbd Hc0 Hc1 Hfirst.
  assert (Hspec : display_code_of_spec bouquet_design total
                  = String c0 (String c1 (pre ++ post)%string)).
  { rewrite Hbd. simpl. now rewrite remove_first_at. }
  assert (Hcode : str_remove total bouquet_design
                  = String c0 (String c1 (pre ++ str_remove total post)%string)).
  { rewrite Hbd.
    change (String c0 (String c1 (pre ++ total ++ post)%string))
      with ((String c0 (String c1 pre) ++ total ++ post)%string).
    rewrite str_remove_first; [reflexivity | assumption |].
    intros i Hi. destruct i as [|[|i]].
    - exact (prefix_number_not_digit total c0 (String c1 pre ++ total ++ post) Ht Hc0).
    - exact (prefix_number_not_digit total c1 (pre ++ total ++ post) Ht Hc1).
    - assert (Hi' : (i < String.length pre)%nat) by (simpl in Hi; lia).
      exact (Hfirst i Hi'). }
  split; [assumption|]. split; [assumption|].
  rewrite Hspec, Hcode. split.
  - intros [= H]. revert H. clear. induction pre as [|x pre IH]; simpl; [trivial|].
    intros [= H]. now apply IH.
  - now intros ->.
Qed.

Lemma C6_bouquet_drops_every_occurrence_witness :
  exists reg',
    create_bouquet_designs_matching_structure "AS10a25b25" [] = Some reg' /\
    exists d, dict_get reg' "A"%char = Some d /\ bouquet d = "AS10ab" /\
              display_code_of_spec "AS10a25b25" (total_number_of_flowers d) = "AS10ab25".
Proof.
  destruct (create_bouquet_designs_matching_structure "AS10a25b25" []) as [reg'|] eqn:E;
    [| vm_compute in E; discriminate E].
  exists reg'. split; [reflexivity|].
  destruct (C6_bouquet_drops_every_occurrence "AS10a25b25" [] reg' E)
    as (name & d & H0 & Hd & _ & H).
  injection H0 as <-. exists d. split; [assumption|].
  assert (Ht : total_number_of_flowers d = "25").
  { vm_compute in E. injection E as <-. vm_compute in Hd. now injection Hd as <-. }
  destruct (H "A"%char "S"%char "10a" "b25") as (Hspec & Hb & _).
  - now rewrite Ht.
  - reflexivity.
  - reflexivity.
  - rewrite Ht. intros i Hi. simpl in Hi.
    do 3 (destruct i as [|i]; [reflexivity|]). lia.
  - split; [rewrite Hb, Ht; reflexivity | rewrite Hspec; reflexivity].
Defined.

(** C7.  Whenever a design is made from a description, its total is the last
    numeral found from position 2 on and its flowers are the lowercase
    letters found there paired in order with the other numerals.  For a
    description written as a name, a size, numerals each followed by a
    lowercase name, and a final numeral, the numerals and the letters found
    are those of the description, the total is the final numeral and, the
    names being distinct, every name has the numeral written before it.
    [AS10a10b25] gives the flowers [a: 10] and [b: 10], the total [25] and
    the bouquet [AS10a10b]. *)
Theorem C7_compilation :
  (forall bouquet_design reg reg',
      create_bouquet_designs_matching_structure bouquet_design reg = Some reg' ->
      exists name numerals total,
        String.get 0 bouquet_design = Some name /\
        findall_digits (str_from 2 bouquet_design) = numerals ++ [total] /\
        dict_get reg' name
        = Some {| total_number_of_flowers := total;
                  flowers := dict_of_pairs
                               (combine (findall_lower (str_from 2 bouquet_design)) numerals);
                  bouquet := str_remove total bouquet_design |}) /\
  (forall name size pairs total reg,
      Forall (fun p => is_number (fst p) = true /\ is_lower (snd p) = true) pairs ->
      is_number total = true ->
      NoDup (map snd pairs) ->
      findall_digits (str_from 2 (design_text name size pairs total))
      = map fst pairs ++ [total] /\
      findall_lower (str_from 2 (design_text name size pairs total)) = map snd pairs /\
      exists d,
        create_bouquet_designs_matching_structure (design_text name size pairs total) reg
        = Some (dict_set reg name d) /\
        total_number_of_flowers d = total /\
        flowers d = map (fun p => (snd p, fst p)) pairs /\
        (forall q l, In (q, l) pairs -> dict_get (flowers d) l = Some q)) /\
  (create_bouquet_designs_matching_structure "AS10a10b25" []
   = Some [("A"%char, {| total_number_of_flowers := "25";
                         flowers := [("a"%char, "10"); ("b"%char, "10")];
                         bouquet := "AS10a10b" |})] /\
   int "10" = 10 /\ int "25" = 25).
Proof.
  split; [| split].
  - intros bouquet_design reg reg' Hc.
    destruct (create_inv _ _ _ Hc) as (name & rest & total & H0 & Hd & ->).
    exists name, rest, total. split; [assumption|]. split; [assumption|].
    apply dict_get_set_same.
  - intros name size pairs total reg Hp Ht Hnd.
    assert (Hdigits := findall_digits_pairs pairs total Hp Ht).
    assert (Hlower := findall_lower_pairs pairs total Hp Ht).
    split; [exact Hdigits|]. split; [exact Hlower|].
    assert (Hflowers : dict_of_pairs (map (fun p => (snd p, fst p)) pairs)
                       = map (fun p : string * ascii => (snd p, fst p)) pairs).
    { apply dict_of_pairs_distinct. now rewrite map_map. }
    eexists. split.
    + unfold create_bouquet_designs_matching_structure, design_text.
      cbn [String.get str_from]. cbv zeta.
      rewrite Hdigits, Hlower, pop_snoc, combine_snd_fst, Hflowers. reflexivity.
    + simpl. split; [reflexivity|]. split; [reflexivity|].
      intros q l Hin. apply dict_get_of_In.
      * unfold keys. now rewrite map_map.
      * apply in_map_iff. now exists (q, l).
  - repeat split; reflexivity.
Qed.

Lemma C7_compilation_witness :
  Forall (fun p => is_number (fst p) = true /\ is_lower (snd p) = true)
    [("3", "r"%char); ("12", "t"%char)] /\
  is_number "20" = true /\
  NoDup (map snd [("3", "r"%char); ("12", "t"%char)]) /\
  design_text "B" "L" [("3", "r"%char); ("12", "t"%char)] "20" = "BL3r12t20" /\
  exists d,
    create_bouquet_designs_matching_structure "BL3r12t20" [] = Some [("B"%char, d)] /\
    total_number_of_flowers d = "20" /\
    flowers d = [("r"%char, "3"); ("t"%char, "12")].
Proof.
  assert (Hp : Forall (fun p => is_number (fst p) = true /\ is_lower (snd p) = true)
                 [("3", "r"%char); ("12", "t"%char)])
    by (repeat constructor).
  assert (Ht : is_number "20" = true) by reflexivity.
  assert (Hnd : NoDup (map snd [("3", "r"%char); ("12", "t"%char)])) by solve_nodup.
  refine (conj Hp (conj Ht (conj Hnd (conj eq_refl _)))).
  destruct (proj1 (proj2 C7_compilation) "B"%char "L"%char _ "20" [] Hp Ht Hnd)
    as (_ & _ & d & Hc & Htotal & Hflowers & _).
  exists d. split; [exact Hc|]. split; [exact Htotal | exact Hflowers].
Defined.
